(** * Verification of the CSV ingestion pipeline (src/file_processor.py)

    A shallow embedding of [FileProcessor.__init__],
    [FileProcessor.read_csv_file], [FileProcessor.validate_data] and
    [FileProcessor.process_all_files].

    - A pandas DataFrame is a record: the length of its index and an
      association list from column names to column values (order matters,
      it is the column order).
    - The calls whose outcome the program cannot know ([os.listdir],
      [pd.read_csv], the date parser behind [pd.to_datetime], the comparison
      of objects behind [Series.min] and [Series.max] on a column without a
      single dtype, the clock behind [datetime.now]) are the fields of an
      environment [Env].  Each of them may raise.
    - Python's control effects are explicit: a computation takes the
      interpreter state (what has been printed so far, how many times the
      clock has been read) and gives back either a value or a raised
      exception, together with the new state.
    - Every [print] of the source is one constructor of [Event]. *)

From Stdlib Require Import String List ZArith Bool Arith Lia Permutation.
Import ListNotations.
Open Scope string_scope.
Open Scope list_scope.

(** ** Values held by a table *)

Inductive Cell : Type :=
| CStr (s : string)        (* text, as read from the file *)
| CInt (z : Z)             (* an integer (int64) *)
| CFloat (m e : Z)         (* the float64 of value m * 2^e *)
| CNaN                     (* missing value *)
| CTime (t : Z)            (* a timestamp without time zone *)
| CTimeTz (t offset : Z)   (* a timestamp with one: the instant, the offset *)
| CNaT                     (* missing timestamp: what errors='coerce' yields *)
| CNaTTz (offset : Z).     (* NaT in a column of timestamps with a time zone:
                              the same value, but pandas keeps the time zone
                              of the column it is in *)

(** Equality of the numbers m1 * 2^e1 and m2 * 2^e2. *)
Definition float_eqb (m1 e1 m2 e2 : Z) : bool :=
  let k := Z.min e1 e2 in
  (m1 * 2 ^ (e1 - k) =? m2 * 2 ^ (e2 - k))%Z.

(** NaT, in a column with or without a time zone. *)
Definition is_nat (c : Cell) : bool :=
  match c with
  | CNaT | CNaTTz _ => true
  | _ => false
  end.

(** [==] on values: numbers by value, timestamps with a time zone by
    instant. *)
Definition Cell_eqb (a b : Cell) : bool :=
  match a, b with
  | CStr x, CStr y => String.eqb x y
  | CInt x, CInt y => Z.eqb x y
  | CInt x, CFloat m e => float_eqb x 0 m e
  | CFloat m e, CInt y => float_eqb m e y 0
  | CFloat m1 e1, CFloat m2 e2 => float_eqb m1 e1 m2 e2
  | CNaN, CNaN => true
  | CTime x, CTime y => Z.eqb x y
  | CTimeTz x _, CTimeTz y _ => Z.eqb x y
  | (CNaT | CNaTTz _), _ => is_nat b
  | _, _ => false
  end.

(** [Series.isna] on one value. *)
Definition isna (c : Cell) : bool :=
  match c with
  | CNaN | CNaT | CNaTTz _ => true
  | _ => false
  end.

(** The float64 nearest to an integer (ties to even): what an int64 value
    becomes when its column is cast to float64. *)
Definition float64_of_Z (z : Z) : Cell :=
  let a := Z.abs z in
  if (a <? 2 ^ 53)%Z then CFloat z 0
  else
    let sh := (Z.log2 a - 52)%Z in
    let q := Z.shiftr a sh in
    let r := (a - Z.shiftl q sh)%Z in
    let half := Z.shiftl 1 (sh - 1) in
    let q' := if (r <? half)%Z then q
              else if (half <? r)%Z then (q + 1)%Z
              else if Z.even q then q else (q + 1)%Z in
    CFloat (Z.sgn z * q') sh.

(** [astype(float64)] on one value of an int64 column. *)
Definition to_float64 (c : Cell) : Cell :=
  match c with
  | CInt z => float64_of_Z z
  | _ => c
  end.

(** ** DataFrames *)

Record DataFrame : Type := mkDF {
  nrows : nat;                          (* len(df.index) *)
  cols : list (string * list Cell)      (* the columns, in order *)
}.

(** [df.columns] *)
Definition columns (df : DataFrame) : list string := map fst (cols df).

(** [len(df)] *)
Definition len (df : DataFrame) : nat := nrows df.

(** [df.empty]: true when either axis has length zero. *)
Definition empty (df : DataFrame) : bool :=
  (nrows df =? 0)%nat || (length (cols df) =? 0)%nat.

(** [name in df.columns] *)
Definition has_column (name : string) (df : DataFrame) : bool :=
  existsb (String.eqb name) (columns df).

Fixpoint assoc_get (k : string) (l : list (string * list Cell))
  : option (list Cell) :=
  match l with
  | [] => None
  | (k', v) :: t => if String.eqb k k' then Some v else assoc_get k t
  end.

Fixpoint assoc_set (k : string) (v : list Cell)
  (l : list (string * list Cell)) : list (string * list Cell) :=
  match l with
  | [] => [(k, v)]
  | (k', v') :: t =>
      if String.eqb k k' then (k, v) :: t else (k', v') :: assoc_set k v t
  end.

(** [df[name] = values]: overwrites the column when it exists, appends it
    as the last column otherwise. *)
Definition setitem (name : string) (values : list Cell) (df : DataFrame)
  : DataFrame :=
  {| nrows := nrows df; cols := assoc_set name values (cols df) |}.

(** [df[name] = scalar] broadcasts the scalar over the index. *)
Definition setitem_scalar (name : string) (v : Cell) (df : DataFrame)
  : DataFrame :=
  setitem name (repeat v (nrows df)) df.

(** ** Exceptions

    The classes the library calls of this module raise.  All of them derive
    from [Exception]; asynchronous interrupts are outside the model. *)

Inductive ExcClass : Type :=
| FileNotFoundError
| PermissionError
| EmptyDataError          (* pd.errors.EmptyDataError *)
| ParserError             (* pd.errors.ParserError *)
| KeyError
| ValueError
| TypeError
| OtherException (name : string).

Record PyExc : Type := mkExc { exc_class : ExcClass; exc_msg : string }.

(** [type(e).__name__] *)
Definition class_name (c : ExcClass) : string :=
  match c with
  | FileNotFoundError => "FileNotFoundError"
  | PermissionError => "PermissionError"
  | EmptyDataError => "EmptyDataError"
  | ParserError => "ParserError"
  | KeyError => "KeyError"
  | ValueError => "ValueError"
  | TypeError => "TypeError"
  | OtherException n => n
  end.

Inductive Res (A : Type) : Type :=
| Ret (a : A)
| Raise (e : PyExc).
Arguments Ret {A} a.
Arguments Raise {A} e.

(** [df[name]] raises [KeyError] on an unknown column. *)
Definition getitem (name : string) (df : DataFrame) : Res (list Cell) :=
  match assoc_get name (cols df) with
  | Some v => Ret v
  | None => Raise (mkExc KeyError name)
  end.

(** ** What the program prints

    One constructor per [print] statement of the source, carrying the values
    interpolated into the message. *)

Inductive Event : Type :=
(* read_csv_file *)
| MsgReading (filepath : string)
| WarnInvalidDates (n : nat)
| MsgReadOk
| MsgRows (n : nat)
| MsgColumns (n : nat)
| ErrFileNotFound (filepath : string)
| ErrEmptyFile (filepath : string)
| ErrParser (filepath : string)
| ErrParserDetail (detail : string)
| ErrUnexpected (filepath cls msg : string)
(* validate_data *)
| MsgValidating
| ValNone
| ValEmpty
| ValMissing (missing : list string)
| ValVisible (present : list string)
| ValOk
(* process_all_files *)
| MsgSearching (folder : string)
| MsgFound (n : nat)
| MsgCsvFound (n : nat)
| WarnNoCsv
| HintCopy (folder : string)
| MsgToProcess (files : list string)
| ErrDirNotFound (folder : string)
| ErrDirPermission (folder : string)
| MsgProcessing (filename : string)
| MsgFileOk (filename : string)
| MsgFileFailed (filename : string)
| SummaryHeader
| SummaryProcessed (n : nat)
| SummarySucceeded (n : nat)
| SummaryFailed (n : nat)
| SummaryFailedList (files : list string)
| MsgCombining (n : nat)
| MsgCompleted
| MsgTotal (n : nat)
| MsgDateRange (lo hi : Cell)
| MsgMachines (n : nat)
| MsgShifts (shifts : list Cell)
| MsgNoneValid.

(** ** The environment and the interpreter state *)

(** What one call of [pd.to_datetime(column, errors='coerce')] makes of the
    values of the column it was given, when it returns: timestamps that all
    have no time zone, or that all have the same one; a value it cannot
    convert has no timestamp. *)
Inductive Conversion : Type :=
| NaiveDates (f : Cell -> option Z)
| AwareDates (offset : Z) (f : Cell -> option Z).

Record Env : Type := mkEnv {
  os_listdir : string -> Res (list string);
  pd_read_csv : string -> Res DataFrame;
  (* the day of the run, which the date parser reads to complete a value
     that is a time of day only (a run is taken to stay within one day) *)
  today : Z;
  (* the date parser, on a day and a column: it chooses how to read the
     values from the column as a whole, and may raise *)
  pd_to_datetime : Z -> list Cell -> Res Conversion;
  (* [Series.min] and [Series.max] on a column of objects: they compare the
     values, and raise when two of them cannot be compared *)
  object_min : list Cell -> Res Cell;
  object_max : list Cell -> Res Cell;
  clock : nat -> Z
}.

Record State : Type := mkState {
  out : list Event;      (* standard output so far *)
  ticks : nat            (* how many times the clock was read *)
}.

Definition M (A : Type) : Type := State -> Res A * State.

Definition ret {A} (a : A) : M A := fun s => (Ret a, s).

Definition bind {A B} (m : M A) (k : A -> M B) : M B :=
  fun s =>
    match m s with
    | (Ret a, s') => k a s'
    | (Raise e, s') => (Raise e, s')
    end.

Notation "x <- m ;; k" := (bind m (fun x => k))
  (at level 61, m at next level, right associativity).
Notation "m ;;; k" := (bind m (fun _ => k))
  (at level 61, right associativity).

Definition lift {A} (r : Res A) : M A := fun s => (r, s).

Definition print (e : Event) : M unit :=
  fun s => (Ret tt, {| out := out s ++ [e]; ticks := ticks s |}).

(** [datetime.now()] *)
Definition datetime_now (env : Env) : M Z :=
  fun s => (Ret (clock env (ticks s)),
            {| out := out s; ticks := S (ticks s) |}).

(** [try: body  except ...:]  The handler gives [None] for an exception no
    [except] clause matches, which then keeps propagating. *)
Definition try_except {A} (body : M A) (handler : PyExc -> option (M A))
  : M A :=
  fun s =>
    match body s with
    | (Ret a, s') => (Ret a, s')
    | (Raise e, s') =>
        match handler e with
        | Some h => h s'
        | None => (Raise e, s')
        end
    end.

Definition initial : State := {| out := []; ticks := 0 |}.

(** The value a computation gives when started from a fresh interpreter. *)
Definition eval {A} (m : M A) : Res A := fst (m initial).

(** What it prints then. *)
Definition printed {A} (m : M A) : list Event := out (snd (m initial)).

(** ** Library functions used by the module *)

(** [s.endswith(suffix)] *)
Definition endswith (s suffix : string) : bool :=
  let n := String.length s in
  let m := String.length suffix in
  (m <=? n)%nat && String.eqb (substring (n - m) m s) suffix.

(** [s.startswith(p)] *)
Definition startswith (s p : string) : bool := prefix p s.

(** [os.path.join(a, b)] (POSIX) *)
Definition os_path_join (a b : string) : string :=
  if startswith b "/" then b
  else if String.eqb a "" || endswith a "/" then a ++ b
  else a ++ "/" ++ b.

(** The value a conversion gives for a value of its column. *)
Definition converted (k : Conversion) (v : Cell) : Cell :=
  match k with
  | NaiveDates f =>
      match f v with Some t => CTime t | None => CNaT end
  | AwareDates offset f =>
      match f v with Some t => CTimeTz t offset | None => CNaTTz offset end
  end.

(** [pd.to_datetime(series, errors='coerce')] on a series whose index has
    [index_len] entries: the values converted one by one, or the exception of
    the parser.  A series without rows has nothing to parse and comes back
    empty. *)
Definition to_datetime (env : Env) (index_len : nat) (values : list Cell)
  : Res (list Cell) :=
  if (index_len =? 0)%nat then Ret []
  else
    match pd_to_datetime env (today env) values with
    | Ret k => Ret (map (converted k) values)
    | Raise e => Raise e
    end.

(** [series.isna().sum()] *)
Definition isna_sum (l : list Cell) : nat := length (filter isna l).

(** First occurrences, in order. *)
Fixpoint dedup (l : list string) : list string :=
  match l with
  | [] => []
  | x :: t => x :: filter (fun y => negb (String.eqb x y)) (dedup t)
  end.

(** The columns of a row-wise concatenation: the union of the frames'
    columns, in order of first appearance. *)
Definition union_columns (frames : list DataFrame) : list string :=
  dedup (flat_map columns frames).

(** A frame's values for column [c], or NaN on every row when it lacks the
    column. *)
Definition column_or_nan (c : string) (df : DataFrame) : list Cell :=
  match assoc_get c (cols df) with
  | Some v => v
  | None => repeat CNaN (nrows df)
  end.

Definition is_int (c : Cell) : bool :=
  match c with CInt _ => true | _ => false end.

Definition is_numeric (c : Cell) : bool :=
  match c with CInt _ | CFloat _ _ | CNaN => true | _ => false end.

(** The dtype of a column with at least one value (the frames the program
    concatenates have rows), as far as the concatenation minds it. *)
Inductive Dtype : Type := Int64 | Float64 | Object.

Definition column_dtype (v : list Cell) : Dtype :=
  if forallb is_int v then Int64
  else if forallb is_numeric v then Float64
  else Object.

(** Whether the concatenation casts column [c] to float64: no frame holds
    objects in it, and one holds floats or lacks the column (its rows are
    filled with NaN, a float). *)
Definition upcast_to_float (c : string) (frames : list DataFrame) : bool :=
  let dtypes :=
    map (fun df => option_map column_dtype (assoc_get c (cols df))) frames in
  existsb (fun d => match d with
                    | None | Some Float64 => true
                    | _ => false
                    end) dtypes &&
  forallb (fun d => match d with Some Object => false | _ => true end) dtypes.

(** A frame's contribution to column [c] of the concatenation: its values,
    the ones of an int64 column cast when the column becomes float64; NaN
    on every row when the frame lacks the column.  (The columns of
    timestamps of this program, the dates and the processing timestamps,
    are in every frame it concatenates: none is ever filled in.) *)
Definition concat_part (c : string) (to_float : bool) (df : DataFrame)
  : list Cell :=
  match assoc_get c (cols df) with
  | Some v => if to_float && forallb is_int v then map to_float64 v else v
  | None => repeat CNaN (nrows df)
  end.

(** [pd.concat(frames, ignore_index=True)]; raises [ValueError] when there is
    nothing to concatenate. *)
Definition pd_concat (frames : list DataFrame) : Res DataFrame :=
  match frames with
  | [] => Raise (mkExc ValueError "No objects to concatenate")
  | _ =>
      Ret {| nrows := list_sum (map nrows frames);
             cols := map (fun c =>
                            (c, flat_map (concat_part c (upcast_to_float c frames))
                                         frames))
                         (union_columns frames) |}
  end.

(** A column of timestamps without time zone, and NaT: the values of a
    column of dtype datetime64 without time zone. *)
Definition is_naive_column (l : list Cell) : bool :=
  forallb (fun c => match c with CTime _ | CNaT => true | _ => false end) l.

(** The time zone of the column a value is in, when it has one. *)
Definition aware_offset (c : Cell) : option Z :=
  match c with
  | CTimeTz _ offset | CNaTTz offset => Some offset
  | _ => None
  end.

(** A column of timestamps in one time zone, and NaT: the values of a column
    of dtype datetime64 with that time zone. *)
Definition is_aware_column (l : list Cell) : bool :=
  match l with
  | [] => false
  | c :: _ =>
      match aware_offset c with
      | Some offset =>
          forallb (fun x => match aware_offset x with
                            | Some o => Z.eqb o offset
                            | None => false
                            end) l
      | None => false
      end
  end.

(** The instant of a timestamp. *)
Definition instant (c : Cell) : option Z :=
  match c with
  | CTime t | CTimeTz t _ => Some t
  | _ => None
  end.

(** The earliest and the latest timestamp of a column, NaT when it has
    none. *)
Definition earliest (l : list Cell) : Cell :=
  fold_left (fun acc c =>
               match instant c, instant acc with
               | Some t, Some m => if (t <? m)%Z then c else acc
               | Some _, None => c
               | None, _ => acc
               end) l CNaT.

Definition latest (l : list Cell) : Cell :=
  fold_left (fun acc c =>
               match instant c, instant acc with
               | Some t, Some m => if (m <? t)%Z then c else acc
               | Some _, None => c
               | None, _ => acc
               end) l CNaT.

(** [series.min()] and [series.max()]: on a column of dtype datetime64,
    without time zone or with one, the earliest and the latest timestamp, NaT
    being skipped; on a column of objects (timestamps that are not all
    without time zone or all in one time zone), what the library makes of
    comparing them. *)
Definition series_min (env : Env) (l : list Cell) : Res Cell :=
  if is_naive_column l || is_aware_column l then Ret (earliest l)
  else object_min env l.

Definition series_max (env : Env) (l : list Cell) : Res Cell :=
  if is_naive_column l || is_aware_column l then Ret (latest l)
  else object_max env l.

(** [series.unique()]: distinct values in order of appearance. *)
Definition series_unique (l : list Cell) : list Cell :=
  fold_left (fun acc c => if existsb (Cell_eqb c) acc then acc else acc ++ [c])
            l [].

(** [series.nunique()]: distinct values, missing ones not counted. *)
Definition series_nunique (l : list Cell) : nat :=
  length (series_unique (filter (fun c => negb (isna c)) l)).

(** ** FileProcessor.read_csv_file *)

Definition read_csv_file (env : Env) (filepath : string)
  : M (option DataFrame) :=
  try_except
    (print (MsgReading filepath) ;;;
     df <- lift (pd_read_csv env filepath) ;;
     df <- (if has_column "fecha" df then
              fecha <- lift (getitem "fecha" df) ;;
              fecha <- lift (to_datetime env (len df) fecha) ;;
              let df := setitem "fecha" fecha df in
              fecha <- lift (getitem "fecha" df) ;;
              let invalid_dates := isna_sum fecha in
              (if (0 <? invalid_dates)%nat
               then print (WarnInvalidDates invalid_dates)
               else ret tt) ;;;
              ret df
            else ret df) ;;
     print MsgReadOk ;;;
     print (MsgRows (len df)) ;;;
     print (MsgColumns (length (columns df))) ;;;
     ret (Some df))
    (fun e =>
       match exc_class e with
       | FileNotFoundError =>
           Some (print (ErrFileNotFound filepath) ;;; ret None)
       | EmptyDataError =>
           Some (print (ErrEmptyFile filepath) ;;; ret None)
       | ParserError =>
           Some (print (ErrParser filepath) ;;;
                 print (ErrParserDetail (exc_msg e)) ;;;
                 ret None)
       | c =>
           Some (print (ErrUnexpected filepath (class_name c) (exc_msg e)) ;;;
                 ret None)
       end).

(** ** FileProcessor.validate_data *)

Definition required_colums : list string :=
  ["fecha"; "turno"; "maquina"; "produccion_unidades"; "operario"].

Definition validate_data (df : option DataFrame) : M bool :=
  print MsgValidating ;;;
  match df with
  | None => print ValNone ;;; ret false
  | Some df =>
      if empty df then print ValEmpty ;;; ret false
      else
        let missing_colums :=
          filter (fun col => negb (has_column col df)) required_colums in
        match missing_colums with
        | _ :: _ =>
            print (ValMissing missing_colums) ;;;
            print (ValVisible (columns df)) ;;;
            ret false
        | [] => print ValOk ;;; ret true
        end
  end.

(** ** FileProcessor.process_all_files *)

(** The three lists the loop fills. *)
Record Lists : Type := mkLists {
  valid_dataframes : list DataFrame;
  processed_files : list string;
  failed_files : list string
}.

(** The body of [for filename in csv_files]. *)
Definition process_file (env : Env) (input_folder : string)
  (acc : Lists) (filename : string) : M Lists :=
  print (MsgProcessing filename) ;;;
  let filepath := os_path_join input_folder filename in
  df <- read_csv_file env filepath ;;
  let processed := processed_files acc ++ [filename] in
  ok <- match df with
        | None => ret false                       (* [and] short-circuits *)
        | Some _ => validate_data df
        end ;;
  match df, ok with
  | Some df, true =>
      let df := setitem_scalar "archivo_origen" (CStr filename) df in
      now <- datetime_now env ;;
      let df := setitem_scalar "fecha_procesamiento" (CTime now) df in
      print (MsgFileOk filename) ;;;
      ret {| valid_dataframes := valid_dataframes acc ++ [df];
             processed_files := processed;
             failed_files := failed_files acc |}
  | _, _ =>
      print (MsgFileFailed filename) ;;;
      ret {| valid_dataframes := valid_dataframes acc;
             processed_files := processed;
             failed_files := failed_files acc ++ [filename] |}
  end.

Fixpoint process_loop (env : Env) (input_folder : string)
  (csv_files : list string) (acc : Lists) : M Lists :=
  match csv_files with
  | [] => ret acc
  | filename :: rest =>
      acc <- process_file env input_folder acc filename ;;
      process_loop env input_folder rest acc
  end.

(** How the first [try] block ends: with a [return], or by falling through
    to the loop with the files to process. *)
Inductive Discovery : Type :=
| Return (result : option DataFrame)
| Proceed (csv_files : list string).

Definition discover (env : Env) (input_folder : string) : M Discovery :=
  try_except
    (all_files <- lift (os_listdir env input_folder) ;;
     let csv_files := filter (fun f => endswith f ".csv") all_files in
     print (MsgFound (length all_files)) ;;;
     print (MsgCsvFound (length csv_files)) ;;;
     match csv_files with
     | [] =>
         print WarnNoCsv ;;;
         print (HintCopy input_folder) ;;;
         ret (Return None)
     | _ :: _ =>
         print (MsgToProcess csv_files) ;;;
         ret (Proceed csv_files)
     end)
    (fun e =>
       match exc_class e with
       | FileNotFoundError =>
           Some (print (ErrDirNotFound input_folder) ;;; ret (Return None))
       | PermissionError =>
           Some (print (ErrDirPermission input_folder) ;;; ret (Return None))
       | _ => None
       end).

(** The summary and the merge, after the loop. *)
Definition report_and_merge (env : Env) (acc : Lists)
  : M (option DataFrame) :=
  print SummaryHeader ;;;
  print (SummaryProcessed (length (processed_files acc))) ;;;
  print (SummarySucceeded (length (valid_dataframes acc))) ;;;
  print (SummaryFailed (length (failed_files acc))) ;;;
  (match failed_files acc with
   | _ :: _ => print (SummaryFailedList (failed_files acc))
   | [] => ret tt
   end) ;;;
  match valid_dataframes acc with
  | _ :: _ =>
      print (MsgCombining (length (valid_dataframes acc))) ;;;
      combined_df <- lift (pd_concat (valid_dataframes acc)) ;;
      print MsgCompleted ;;;
      print (MsgTotal (len combined_df)) ;;;
      fecha_lo <- lift (getitem "fecha" combined_df) ;;
      lo <- lift (series_min env fecha_lo) ;;
      fecha_hi <- lift (getitem "fecha" combined_df) ;;
      hi <- lift (series_max env fecha_hi) ;;
      print (MsgDateRange lo hi) ;;;
      maquina <- lift (getitem "maquina" combined_df) ;;
      print (MsgMachines (series_nunique maquina)) ;;;
      turno <- lift (getitem "turno" combined_df) ;;
      print (MsgShifts (series_unique turno)) ;;;
      ret (Some combined_df)
  | [] =>
      print MsgNoneValid ;;;
      ret None
  end.

Definition no_lists : Lists :=
  {| valid_dataframes := []; processed_files := []; failed_files := [] |}.

Definition process_all_files (env : Env) (input_folder : string)
  : M (option DataFrame) :=
  print (MsgSearching input_folder) ;;;
  d <- discover env input_folder ;;
  match d with
  | Return result => ret result
  | Proceed csv_files =>
      acc <- process_loop env input_folder csv_files no_lists ;;
      report_and_merge env acc
  end.
(** ** A concrete directory, for running the model

    [data/input] holds a valid file, a file without the [operario] column, a
    zero-byte file (pandas raises [EmptyDataError] on it), a file with a
    header row only (pandas returns a frame with the columns and no rows), a
    file with a date that cannot be parsed, a file that is not valid CSV and
    a file with another extension.  [fechas] holds a file whose dates have
    two time zones, [zonas] a file with dates without time zone and one with
    dates in a time zone, [horas] a file whose date is a time of day, and
    [lotes] two files of which one has a column of integers the other
    lacks.  Listing any other directory fails as a missing directory, except
    [/root], which may not be listed.

    Timestamps are hours since 2025-08-31 00:00 UTC, days are counted from
    that day, and time zones are hours ahead of UTC. *)
Module Demo.

Definition a_csv : DataFrame :=
  {| nrows := 2;
     cols := [("fecha", [CStr "2025-09-01"; CStr "2025-09-02"]);
              ("turno", [CStr "M"; CStr "T"]);
              ("maquina", [CStr "AT-1"; CStr "AT-2"]);
              ("produccion_unidades", [CInt 100; CInt 120]);
              ("operario", [CStr "Ana"; CStr "Luis"])] |}.

Definition b_csv : DataFrame :=
  {| nrows := 1;
     cols := [("fecha", [CStr "2025-09-03"]);
              ("turno", [CStr "N"]);
              ("maquina", [CStr "AT-1"]);
              ("produccion_unidades", [CInt 90]);
              ("comentario", [CStr "sin operario"])] |}.

Definition header_csv : DataFrame :=
  {| nrows := 0;
     cols := [("fecha", []); ("turno", []); ("maquina", []);
              ("produccion_unidades", []); ("operario", [])] |}.

Definition dates_csv : DataFrame :=
  {| nrows := 3;
     cols := [("fecha", [CStr "2025-09-04"; CStr "ayer"; CNaN]);
              ("turno", [CStr "M"; CStr "M"; CStr "T"]);
              ("maquina", [CStr "AT-3"; CStr "AT-1"; CStr "AT-3"]);
              ("produccion_unidades", [CInt 80; CInt 85; CInt 70]);
              ("operario", [CStr "Ana"; CStr "Eva"; CStr "Eva"])] |}.

Definition mixto_csv : DataFrame :=
  {| nrows := 3;
     cols := [("fecha", [CStr "ayer"; CStr "2025-09-01 10:00+01:00";
                         CStr "2025-09-02 10:00+02:00"]);
              ("turno", [CStr "M"; CStr "M"; CStr "T"]);
              ("maquina", [CStr "AT-1"; CStr "AT-1"; CStr "AT-2"]);
              ("produccion_unidades", [CInt 10; CInt 20; CInt 30]);
              ("operario", [CStr "Ana"; CStr "Ana"; CStr "Luis"])] |}.

Definition utc_csv : DataFrame :=
  {| nrows := 1;
     cols := [("fecha", [CStr "2025-09-01 10:00+01:00"]);
              ("turno", [CStr "N"]);
              ("maquina", [CStr "AT-4"]);
              ("produccion_unidades", [CInt 60]);
              ("operario", [CStr "Eva"])] |}.

Definition hora_csv : DataFrame :=
  {| nrows := 1;
     cols := [("fecha", [CStr "10:00"]);
              ("turno", [CStr "M"]);
              ("maquina", [CStr "AT-1"]);
              ("produccion_unidades", [CInt 50]);
              ("operario", [CStr "Ana"])] |}.

Definition l1_csv : DataFrame :=
  {| nrows := 1;
     cols := [("fecha", [CStr "2025-09-01"]);
              ("turno", [CStr "M"]);
              ("maquina", [CStr "AT-1"]);
              ("produccion_unidades", [CInt 100]);
              ("operario", [CStr "Ana"]);
              ("lote", [CInt 9007199254740993])] |}.

Definition l2_csv : DataFrame :=
  {| nrows := 1;
     cols := [("fecha", [CStr "2025-09-02"]);
              ("turno", [CStr "T"]);
              ("maquina", [CStr "AT-2"]);
              ("produccion_unidades", [CInt 120]);
              ("operario", [CStr "Luis"])] |}.

Definition listdir (folder : string) : Res (list string) :=
  if String.eqb folder "data/input" then
    Ret ["a.csv"; "b.csv"; "zero.csv"; "header.csv"; "dates.csv";
         "broken.csv"; "notas.txt"]
  else if String.eqb folder "vacia" then Ret []
  else if String.eqb folder "malos" then Ret ["zero.csv"; "header.csv"]
  else if String.eqb folder "fechas" then Ret ["mixto.csv"]
  else if String.eqb folder "zonas" then Ret ["a.csv"; "utc.csv"]
  else if String.eqb folder "horas" then Ret ["hora.csv"]
  else if String.eqb folder "lotes" then Ret ["l1.csv"; "l2.csv"]
  else if String.eqb folder "/root" then
    Raise (mkExc PermissionError "Permission denied")
  else Raise (mkExc FileNotFoundError "No such file or directory").

Definition read_csv (filepath : string) : Res DataFrame :=
  if String.eqb filepath "data/input/a.csv" then Ret a_csv
  else if String.eqb filepath "data/input/b.csv" then Ret b_csv
  else if String.eqb filepath "data/input/header.csv" then Ret header_csv
  else if String.eqb filepath "malos/header.csv" then Ret header_csv
  else if String.eqb filepath "data/input/dates.csv" then Ret dates_csv
  else if String.eqb filepath "fechas/mixto.csv" then Ret mixto_csv
  else if String.eqb filepath "zonas/a.csv" then Ret a_csv
  else if String.eqb filepath "zonas/utc.csv" then Ret utc_csv
  else if String.eqb filepath "horas/hora.csv" then Ret hora_csv
  else if String.eqb filepath "lotes/l1.csv" then Ret l1_csv
  else if String.eqb filepath "lotes/l2.csv" then Ret l2_csv
  else if String.eqb filepath "data/input/zero.csv" then
    Raise (mkExc EmptyDataError "No columns to parse from file")
  else if String.eqb filepath "malos/zero.csv" then
    Raise (mkExc EmptyDataError "No columns to parse from file")
  else if String.eqb filepath "data/input/broken.csv" then
    Raise (mkExc ParserError "Error tokenizing data")
  else if String.eqb filepath "data/input/latin1.csv" then
    Raise (mkExc (OtherException "UnicodeDecodeError") "invalid start byte")
  else Raise (mkExc FileNotFoundError "No such file or directory").

(** How the parser reads one value on a day: a date of September 2025, at
    midnight; a time of day, on the day of the call; a date and time with a
    time zone, as its instant and the zone. *)
Inductive Reading : Type :=
| Naive (t : Z)
| Aware (t offset : Z)
| Unreadable.

Definition read_date (day : Z) (c : Cell) : Reading :=
  match c with
  | CStr s =>
      if String.eqb s "2025-09-01" then Naive 24
      else if String.eqb s "2025-09-02" then Naive 48
      else if String.eqb s "2025-09-03" then Naive 72
      else if String.eqb s "2025-09-04" then Naive 96
      else if String.eqb s "10:00" then Naive (24 * day + 10)
      else if String.eqb s "2025-09-01 10:00+01:00" then Aware 33 1
      else if String.eqb s "2025-09-02 10:00+02:00" then Aware 56 2
      else Unreadable
  | CTime t => Naive t
  | CTimeTz t offset => Aware t offset
  | _ => Unreadable
  end.

(** The time zones of the values of a column, as they come. *)
Definition offsets (day : Z) (col : list Cell) : list Z :=
  flat_map (fun c => match read_date day c with
                     | Aware _ offset => [offset]
                     | _ => []
                     end) col.

Definition has_naive (day : Z) (col : list Cell) : bool :=
  existsb (fun c => match read_date day c with
                    | Naive _ => true
                    | _ => false
                    end) col.

Definition naive_dates (day : Z) : Conversion :=
  NaiveDates (fun c => match read_date day c with
                       | Naive t => Some t
                       | _ => None
                       end).

Definition aware_dates (day offset : Z) : Conversion :=
  AwareDates offset (fun c => match read_date day c with
                              | Aware t _ => Some t
                              | _ => None
                              end).

(** The parser on a column: timestamps without time zone when no value has
    one, timestamps in the one time zone all the readable values have, and
    [ValueError] when the values do not agree. *)
Definition to_datetime (day : Z) (col : list Cell) : Res Conversion :=
  match offsets day col with
  | [] => Ret (naive_dates day)
  | offset :: rest =>
      if forallb (Z.eqb offset) rest && negb (has_naive day col)
      then Ret (aware_dates day offset)
      else Raise (mkExc ValueError "Mixed timezones detected")
  end.

(** Timestamps in time zones are compared by their instants; one without a
    time zone, or a missing one, cannot be compared with them. *)
Definition comparable (l : list Cell) : bool :=
  forallb (fun c => match c with
                    | CTimeTz _ _ => true
                    | _ => false
                    end) l.

Definition min_of_objects (l : list Cell) : Res Cell :=
  if comparable l then Ret (earliest l)
  else Raise (mkExc TypeError
                "Cannot compare tz-naive and tz-aware timestamps").

Definition max_of_objects (l : list Cell) : Res Cell :=
  if comparable l then Ret (latest l)
  else Raise (mkExc TypeError
                "Cannot compare tz-naive and tz-aware timestamps").

Definition env : Env :=
  {| os_listdir := listdir;
     pd_read_csv := read_csv;
     today := 5;
     pd_to_datetime := to_datetime;
     object_min := min_of_objects;
     object_max := max_of_objects;
     clock := fun n => (1000 + Z.of_nat n)%Z |}.

End Demo.

(** * The vocabulary of the statements

    Definitions the theorems are stated with, all made of the functions
    above. *)

(** Assigning a column keeps the column names when the name is known and
    adds it at the end otherwise, whatever the values. *)
Definition assigned (k : string) (names : list string) : list string :=
  if existsb (String.eqb k) names then names else names ++ [k].

(** The table [read_csv_file] returns for a path, if any. *)
Definition parsed (env : Env) (filepath : string) : option DataFrame :=
  match eval (read_csv_file env filepath) with
  | Ret r => r
  | Raise _ => None
  end.

(** The decision of [validate_data] on a table. *)
Definition passes (df : DataFrame) : bool :=
  match eval (validate_data (Some df)) with
  | Ret b => b
  | Raise _ => false
  end.

(** The table of a file that both parses and passes validation. *)
Definition accepted (env : Env) (filepath : string) : option DataFrame :=
  match parsed env filepath with
  | Some df => if passes df then Some df else None
  | None => None
  end.

Definition is_accepted (env : Env) (input_folder filename : string) : bool :=
  match accepted env (os_path_join input_folder filename) with
  | Some _ => true
  | None => false
  end.

Definition is_rejected (env : Env) (input_folder filename : string) : bool :=
  negb (is_accepted env input_folder filename).

(** The two provenance columns, as the loop writes them. *)
Definition stamp (filename : string) (now : Z) (df : DataFrame) : DataFrame :=
  setitem_scalar "fecha_procesamiento" (CTime now)
    (setitem_scalar "archivo_origen" (CStr filename) df).

(** What one turn of the loop prints. *)
Definition file_events (env : Env) (input_folder filename : string)
  : list Event :=
  let filepath := os_path_join input_folder filename in
  MsgProcessing filename ::
  printed (read_csv_file env filepath) ++
  match parsed env filepath with
  | Some df =>
      printed (validate_data (Some df)) ++
      [if passes df then MsgFileOk filename else MsgFileFailed filename]
  | None => [MsgFileFailed filename]
  end.

(** The stamped tables the loop collects from [csv_files] when the clock has
    been read [tick] times before. *)
Fixpoint merged (env : Env) (input_folder : string) (csv_files : list string)
  (tick : nat) : list DataFrame :=
  match csv_files with
  | [] => []
  | f :: rest =>
      match accepted env (os_path_join input_folder f) with
      | Some df =>
          stamp f (clock env tick) df :: merged env input_folder rest (S tick)
      | None => merged env input_folder rest tick
      end
  end.

Definition provenance_colums : list string :=
  ["archivo_origen"; "fecha_procesamiento"].

(** A table ready for the merge: at least one row, the five required columns
    and the two provenance columns. *)
Definition mergeable (df : DataFrame) : Prop :=
  1 <= nrows df /\
  forall c, In c (required_colums ++ provenance_colums) -> In c (columns df).

Definition summary_events (acc : Lists) : list Event :=
  [SummaryHeader;
   SummaryProcessed (length (processed_files acc));
   SummarySucceeded (length (valid_dataframes acc));
   SummaryFailed (length (failed_files acc))] ++
  match failed_files acc with
  | _ :: _ => [SummaryFailedList (failed_files acc)]
  | [] => []
  end.

(** The first and the last date of a table, as the merge computes them: the
    minimum, then the maximum, or the exception of the first of the two that
    raises. *)
Definition date_range (env : Env) (combined : DataFrame) : Res (Cell * Cell) :=
  match series_min env (column_or_nan "fecha" combined) with
  | Ret lo =>
      match series_max env (column_or_nan "fecha" combined) with
      | Ret hi => Ret (lo, hi)
      | Raise e => Raise e
      end
  | Raise e => Raise e
  end.

(** What the merge prints: the statistics of the combined table, up to the
    one that raises. *)
Definition merge_events (env : Env) (n : nat) (combined : DataFrame)
  : list Event :=
  [MsgCombining n; MsgCompleted; MsgTotal (len combined)] ++
  match date_range env combined with
  | Ret (lo, hi) =>
      [MsgDateRange lo hi;
       MsgMachines (series_nunique (column_or_nan "maquina" combined));
       MsgShifts (series_unique (column_or_nan "turno" combined))]
  | Raise _ => []
  end.

(** What the merge gives back for the combined table: the table, or the
    exception of its date range. *)
Definition merge_result (env : Env) (combined : DataFrame)
  : Res (option DataFrame) :=
  match date_range env combined with
  | Ret _ => Ret (Some combined)
  | Raise e => Raise e
  end.

(** What the merge gives back for the collected tables. *)
Definition merge_of (env : Env) (frames : list DataFrame)
  : Res (option DataFrame) :=
  match frames with
  | [] => Ret None
  | _ :: _ =>
      match pd_concat frames with
      | Ret combined => merge_result env combined
      | Raise e => Raise e
      end
  end.

(** Column [c] of the concatenation of frames. *)
Definition concat_column (c : string) (frames : list DataFrame) : list Cell :=
  flat_map (concat_part c (upcast_to_float c frames)) frames.

(** The candidate files of a listing. *)
Definition csv_only (all_files : list string) : list string :=
  filter (fun f => endswith f ".csv") all_files.

(** The three lists at the end of the loop over [csv_files], when the clock
    had been read [tick] times before. *)
Definition collected (env : Env) (input_folder : string)
  (csv_files : list string) (tick : nat) : Lists :=
  {| valid_dataframes := merged env input_folder csv_files tick;
     processed_files := csv_files;
     failed_files := filter (is_rejected env input_folder) csv_files |}.

(** Rows of the returned value; the "no data" result has none. *)
Definition result_rows (r : option DataFrame) : nat :=
  match r with
  | Some df => len df
  | None => 0
  end.

(** Rows of the table parsed from a file. *)
Definition table_rows (env : Env) (input_folder filename : string) : nat :=
  match parsed env (os_path_join input_folder filename) with
  | Some df => len df
  | None => 0
  end.

(** The symmetric difference of two sets of column names, as the
    specification words the missing-column report: what is in one and not in
    the other, both ways. *)
Definition symmetric_difference (a b : list string) : list string :=
  filter (fun x => negb (existsb (String.eqb x) b)) a ++
  filter (fun x => negb (existsb (String.eqb x) a)) b.

(** The missing-column list [validate_data] computes. *)
Definition missing_colums (df : DataFrame) : list string :=
  filter (fun col => negb (has_column col df)) required_colums.

(** The conversion of the date column of a table [pd.read_csv] returned: the
    converted values, or the exception of the parser. *)
Definition converted_dates (env : Env) (df : DataFrame) : Res (list Cell) :=
  to_datetime env (len df) (column_or_nan "fecha" df).

(** The exception that stops [read_csv_file] after [pd.read_csv] has
    returned a table, if any: the one of the conversion of its dates. *)
Definition conversion_error (env : Env) (df : DataFrame) : option PyExc :=
  if has_column "fecha" df then
    match converted_dates env df with
    | Ret _ => None
    | Raise e => Some e
    end
  else None.

(** The table [read_csv_file] makes of what [pd.read_csv] returned, when the
    conversion of its dates returns. *)
Definition normalized (env : Env) (df : DataFrame) : DataFrame :=
  if has_column "fecha" df then
    match converted_dates env df with
    | Ret fecha => setitem "fecha" fecha df
    | Raise _ => df
    end
  else df.

(** The warning about dates, if any. *)
Definition date_warning (env : Env) (df : DataFrame) : list Event :=
  if has_column "fecha" df then
    match converted_dates env df with
    | Ret fecha =>
        let n := isna_sum fecha in
        if (0 <? n)%nat then [WarnInvalidDates n] else []
    | Raise _ => []
    end
  else [].

(** What the [except] clauses print. *)
Definition error_events (filepath : string) (e : PyExc) : list Event :=
  match exc_class e with
  | FileNotFoundError => [ErrFileNotFound filepath]
  | EmptyDataError => [ErrEmptyFile filepath]
  | ParserError => [ErrParser filepath; ErrParserDetail (exc_msg e)]
  | c => [ErrUnexpected filepath (class_name c) (exc_msg e)]
  end.

Inductive FailureKind : Type :=
| FileNotFound
| EmptyInput
| MalformedInput
| UnexpectedFailure.

(** The kind a printed message announces, for the messages of the parser's
    [except] clauses. *)
Definition classify (e : Event) : option FailureKind :=
  match e with
  | ErrFileNotFound _ => Some FileNotFound
  | ErrEmptyFile _ => Some EmptyInput
  | ErrParser _ => Some MalformedInput
  | ErrUnexpected _ _ _ => Some UnexpectedFailure
  | _ => None
  end.

(** The failures announced in a piece of output. *)
Definition failures (l : list Event) : list FailureKind :=
  flat_map (fun e => match classify e with Some k => [k] | None => [] end) l.

(** The [except] clause that takes an exception of a class. *)
Definition failure_kind (c : ExcClass) : FailureKind :=
  match c with
  | FileNotFoundError => FileNotFound
  | EmptyDataError => EmptyInput
  | ParserError => MalformedInput
  | _ => UnexpectedFailure
  end.


(** The same directory and the same files at another time: on another day,
    with another clock. *)
Definition at_time (env : Env) (day : Z) (c : nat -> Z) : Env :=
  {| os_listdir := os_listdir env;
     pd_read_csv := pd_read_csv env;
     today := day;
     pd_to_datetime := pd_to_datetime env;
     object_min := object_min env;
     object_max := object_max env;
     clock := c |}.

(** [df.drop(columns=[name])] *)
Definition drop_column (name : string) (df : DataFrame) : DataFrame :=
  {| nrows := nrows df;
     cols := filter (fun kv => negb (String.eqb (fst kv) name)) (cols df) |}.

(** Two tables that differ at most in the values of column [name]. *)
Definition same_but (name : string) (a b : DataFrame) : Prop :=
  nrows a = nrows b /\
  columns a = columns b /\
  forall k, k <> name -> assoc_get k (cols a) = assoc_get k (cols b).

(** Two results with the same content: the same exception, or "no data"
    twice, or two tables with the same columns in the same order that are
    equal once the processing-timestamp column is dropped. *)
Definition same_content (r1 r2 : Res (option DataFrame)) : Prop :=
  match r1, r2 with
  | Ret (Some d1), Ret (Some d2) =>
      columns d1 = columns d2 /\
      drop_column "fecha_procesamiento" d1 = drop_column "fecha_procesamiento" d2
  | Ret None, Ret None => True
  | Raise e1, Raise e2 => e1 = e2
  | _, _ => False
  end.

(** The tables accepted from the candidate files, in the order of the
    files. *)
Definition accepted_tables (env : Env) (input_folder : string)
  (csv_files : list string) : list DataFrame :=
  flat_map (fun f => match accepted env (os_path_join input_folder f) with
                     | Some df => [df]
                     | None => []
                     end) csv_files.

(** The file a collected table came from, read off its source column. *)
Definition source_file (df : DataFrame) : option string :=
  match column_or_nan "archivo_origen" df with
  | CStr f :: _ => Some f
  | _ => None
  end.

(** The same world with another listing for every directory. *)
Definition with_listing (env : Env) (entries : list string) : Env :=
  {| os_listdir := fun _ => Ret entries;
     pd_read_csv := pd_read_csv env;
     today := today env;
     pd_to_datetime := pd_to_datetime env;
     object_min := object_min env;
     object_max := object_max env;
     clock := clock env |}.

(** The paths the parser was asked to read, as the output shows them. *)
Definition readings (l : list Event) : list string :=
  flat_map (fun e => match e with MsgReading p => [p] | _ => [] end) l.

(** The column [c] of the table accepted from a file; nothing for a file that
    is not accepted. *)
Definition accepted_column (env : Env) (input_folder c filename : string)
  : list Cell :=
  match accepted env (os_path_join input_folder filename) with
  | Some df => column_or_nan c df
  | None => []
  end.

(** ** FileProcessor.__init__

    The constructor talks to the operating system: [os.path.exists], which
    holds of every path there is, a directory or not, and [os.makedirs];
    [os.listdir] is the call [process_all_files] makes later on the same
    file system.  [W] is the type of the states of the file system. *)

Record OS (W : Type) : Type := mkOS {
  os_path_exists : W -> string -> bool;
  os_makedirs : W -> string -> Res W;
  os_listdir_in : W -> string -> Res (list string)
}.
Arguments os_path_exists {W} _ _ _.
Arguments os_makedirs {W} _ _ _.
Arguments os_listdir_in {W} _ _ _.

(** What the constructor prints. *)
Inductive InitEvent : Type :=
| MsgFolderCreated (folder : string)
| MsgInitialized (folder : string).

(** The object: its one attribute. *)
Record FileProcessor : Type := mkFileProcessor {
  self_input_folder : string
}.

(** The constructor: the new state of the file system and the object, or the
    exception [os.makedirs] raised, and what was printed. *)
Definition __init__ {W : Type} (os : OS W) (input_folder : string) (w : W)
  : Res (W * FileProcessor) * list InitEvent :=
  let self := {| self_input_folder := input_folder |} in
  if negb (os_path_exists os w input_folder) then
    match os_makedirs os w input_folder with
    | Ret w' =>
        (Ret (w', self),
         [MsgFolderCreated input_folder; MsgInitialized input_folder])
    | Raise e => (Raise e, [])
    end
  else (Ret (w, self), [MsgInitialized input_folder]).

(** The world of a run on the file system in state [w]: its listings are the
    ones of [w]. *)
Definition env_in {W : Type} (os : OS W) (w : W) (env : Env) : Env :=
  {| os_listdir := os_listdir_in os w;
     pd_read_csv := pd_read_csv env;
     today := today env;
     pd_to_datetime := pd_to_datetime env;
     object_min := object_min env;
     object_max := object_max env;
     clock := clock env |}.

(** [processor.process_all_files()] *)
Definition call_process_all_files {W : Type} (os : OS W) (w : W) (env : Env)
  (self : FileProcessor) : M (option DataFrame) :=
  process_all_files (env_in os w env) (self_input_folder self).

(** A small file system to run the constructor on: the paths there are, a
    directory with its entries or a regular file. *)
Module DemoOS.

Inductive Node : Type :=
| Directory (entries : list string)
| RegularFile.

Definition World : Type := list (string * Node).

Definition lookup (w : World) (p : string) : option Node :=
  match find (fun d => String.eqb p (fst d)) w with
  | Some d => Some (snd d)
  | None => None
  end.

Definition path_exists (w : World) (p : string) : bool :=
  match lookup w p with
  | Some _ => true
  | None => false
  end.

Definition makedirs (w : World) (p : string) : Res World :=
  if path_exists w p
  then Raise (mkExc (OtherException "FileExistsError") p)
  else Ret ((p, Directory []) :: w).

Definition listdir (w : World) (p : string) : Res (list string) :=
  match lookup w p with
  | Some (Directory entries) => Ret entries
  | Some RegularFile => Raise (mkExc (OtherException "NotADirectoryError") p)
  | None => Raise (mkExc FileNotFoundError p)
  end.

Definition os : OS World :=
  {| os_path_exists := path_exists;
     os_makedirs := makedirs;
     os_listdir_in := listdir |}.

Definition world : World :=
  [("tests", Directory ["sample_data_ok1.csv"]); ("datos.csv", RegularFile)].

End DemoOS.

(** The messages that say why a run has no data to return. *)
Definition no_data_reasons (l : list Event) : list Event :=
  filter (fun e => match e with
                   | ErrDirNotFound _ | ErrDirPermission _
                   | WarnNoCsv | MsgNoneValid => true
                   | _ => false
                   end) l.

(** The calls of the validator the output shows: its opening message, and
    its message for a table that is not there. *)
Definition validations (l : list Event) : list Event :=
  filter (fun e => match e with MsgValidating => true | _ => false end) l.

Definition none_validations (l : list Event) : list Event :=
  filter (fun e => match e with ValNone => true | _ => false end) l.

(** Whether [read_csv_file] gives a table for a candidate. *)
Definition is_parsed (env : Env) (input_folder filename : string) : bool :=
  match parsed env (os_path_join input_folder filename) with
  | Some _ => true
  | None => false
  end.

(** The entries of [data/input] in the concrete directory. *)
Definition demo_entries : list string :=
  ["a.csv"; "b.csv"; "zero.csv"; "header.csv"; "dates.csv"; "broken.csv";
   "notas.txt"].

(** The concrete world with a directory that holds one good file, one bad
    file and a file that is no candidate. *)
Definition demo_one_good : Env :=
  with_listing Demo.env ["b.csv"; "a.csv"; "notas.txt"].

(** * Properties *)

(** ** Columns as association lists *)

Lemma has_column_In (name : string) (df : DataFrame) :
  has_column name df = true <-> In name (columns df).
Proof.
  unfold has_column. rewrite existsb_exists. split.
  - intros [x [Hin Heq]]. apply String.eqb_eq in Heq. now subst.
  - intros Hin. exists name. split; [assumption | apply String.eqb_refl].
Qed.

Lemma has_column_false (name : string) (df : DataFrame) :
  has_column name df = false <-> ~ In name (columns df).
Proof.
  rewrite <- has_column_In. destruct (has_column name df); split; congruence.
Qed.

Lemma assoc_get_In (k : string) (l : list (string * list Cell)) :
  In k (map fst l) <-> exists v, assoc_get k l = Some v.
Proof.
  induction l as [|[k' v'] t IH]; cbn.
  - split; [tauto | intros [v H]; discriminate].
  - destruct (String.eqb_spec k k') as [->|Hne].
    + split; [eauto | auto].
    + rewrite <- IH. split; [intros [H|H]; [congruence | assumption] | auto].
Qed.

Lemma assoc_get_set_same (k : string) (v : list Cell) l :
  assoc_get k (assoc_set k v l) = Some v.
Proof.
  induction l as [|[k' v'] t IH]; cbn.
  - now rewrite String.eqb_refl.
  - destruct (String.eqb k k') eqn:E; cbn.
    + now rewrite String.eqb_refl.
    + now rewrite E.
Qed.

Lemma assoc_get_set_other (k k' : string) (v : list Cell) l :
  k' <> k -> assoc_get k' (assoc_set k v l) = assoc_get k' l.
Proof.
  intros Hne. induction l as [|[k0 v0] t IH]; cbn.
  - destruct (String.eqb_spec k' k); [contradiction | reflexivity].
  - destruct (String.eqb_spec k k0) as [->|Hk]; cbn.
    + destruct (String.eqb_spec k' k0); [contradiction | reflexivity].
    + destruct (String.eqb k' k0); [reflexivity | assumption].
Qed.

Lemma assoc_set_names (k : string) (v : list Cell) l :
  map fst (assoc_set k v l) = assigned k (map fst l).
Proof.
  unfold assigned. induction l as [|[k' v'] t IH]; cbn.
  - reflexivity.
  - destruct (String.eqb_spec k k') as [->|Hne]; cbn.
    + reflexivity.
    + rewrite IH. now destruct (existsb (String.eqb k) (map fst t)).
Qed.

Lemma In_assigned (k c : string) (names : list string) :
  In c (assigned k names) <-> c = k \/ In c names.
Proof.
  unfold assigned. destruct (existsb (String.eqb k) names) eqn:E.
  - split; [auto | intros [->|H]; [|assumption]].
    apply existsb_exists in E as [x [Hx Heq]].
    apply String.eqb_eq in Heq. now subst.
  - rewrite in_app_iff. cbn. intuition.
Qed.

Lemma columns_setitem (k : string) (v : list Cell) (df : DataFrame) :
  columns (setitem k v df) = assigned k (columns df).
Proof. apply assoc_set_names. Qed.

Lemma In_dedup (x : string) (l : list string) : In x (dedup l) <-> In x l.
Proof.
  induction l as [|y t IH]; cbn; [tauto|].
  rewrite filter_In, IH.
  destruct (String.eqb_spec y x) as [->|Hne]; cbn; intuition.
Qed.

Lemma assoc_get_tabulate (f : string -> list Cell) (c : string)
  (names : list string) :
  assoc_get c (map (fun k => (k, f k)) names) =
  if existsb (String.eqb c) names then Some (f c) else None.
Proof.
  induction names as [|k t IH]; cbn; [reflexivity|].
  destruct (String.eqb_spec c k) as [->|Hne]; cbn; [reflexivity | assumption].
Qed.

(** ** Running computations *)

Arguments required_colums : simpl never.
Arguments to_datetime : simpl never.

Ltac run :=
  unfold bind, ret, print, lift, try_except, datetime_now, eval, printed;
  cbn.

(** [read_csv_file] never reads the clock, and what it returns and prints
    does not depend on what was printed before. *)
Lemma read_csv_file_frame (env : Env) (filepath : string) (s : State) :
  read_csv_file env filepath s =
  (eval (read_csv_file env filepath),
   {| out := out s ++ printed (read_csv_file env filepath);
      ticks := ticks s |}).
Proof.
  unfold read_csv_file. run.
  destruct (pd_read_csv env filepath) as [df|[c msg]]; cbn.
  - destruct (has_column "fecha" df); cbn.
    + unfold getitem. destruct (assoc_get "fecha" (cols df)) as [v|]; cbn.
      * destruct (to_datetime env (len df) v) as [fecha|[c msg]]; cbn.
        -- rewrite assoc_get_set_same; cbn.
           destruct (isna_sum fecha); cbn; now rewrite <- ?app_assoc.
        -- destruct c; cbn; now rewrite <- ?app_assoc.
      * now rewrite <- ?app_assoc.
    + now rewrite <- ?app_assoc.
  - destruct c; cbn; now rewrite <- ?app_assoc.
Qed.

Lemma validate_data_frame (df : option DataFrame) (s : State) :
  validate_data df s =
  (eval (validate_data df),
   {| out := out s ++ printed (validate_data df); ticks := ticks s |}).
Proof.
  unfold validate_data.
  destruct df as [df|]; [|run; now rewrite <- ?app_assoc].
  destruct (empty df); [run; now rewrite <- ?app_assoc|].
  destruct (filter (fun col => negb (has_column col df)) required_colums);
    run; now rewrite <- ?app_assoc.
Qed.

(** ** One file: what the loop sees of the parser and the validator *)

Lemma read_csv_file_eval (env : Env) (filepath : string) :
  eval (read_csv_file env filepath) = Ret (parsed env filepath).
Proof.
  unfold parsed, read_csv_file. run.
  destruct (pd_read_csv env filepath) as [df|[c msg]]; cbn.
  - destruct (has_column "fecha" df); cbn; [|reflexivity].
    unfold getitem. destruct (assoc_get "fecha" (cols df)) as [v|]; cbn.
    + destruct (to_datetime env (len df) v) as [fecha|[c msg]]; cbn.
      * rewrite assoc_get_set_same; cbn. now destruct (isna_sum fecha).
      * now destruct c.
    + reflexivity.
  - now destruct c.
Qed.

Lemma validate_data_eval (df : DataFrame) :
  eval (validate_data (Some df)) = Ret (passes df).
Proof.
  unfold passes, validate_data.
  destruct (empty df); [now run|].
  destruct (filter (fun col => negb (has_column col df)) required_colums);
    now run.
Qed.

Lemma passes_spec (df : DataFrame) :
  passes df = true <->
  empty df = false /\ forall c, In c required_colums -> In c (columns df).
Proof.
  unfold passes, validate_data.
  destruct (empty df); [run; split; [discriminate | intros [H _]; discriminate]|].
  destruct (filter (fun col => negb (has_column col df)) required_colums)
    as [|m ms] eqn:E; run.
  - split; [intros _; split; [reflexivity|] | reflexivity].
    intros c Hc. apply has_column_In.
    destruct (has_column c df) eqn:Hh; [reflexivity|].
    assert (Hin : In c []) by (rewrite <- E; apply filter_In; now rewrite Hh).
    destruct Hin.
  - split; [discriminate|]. intros [_ Hall].
    assert (Hin : In m (m :: ms)) by now left.
    rewrite <- E in Hin. apply filter_In in Hin as [Hreq Hneg].
    apply Hall, has_column_In in Hreq. rewrite Hreq in Hneg. discriminate.
Qed.

Lemma process_file_run (env : Env) (input_folder : string) (acc : Lists)
  (filename : string) (s : State) :
  process_file env input_folder acc filename s =
  match accepted env (os_path_join input_folder filename) with
  | Some df =>
      (Ret {| valid_dataframes :=
                valid_dataframes acc ++ [stamp filename (clock env (ticks s)) df];
              processed_files := processed_files acc ++ [filename];
              failed_files := failed_files acc |},
       {| out := out s ++ file_events env input_folder filename;
          ticks := S (ticks s) |})
  | None =>
      (Ret {| valid_dataframes := valid_dataframes acc;
              processed_files := processed_files acc ++ [filename];
              failed_files := failed_files acc ++ [filename] |},
       {| out := out s ++ file_events env input_folder filename;
          ticks := ticks s |})
  end.
Proof.
  unfold process_file, accepted, file_events.
  unfold bind at 1. unfold print at 1. unfold bind at 1.
  rewrite read_csv_file_frame, read_csv_file_eval.
  destruct (parsed env (os_path_join input_folder filename)) as [df|].
  - unfold bind at 1. rewrite validate_data_frame, validate_data_eval.
    destruct (passes df); run; rewrite <- ?app_assoc; reflexivity.
  - run. rewrite <- ?app_assoc. reflexivity.
Qed.

(** ** The loop *)

Lemma process_loop_run (env : Env) (input_folder : string)
  (csv_files : list string) :
  forall (acc : Lists) (s : State),
    process_loop env input_folder csv_files acc s =
    (Ret {| valid_dataframes :=
              valid_dataframes acc ++ merged env input_folder csv_files (ticks s);
            processed_files := processed_files acc ++ csv_files;
            failed_files :=
              failed_files acc ++ filter (is_rejected env input_folder) csv_files |},
     {| out := out s ++ flat_map (file_events env input_folder) csv_files;
        ticks := ticks s + length (filter (is_accepted env input_folder) csv_files) |}).
Proof.
  induction csv_files as [|f rest IH]; intros acc s.
  - cbn. unfold ret. rewrite !app_nil_r, Nat.add_0_r.
    destruct acc, s; reflexivity.
  - cbn [process_loop]. unfold bind at 1. rewrite process_file_run.
    cbn [merged filter flat_map].
    assert (Hf : is_accepted env input_folder f =
                 match accepted env (os_path_join input_folder f) with
                 | Some _ => true
                 | None => false
                 end) by reflexivity.
    unfold is_rejected at 1. rewrite Hf.
    destruct (accepted env (os_path_join input_folder f)) as [df|];
      rewrite IH;
      cbn [valid_dataframes processed_files failed_files out ticks negb length];
      rewrite <- !app_assoc; cbn [app]; rewrite ?Nat.add_succ_r; reflexivity.
Qed.

(** ** What the loop collects *)

Lemma nrows_stamp (f : string) (t : Z) (df : DataFrame) :
  nrows (stamp f t df) = nrows df.
Proof. reflexivity. Qed.

Lemma columns_stamp (f : string) (t : Z) (df : DataFrame) :
  columns (stamp f t df) =
  assigned "fecha_procesamiento" (assigned "archivo_origen" (columns df)).
Proof.
  unfold stamp, setitem_scalar. now rewrite !columns_setitem.
Qed.

Lemma In_columns_stamp (f : string) (t : Z) (df : DataFrame) (c : string) :
  In c (columns (stamp f t df)) <->
  c = "fecha_procesamiento" \/ c = "archivo_origen" \/ In c (columns df).
Proof. now rewrite columns_stamp, !In_assigned. Qed.

Lemma accepted_passes (env : Env) (filepath : string) (df : DataFrame) :
  accepted env filepath = Some df ->
  parsed env filepath = Some df /\ passes df = true.
Proof.
  unfold accepted. destruct (parsed env filepath) as [d|]; [|discriminate].
  destruct (passes d) eqn:E; [|discriminate].
  intros H. injection H as <-. now split.
Qed.

Lemma empty_false_rows (df : DataFrame) : empty df = false -> 1 <= nrows df.
Proof.
  unfold empty. intros H. apply orb_false_elim in H as [H _].
  apply Nat.eqb_neq in H. lia.
Qed.

Lemma stamp_mergeable (f : string) (t : Z) (df : DataFrame) :
  passes df = true -> mergeable (stamp f t df).
Proof.
  intros Hp. apply passes_spec in Hp as [Hne Hcols]. split.
  - rewrite nrows_stamp. now apply empty_false_rows.
  - intros c Hc. apply In_columns_stamp. apply in_app_or in Hc as [Hc|Hc].
    + right. right. now apply Hcols.
    + cbn in Hc. intuition.
Qed.

Lemma merged_mergeable (env : Env) (input_folder : string)
  (csv_files : list string) :
  forall tick, Forall mergeable (merged env input_folder csv_files tick).
Proof.
  induction csv_files as [|f rest IH]; intros tick; cbn; [constructor|].
  destruct (accepted env (os_path_join input_folder f)) as [df|] eqn:E.
  - constructor; [|apply IH].
    apply accepted_passes in E as [_ Hp]. now apply stamp_mergeable.
  - apply IH.
Qed.

Lemma length_merged (env : Env) (input_folder : string)
  (csv_files : list string) :
  forall tick,
    length (merged env input_folder csv_files tick) =
    length (filter (is_accepted env input_folder) csv_files).
Proof.
  induction csv_files as [|f rest IH]; intros tick; cbn; [reflexivity|].
  unfold is_accepted at 1.
  destruct (accepted env (os_path_join input_folder f)); cbn; now rewrite IH.
Qed.

(** ** The concatenation *)

Lemma pd_concat_nonempty (frames : list DataFrame) :
  frames <> [] ->
  pd_concat frames =
  Ret {| nrows := list_sum (map nrows frames);
         cols := map (fun c => (c, concat_column c frames))
                     (union_columns frames) |}.
Proof. destruct frames; [congruence | reflexivity]. Qed.

Lemma pd_concat_rows (frames : list DataFrame) (combined : DataFrame) :
  pd_concat frames = Ret combined ->
  nrows combined = list_sum (map nrows frames).
Proof.
  destruct frames; cbn; [discriminate|]. intros H. now injection H as <-.
Qed.

Lemma pd_concat_columns (frames : list DataFrame) (combined : DataFrame) :
  pd_concat frames = Ret combined ->
  columns combined = union_columns frames.
Proof.
  destruct frames as [|d ds]; cbn -[union_columns]; [discriminate|].
  intros H. injection H as <-. unfold columns. cbn -[union_columns].
  rewrite map_map. cbn. apply map_id.
Qed.

Lemma In_union_columns (frames : list DataFrame) (c : string) :
  In c (union_columns frames) <->
  exists df, In df frames /\ In c (columns df).
Proof. unfold union_columns. now rewrite In_dedup, in_flat_map. Qed.

Lemma pd_concat_getitem (frames : list DataFrame) (combined : DataFrame)
  (c : string) :
  pd_concat frames = Ret combined ->
  assoc_get c (cols combined) =
  if existsb (String.eqb c) (union_columns frames)
  then Some (concat_column c frames) else None.
Proof.
  destruct frames as [|d ds]; cbn -[union_columns]; [discriminate|].
  intros H. injection H as <-. cbn -[union_columns].
  apply (assoc_get_tabulate (fun k => concat_column k (d :: ds))).
Qed.

(** A column without integers is concatenated as it is. *)
Lemma concat_part_same (c : string) (to_float : bool) (df : DataFrame) :
  (forall x, In x (column_or_nan c df) -> is_int x = false) ->
  concat_part c to_float df = column_or_nan c df.
Proof.
  unfold concat_part, column_or_nan.
  destruct (assoc_get c (cols df)) as [v|]; [|reflexivity].
  intros H. destruct to_float; [|reflexivity]. cbn.
  destruct v as [|x v]; [reflexivity|].
  cbn. rewrite (H x) by now left. reflexivity.
Qed.

Lemma concat_column_same (c : string) (frames : list DataFrame) :
  (forall df x, In df frames -> In x (column_or_nan c df) -> is_int x = false) ->
  concat_column c frames = flat_map (column_or_nan c) frames.
Proof.
  intros H. unfold concat_column.
  generalize (upcast_to_float c frames) as up. intros up.
  induction frames as [|d ds IH]; [reflexivity|].
  cbn. rewrite concat_part_same by (intros x; apply H; now left).
  f_equal. apply IH. intros df x Hin. apply H. now right.
Qed.

Lemma pd_concat_mergeable (frames : list DataFrame) (combined : DataFrame) :
  frames <> [] -> Forall mergeable frames ->
  pd_concat frames = Ret combined -> mergeable combined.
Proof.
  intros Hne Hall Hc. destruct frames as [|d ds]; [congruence|].
  inversion Hall as [|? ? [Hrows Hcols] _]; subst. split.
  - rewrite (pd_concat_rows _ _ Hc). cbn. lia.
  - intros c Hin. rewrite (pd_concat_columns _ _ Hc).
    apply In_union_columns. exists d. split; [now left | now apply Hcols].
Qed.

Lemma mergeable_getitem (df : DataFrame) (c : string) :
  mergeable df -> In c (required_colums ++ provenance_colums) ->
  exists v, getitem c df = Ret v.
Proof.
  intros [_ Hcols] Hin. apply Hcols in Hin. unfold columns in Hin.
  apply assoc_get_In in Hin as [v Hv]. exists v. unfold getitem. now rewrite Hv.
Qed.

(** ** The summary and the merge *)

Lemma report_and_merge_none (env : Env) (acc : Lists) (s : State) :
  valid_dataframes acc = [] ->
  report_and_merge env acc s =
  (Ret None,
   {| out := out s ++ summary_events acc ++ [MsgNoneValid]; ticks := ticks s |}).
Proof.
  intros Hv. unfold report_and_merge, summary_events. rewrite Hv.
  destruct (failed_files acc); run; rewrite <- ?app_assoc; reflexivity.
Qed.

Lemma getitem_Ret (c : string) (df : DataFrame) (v : list Cell) :
  getitem c df = Ret v -> column_or_nan c df = v.
Proof.
  unfold getitem, column_or_nan.
  destruct (assoc_get c (cols df)); [intros H; now injection H | discriminate].
Qed.

Lemma report_and_merge_some (env : Env) (acc : Lists) (s : State) :
  valid_dataframes acc <> [] ->
  Forall mergeable (valid_dataframes acc) ->
  exists combined,
    pd_concat (valid_dataframes acc) = Ret combined /\
    report_and_merge env acc s =
    (merge_result env combined,
     {| out := out s ++ summary_events acc ++
               merge_events env (length (valid_dataframes acc)) combined;
        ticks := ticks s |}).
Proof.
  intros Hne Hall.
  destruct (pd_concat (valid_dataframes acc)) as [combined|e] eqn:Hc;
    [|rewrite pd_concat_nonempty in Hc by assumption; discriminate].
  pose proof (pd_concat_mergeable _ _ Hne Hall Hc) as Hm.
  destruct (mergeable_getitem combined "fecha" Hm) as [fecha Hf];
    [unfold required_colums; cbn; tauto|].
  destruct (mergeable_getitem combined "maquina" Hm) as [maquina Hq];
    [unfold required_colums; cbn; tauto|].
  destruct (mergeable_getitem combined "turno" Hm) as [turno Ht];
    [unfold required_colums; cbn; tauto|].
  exists combined. split; [reflexivity|].
  unfold report_and_merge, summary_events, merge_events, merge_result,
    date_range.
  rewrite Hc, (getitem_Ret _ _ _ Hf), (getitem_Ret _ _ _ Hq), (getitem_Ret _ _ _ Ht).
  destruct (valid_dataframes acc) as [|d ds]; [congruence|].
  destruct (failed_files acc); run; rewrite Hf; cbn;
    (destruct (series_min env fecha) as [lo|e1]; cbn;
     [destruct (series_max env fecha) as [hi|e2]; cbn;
      [rewrite Hq; cbn; rewrite Ht; cbn|]|]);
    rewrite <- ?app_assoc; cbn; reflexivity.
Qed.

(** ** The whole run *)

Arguments process_loop : simpl never.
Arguments report_and_merge : simpl never.

Lemma process_all_files_no_csv (env : Env) (input_folder : string)
  (all_files : list string) (s : State) :
  os_listdir env input_folder = Ret all_files ->
  csv_only all_files = [] ->
  process_all_files env input_folder s =
  (Ret None,
   {| out := out s ++ [MsgSearching input_folder; MsgFound (length all_files);
                       MsgCsvFound 0; WarnNoCsv; HintCopy input_folder];
      ticks := ticks s |}).
Proof.
  unfold csv_only. intros Hl Hcsv. unfold process_all_files, discover. run.
  rewrite Hl. cbn. rewrite Hcsv. cbn. now rewrite <- !app_assoc.
Qed.

Lemma discover_listed (env : Env) (input_folder : string)
  (all_files : list string) (s : State) :
  os_listdir env input_folder = Ret all_files ->
  csv_only all_files <> [] ->
  discover env input_folder s =
  (Ret (Proceed (csv_only all_files)),
   {| out := out s ++ [MsgFound (length all_files);
                       MsgCsvFound (length (csv_only all_files));
                       MsgToProcess (csv_only all_files)];
      ticks := ticks s |}).
Proof.
  intros Hl Hcsv. unfold discover. run. rewrite Hl. cbn.
  fold (csv_only all_files).
  destruct (csv_only all_files) as [|f rest]; [congruence|].
  cbn. now rewrite <- !app_assoc.
Qed.

Lemma process_all_files_listed (env : Env) (input_folder : string)
  (all_files : list string) (s : State) :
  os_listdir env input_folder = Ret all_files ->
  csv_only all_files <> [] ->
  process_all_files env input_folder s =
  report_and_merge env
    (collected env input_folder (csv_only all_files) (ticks s))
    {| out := out s ++
              [MsgSearching input_folder; MsgFound (length all_files);
               MsgCsvFound (length (csv_only all_files));
               MsgToProcess (csv_only all_files)] ++
              flat_map (file_events env input_folder) (csv_only all_files);
       ticks := ticks s +
                length (filter (is_accepted env input_folder)
                               (csv_only all_files)) |}.
Proof.
  intros Hl Hcsv. unfold process_all_files.
  unfold bind at 1. unfold print at 1. unfold bind at 1.
  rewrite (discover_listed _ _ _ _ Hl Hcsv).
  unfold bind at 1. rewrite process_loop_run.
  cbn [valid_dataframes processed_files failed_files out ticks no_lists app].
  unfold collected. rewrite <- !app_assoc. reflexivity.
Qed.

Lemma process_all_files_listdir_raises (env : Env) (input_folder : string)
  (e : PyExc) (s : State) :
  os_listdir env input_folder = Raise e ->
  process_all_files env input_folder s =
  match exc_class e with
  | FileNotFoundError =>
      (Ret None,
       {| out := out s ++ [MsgSearching input_folder;
                           ErrDirNotFound input_folder];
          ticks := ticks s |})
  | PermissionError =>
      (Ret None,
       {| out := out s ++ [MsgSearching input_folder;
                           ErrDirPermission input_folder];
          ticks := ticks s |})
  | _ =>
      (Raise e,
       {| out := out s ++ [MsgSearching input_folder]; ticks := ticks s |})
  end.
Proof.
  intros Hl. unfold process_all_files, discover. run. rewrite Hl. cbn.
  destruct (exc_class e); cbn; rewrite <- ?app_assoc; reflexivity.
Qed.

Lemma collected_mergeable (env : Env) (input_folder : string)
  (csv_files : list string) (tick : nat) :
  Forall mergeable (valid_dataframes (collected env input_folder csv_files tick)).
Proof. apply merged_mergeable. Qed.

(** Everything a run over a listed directory with candidate files does: what
    it prints, in order, and how it ends. *)
Lemma process_all_files_outcome (env : Env) (input_folder : string)
  (all_files : list string) (s : State) :
  os_listdir env input_folder = Ret all_files ->
  csv_only all_files <> [] ->
  let csv_files := csv_only all_files in
  let acc := collected env input_folder csv_files (ticks s) in
  exists outcome tail,
    process_all_files env input_folder s =
    (outcome,
     {| out := out s ++
               [MsgSearching input_folder; MsgFound (length all_files);
                MsgCsvFound (length csv_files); MsgToProcess csv_files] ++
               flat_map (file_events env input_folder) csv_files ++
               summary_events acc ++ tail;
        ticks := ticks s +
                 length (filter (is_accepted env input_folder) csv_files) |}) /\
    match outcome with
    | Ret None => valid_dataframes acc = [] /\ tail = [MsgNoneValid]
    | Ret (Some combined) =>
        valid_dataframes acc <> [] /\
        pd_concat (valid_dataframes acc) = Ret combined /\
        (exists lo hi, date_range env combined = Ret (lo, hi)) /\
        tail = merge_events env (length (valid_dataframes acc)) combined
    | Raise e =>
        exists combined,
          valid_dataframes acc <> [] /\
          pd_concat (valid_dataframes acc) = Ret combined /\
          date_range env combined = Raise e /\
          tail = merge_events env (length (valid_dataframes acc)) combined
    end.
Proof.
  intros Hl Hcsv csv_files acc.
  rewrite (process_all_files_listed _ _ _ _ Hl Hcsv).
  fold csv_files. fold acc.
  destruct (valid_dataframes acc) as [|d ds] eqn:Hv.
  - exists (Ret None), [MsgNoneValid]. split; [|now split].
    rewrite report_and_merge_none by assumption.
    cbn [out ticks]. now rewrite <- !app_assoc.
  - destruct (report_and_merge_some env acc
                {| out := out s ++
                     [MsgSearching input_folder; MsgFound (length all_files);
                      MsgCsvFound (length csv_files); MsgToProcess csv_files] ++
                     flat_map (file_events env input_folder) csv_files;
                   ticks := ticks s +
                     length (filter (is_accepted env input_folder) csv_files) |})
      as [combined [Hc Hr]].
    + rewrite Hv. discriminate.
    + apply collected_mergeable.
    + exists (merge_result env combined),
        (merge_events env (length (valid_dataframes acc)) combined).
      rewrite Hr. cbn [out ticks]. rewrite <- !app_assoc. rewrite <- Hv.
      split; [reflexivity|].
      assert (Hne : valid_dataframes acc <> []) by (rewrite Hv; discriminate).
      unfold merge_result.
      destruct (date_range env combined) as [[lo hi]|e] eqn:Hd.
      * repeat split; try assumption. now exists lo, hi.
      * exists combined. now repeat split.
Qed.

(** ** Row counts *)

Lemma rows_merged (env : Env) (input_folder : string)
  (csv_files : list string) :
  forall tick,
    list_sum (map nrows (merged env input_folder csv_files tick)) =
    list_sum (map (table_rows env input_folder)
                  (filter (is_accepted env input_folder) csv_files)).
Proof.
  induction csv_files as [|f rest IH]; intros tick; cbn; [reflexivity|].
  unfold is_accepted at 1.
  destruct (accepted env (os_path_join input_folder f)) as [df|] eqn:E.
  - cbn. rewrite IH. unfold table_rows at 2.
    apply accepted_passes in E as [-> _]. reflexivity.
  - apply IH.
Qed.

Lemma In_rejected (env : Env) (input_folder : string)
  (csv_files : list string) (f : string) :
  In f (filter (is_rejected env input_folder) csv_files) <->
  In f csv_files /\ is_accepted env input_folder f = false.
Proof.
  rewrite filter_In. unfold is_rejected.
  now destruct (is_accepted env input_folder f).
Qed.

(** The source column of a stamped table names its file on every row. *)
Lemma stamp_source (f : string) (t : Z) (df : DataFrame) :
  column_or_nan "archivo_origen" (stamp f t df) = repeat (CStr f) (nrows df).
Proof.
  unfold column_or_nan, stamp, setitem_scalar, setitem. cbn [cols nrows].
  rewrite assoc_get_set_other by discriminate.
  now rewrite assoc_get_set_same.
Qed.

Lemma sources_merged (env : Env) (input_folder : string)
  (csv_files : list string) :
  forall tick,
    flat_map (column_or_nan "archivo_origen")
             (merged env input_folder csv_files tick) =
    flat_map (fun f => repeat (CStr f) (table_rows env input_folder f))
             (filter (is_accepted env input_folder) csv_files).
Proof.
  induction csv_files as [|f rest IH]; intros tick; cbn; [reflexivity|].
  unfold is_accepted at 1.
  destruct (accepted env (os_path_join input_folder f)) as [df|] eqn:E.
  - cbn [flat_map]. rewrite IH, stamp_source. unfold table_rows at 2.
    apply accepted_passes in E as [-> _]. reflexivity.
  - apply IH.
Qed.

Lemma merged_stamped (env : Env) (input_folder : string)
  (csv_files : list string) :
  forall tick df,
    In df (merged env input_folder csv_files tick) ->
    exists f t d, df = stamp f t d.
Proof.
  induction csv_files as [|f rest IH]; intros tick df; cbn; [tauto|].
  destruct (accepted env (os_path_join input_folder f)) as [d|]; [|apply IH].
  intros [<-|Hin]; [now exists f, (clock env tick), d | now apply IH in Hin].
Qed.

(** The source column is concatenated as it is: it holds names. *)
Lemma concat_sources (env : Env) (input_folder : string)
  (csv_files : list string) (tick : nat) :
  concat_column "archivo_origen" (merged env input_folder csv_files tick) =
  flat_map (column_or_nan "archivo_origen")
           (merged env input_folder csv_files tick).
Proof.
  apply concat_column_same. intros df x Hin Hx.
  apply merged_stamped in Hin as [f [t [d ->]]].
  rewrite stamp_source in Hx. apply repeat_spec in Hx. now subst x.
Qed.

Lemma In_processing (env : Env) (input_folder : string)
  (csv_files : list string) (f : string) :
  In f csv_files ->
  In (MsgProcessing f) (flat_map (file_events env input_folder) csv_files).
Proof.
  intros Hin. apply in_flat_map. exists f. split; [assumption | now left].
Qed.

Lemma In_summary_failed (acc : Lists) (f : string) :
  In f (failed_files acc) ->
  In (SummaryFailedList (failed_files acc)) (summary_events acc).
Proof.
  intros Hin. unfold summary_events. apply in_or_app. right.
  destruct (failed_files acc); [destruct Hin | now left].
Qed.

Lemma In_summary_processed (acc : Lists) :
  In (SummaryProcessed (length (processed_files acc))) (summary_events acc).
Proof. unfold summary_events. cbn. auto. Qed.

Lemma nil_or_not {A : Type} (l : list A) : l = [] \/ l <> [].
Proof. destruct l; [now left | right; discriminate]. Qed.

(** ** The batch run and its row count *)

(** C1.  A batch run over a listed directory takes every candidate file
    through the loop, one after the other, whatever happens to the files
    before it, and counts it as processed; the name of a candidate file that
    fails to parse or to pass validation is in the failed-files list of the
    printed summary.  When the run returns, the row count of what it returns
    is the sum of the row counts of exactly the candidate files that parse
    and pass validation, and a file that fails either step gives no row to
    the result: no row carries its name in the source column.  The run
    returns unless the date range of the combined table cannot be computed:
    an exception it raises is the one of that computation, raised after the
    summary has been printed. *)
Theorem process_all_files_row_count (env : Env) (input_folder : string)
  (all_files : list string) (s : State) :
  os_listdir env input_folder = Ret all_files ->
  exists outcome s',
    process_all_files env input_folder s = (outcome, s') /\
    (forall result,
        outcome = Ret result ->
        result_rows result =
          list_sum (map (table_rows env input_folder)
                        (filter (is_accepted env input_folder)
                                (csv_only all_files))) /\
        forall f combined src,
          In f (csv_only all_files) ->
          is_accepted env input_folder f = false ->
          result = Some combined ->
          getitem "archivo_origen" combined = Ret src ->
          ~ In (CStr f) src) /\
    (forall e,
        outcome = Raise e ->
        exists combined,
          pd_concat (merged env input_folder (csv_only all_files) (ticks s))
            = Ret combined /\
          date_range env combined = Raise e) /\
    (forall f, In f (csv_only all_files) ->
               is_accepted env input_folder f = false ->
       exists failed, In (SummaryFailedList failed) (out s') /\ In f failed) /\
    (forall f, In f (csv_only all_files) -> In (MsgProcessing f) (out s')) /\
    (csv_only all_files <> [] ->
     In (SummaryProcessed (length (csv_only all_files))) (out s')).
Proof.
  intros Hl. destruct (nil_or_not (csv_only all_files)) as [E|Hcsv].
  - exists (Ret None). eexists.
    split; [apply (process_all_files_no_csv _ _ _ _ Hl E)|].
    rewrite E. cbn.
    split; [|split; [|split; [|split]]]; try tauto; try discriminate.
    intros result H. injection H as <-. split; [reflexivity | tauto].
  - destruct (process_all_files_outcome env input_folder all_files s Hl Hcsv)
      as [outcome [tail [Hrun Hres]]].
    set (acc := collected env input_folder (csv_only all_files) (ticks s)) in *.
    exists outcome. eexists. split; [exact Hrun|]. cbn [out].
    split; [|split; [|split; [|split]]].
    + intros result ->. split.
      * rewrite <- rows_merged with (tick := ticks s).
        change (merged env input_folder (csv_only all_files) (ticks s))
          with (valid_dataframes acc).
        destruct result as [combined|]; cbn [result_rows].
        -- destruct Hres as [_ [Hc _]]. apply (pd_concat_rows _ _ Hc).
        -- destruct Hres as [Hres _]. now rewrite Hres.
      * intros f combined src Hin Hrej -> Hsrc. destruct Hres as [_ [Hc _]].
        unfold getitem in Hsrc.
        rewrite (pd_concat_getitem _ _ "archivo_origen" Hc) in Hsrc.
        destruct (existsb _ _); [|discriminate]. injection Hsrc as <-.
        change (valid_dataframes acc)
          with (merged env input_folder (csv_only all_files) (ticks s)).
        rewrite concat_sources, sources_merged.
        intros Hbad. apply in_flat_map in Hbad as [g [Hg Hrep]].
        apply repeat_spec in Hrep. injection Hrep as ->.
        apply filter_In in Hg as [_ Hg]. congruence.
    + intros e ->. destruct Hres as [combined [_ [Hc [Hd _]]]].
      now exists combined.
    + intros f Hin Hrej. exists (failed_files acc). split.
      * apply in_or_app. right. apply in_or_app. right. apply in_or_app.
        right. apply in_or_app. left. apply (In_summary_failed acc f).
        apply In_rejected. now split.
      * apply In_rejected. now split.
    + intros f Hin. apply in_or_app. right. apply in_or_app. right.
      apply in_or_app. left. now apply In_processing.
    + intros _. apply in_or_app. right. apply in_or_app. right.
      apply in_or_app. right. apply in_or_app. left.
      apply (In_summary_processed acc).
Qed.

(** ** The validator's report *)

Lemma In_missing_colums (df : DataFrame) (c : string) :
  In c (missing_colums df) <-> In c required_colums /\ ~ In c (columns df).
Proof.
  unfold missing_colums. rewrite filter_In, <- has_column_false.
  now destruct (has_column c df).
Qed.

(** C2, as amended.  A table that lacks one of the five required columns is
    rejected.  When it has rows and columns, the list reported as missing is
    the required columns the table lacks, in schema order: the difference
    "required minus present".  A column of the table that is not required is
    not in that list; it only shows in the list of present columns printed
    next. *)
Theorem validate_data_missing_columns (df : DataFrame) (s : State) :
  (exists c, In c required_colums /\ ~ In c (columns df)) ->
  fst (validate_data (Some df) s) = Ret false /\
  (empty df = false ->
   out (snd (validate_data (Some df) s)) =
   out s ++ [MsgValidating; ValMissing (missing_colums df);
             ValVisible (columns df)]) /\
  (forall reported,
      In (ValMissing reported) (printed (validate_data (Some df))) ->
      forall c, In c reported <-> In c required_colums /\ ~ In c (columns df)).
Proof.
  intros [c0 [Hreq Habs]].
  assert (Hm : In c0 (missing_colums df)) by now apply In_missing_colums.
  rewrite validate_data_frame. cbn [fst snd out].
  unfold validate_data. fold (missing_colums df).
  destruct (empty df).
  - run. split; [reflexivity|]. split; [discriminate|].
    intros reported [H|[H|[]]]; discriminate.
  - destruct (missing_colums df) as [|m ms] eqn:E; [destruct Hm|].
    run. split; [reflexivity|]. split; [reflexivity|].
    intros reported [H|[H|[H|[]]]]; try discriminate.
    injection H as <-. intros c. rewrite <- E. apply In_missing_colums.
Qed.

(** C2, as stated, fails: b.csv lacks [operario] and has a [comentario]
    column; the list reported is [operario] alone, and the symmetric
    difference also holds [comentario]. *)
Lemma validate_data_not_symmetric_difference :
  (exists c, In c required_colums /\ ~ In c (columns Demo.b_csv)) /\
  eval (validate_data (Some Demo.b_csv)) = Ret false /\
  In (ValMissing ["operario"]) (printed (validate_data (Some Demo.b_csv))) /\
  In "comentario" (symmetric_difference required_colums (columns Demo.b_csv)) /\
  ~ (forall c, In c ["operario"] <->
               In c (symmetric_difference required_colums (columns Demo.b_csv))).
Proof.
  split; [|split; [|split; [|split]]].
  - exists "operario". split; [unfold required_colums; cbn; tauto|].
    cbn. intros H. repeat (destruct H as [H|H]; [discriminate|]). destruct H.
  - reflexivity.
  - vm_compute. auto 10.
  - vm_compute. auto 10.
  - intros H.
    assert (Hc : In "comentario" ["operario"]) by (apply H; vm_compute; auto 10).
    destruct Hc as [Hc|[]]. discriminate.
Qed.

(** ** The parser, case by case *)

Lemma read_csv_file_ok (env : Env) (filepath : string) (df : DataFrame) :
  pd_read_csv env filepath = Ret df ->
  conversion_error env df = None ->
  eval (read_csv_file env filepath) = Ret (Some (normalized env df)) /\
  printed (read_csv_file env filepath) =
  MsgReading filepath :: date_warning env df ++
  [MsgReadOk; MsgRows (len (normalized env df));
   MsgColumns (length (columns (normalized env df)))].
Proof.
  intros Hr. unfold conversion_error, converted_dates.
  unfold read_csv_file, normalized, date_warning, converted_dates. run.
  rewrite Hr. cbn.
  destruct (has_column "fecha" df) eqn:Hh; cbn; [|now split].
  apply has_column_In in Hh. unfold columns in Hh.
  apply assoc_get_In in Hh as [v Hv].
  unfold getitem, column_or_nan. rewrite Hv. cbn.
  destruct (to_datetime env (len df) v) as [fecha|e]; [|discriminate].
  intros _. cbn. rewrite assoc_get_set_same. cbn.
  destruct (isna_sum fecha); cbn; now split.
Qed.

(** The conversion of the dates raises: the last [except] clauses take it. *)
Lemma read_csv_file_conversion_raises (env : Env) (filepath : string)
  (df : DataFrame) (e : PyExc) :
  pd_read_csv env filepath = Ret df ->
  conversion_error env df = Some e ->
  eval (read_csv_file env filepath) = Ret None /\
  printed (read_csv_file env filepath) =
  MsgReading filepath :: error_events filepath e.
Proof.
  intros Hr. unfold conversion_error, converted_dates.
  unfold read_csv_file, error_events. run. rewrite Hr. cbn.
  destruct (has_column "fecha" df) eqn:Hh; cbn; [|discriminate].
  apply has_column_In in Hh. unfold columns in Hh.
  apply assoc_get_In in Hh as [v Hv].
  unfold getitem, column_or_nan. rewrite Hv. cbn.
  destruct (to_datetime env (len df) v) as [fecha|e']; [discriminate|].
  intros H. injection H as ->. cbn.
  destruct (exc_class e); cbn; now split.
Qed.

(** A table without rows has no date to convert. *)
Lemma conversion_error_no_rows (env : Env) (df : DataFrame) :
  nrows df = 0 -> conversion_error env df = None.
Proof.
  intros H0. unfold conversion_error, converted_dates, to_datetime, len.
  rewrite H0. cbn. now destruct (has_column "fecha" df).
Qed.

Lemma read_csv_file_raise (env : Env) (filepath : string) (e : PyExc) :
  pd_read_csv env filepath = Raise e ->
  eval (read_csv_file env filepath) = Ret None /\
  printed (read_csv_file env filepath) =
  MsgReading filepath :: error_events filepath e.
Proof.
  intros Hr. unfold read_csv_file, error_events. run. rewrite Hr. cbn.
  destruct (exc_class e); cbn; now split.
Qed.

(** ** Failure kinds *)

Lemma failures_date_warning (env : Env) (df : DataFrame) :
  failures (date_warning env df) = [].
Proof.
  unfold date_warning. destruct (has_column "fecha" df); [|reflexivity].
  destruct (converted_dates env df); [|reflexivity].
  now destruct (0 <? _)%nat.
Qed.

Lemma failures_cons (e : Event) (l : list Event) :
  failures (e :: l) =
  match classify e with Some k => [k] | None => [] end ++ failures l.
Proof. reflexivity. Qed.

Lemma failures_app (l1 l2 : list Event) :
  failures (l1 ++ l2) = failures l1 ++ failures l2.
Proof. apply flat_map_app. Qed.

(** C3.  Whatever [pd.read_csv] and the conversion of the dates do on a
    path, [read_csv_file] returns: with a table and no failure announced,
    or with [None] and exactly one failure announced, of one of the four
    kinds.  [None] comes from an exception, raised by [pd.read_csv] or, once
    it has returned a table, by the conversion of the dates of that table;
    the kind announced is the one of the [except] clause that takes the
    exception, and an exception no specific clause takes is announced as
    unexpected, with its class name and message.  The call raises nothing
    and does not read the clock. *)
Theorem read_csv_file_contained (env : Env) (filepath : string) (s : State) :
  exists (r : option DataFrame) (events : list Event),
    read_csv_file env filepath s =
    (Ret r, {| out := out s ++ events; ticks := ticks s |}) /\
    match r with
    | Some table =>
        (exists df, pd_read_csv env filepath = Ret df /\
                    conversion_error env df = None /\
                    table = normalized env df) /\
        failures events = []
    | None =>
        exists e,
          (pd_read_csv env filepath = Raise e \/
           exists df, pd_read_csv env filepath = Ret df /\
                      conversion_error env df = Some e) /\
          failures events = [failure_kind (exc_class e)] /\
          (failure_kind (exc_class e) = UnexpectedFailure ->
           In (ErrUnexpected filepath (class_name (exc_class e)) (exc_msg e))
              events)
    end.
Proof.
  rewrite read_csv_file_frame.
  destruct (pd_read_csv env filepath) as [df|e] eqn:Hr.
  - destruct (conversion_error env df) as [e|] eqn:Hc.
    + destruct (read_csv_file_conversion_raises env filepath df e Hr Hc)
        as [-> ->].
      eexists. eexists. split; [reflexivity|]. exists e.
      split; [right; now exists df|].
      unfold error_events.
      destruct (exc_class e); cbn; split; auto; discriminate.
    + destruct (read_csv_file_ok env filepath df Hr Hc) as [-> ->].
      eexists. eexists. split; [reflexivity|].
      split; [now exists df|].
      change (MsgReading filepath :: ?l) with ([MsgReading filepath] ++ l).
      rewrite !failures_app, failures_date_warning. reflexivity.
  - destruct (read_csv_file_raise env filepath e Hr) as [-> ->].
    eexists. eexists. split; [reflexivity|]. exists e.
    split; [now left|].
    unfold error_events. destruct (exc_class e); cbn; split; auto; discriminate.
Qed.

(** ** Empty files *)

Lemma parsed_ok (env : Env) (filepath : string) (df : DataFrame) :
  pd_read_csv env filepath = Ret df ->
  conversion_error env df = None ->
  parsed env filepath = Some (normalized env df).
Proof.
  intros Hr Hc. unfold parsed.
  now destruct (read_csv_file_ok env filepath df Hr Hc) as [-> _].
Qed.

Lemma parsed_conversion_raises (env : Env) (filepath : string)
  (df : DataFrame) (e : PyExc) :
  pd_read_csv env filepath = Ret df ->
  conversion_error env df = Some e ->
  parsed env filepath = None.
Proof.
  intros Hr Hc. unfold parsed.
  now destruct (read_csv_file_conversion_raises env filepath df e Hr Hc)
    as [-> _].
Qed.

Lemma parsed_raise (env : Env) (filepath : string) (e : PyExc) :
  pd_read_csv env filepath = Raise e -> parsed env filepath = None.
Proof.
  intros Hr. unfold parsed.
  now destruct (read_csv_file_raise env filepath e Hr) as [-> _].
Qed.

Lemma nrows_normalized (env : Env) (df : DataFrame) :
  nrows (normalized env df) = nrows df.
Proof.
  unfold normalized. destruct (has_column "fecha" df); [|reflexivity].
  now destruct (converted_dates env df).
Qed.

Lemma columns_normalized (env : Env) (df : DataFrame) :
  columns (normalized env df) = columns df.
Proof.
  unfold normalized. destruct (has_column "fecha" df) eqn:Hh; [|reflexivity].
  destruct (converted_dates env df) as [fecha|e]; [|reflexivity].
  rewrite columns_setitem. unfold assigned. unfold has_column in Hh.
  now rewrite Hh.
Qed.

Lemma empty_normalized (env : Env) (df : DataFrame) :
  empty (normalized env df) = empty df.
Proof.
  unfold empty. rewrite nrows_normalized. f_equal.
  rewrite <- (length_map fst (cols (normalized env df))).
  rewrite <- (length_map fst (cols df)).
  fold (columns (normalized env df)). fold (columns df).
  now rewrite columns_normalized.
Qed.

Lemma passes_empty (df : DataFrame) : empty df = true -> passes df = false.
Proof.
  intros He. destruct (passes df) eqn:Hp; [|reflexivity].
  apply passes_spec in Hp as [Hne _]. congruence.
Qed.

Lemma validate_data_empty (df : DataFrame) :
  empty df = true ->
  printed (validate_data (Some df)) = [MsgValidating; ValEmpty].
Proof. intros He. unfold validate_data. rewrite He. now run. Qed.

Lemma process_file_rejected (env : Env) (input_folder : string) (acc : Lists)
  (filename : string) (s : State) :
  is_accepted env input_folder filename = false ->
  process_file env input_folder acc filename s =
  (Ret {| valid_dataframes := valid_dataframes acc;
          processed_files := processed_files acc ++ [filename];
          failed_files := failed_files acc ++ [filename] |},
   {| out := out s ++ file_events env input_folder filename;
      ticks := ticks s |}).
Proof.
  unfold is_accepted. intros Hrej. rewrite process_file_run.
  now destruct (accepted env (os_path_join input_folder filename)).
Qed.

(** C4, as amended.  A file on which [pd.read_csv] raises [EmptyDataError]
    (a zero-byte file) is rejected by the parser, which announces an empty
    input.  A file for which [pd.read_csv] returns a table without rows (a
    header row only) is read successfully: the parser announces no failure
    and returns the table, and it is the validator that rejects it, as an
    empty table.  Either way the turn of the loop for that file leaves the
    collected tables as they were and adds the file to the failed list. *)
Theorem empty_file_never_merged (env : Env) (input_folder : string)
  (acc : Lists) (filename : string) (s : State) :
  (exists e,
      pd_read_csv env (os_path_join input_folder filename) = Raise e /\
      exc_class e = EmptyDataError) \/
  (exists df,
      pd_read_csv env (os_path_join input_folder filename) = Ret df /\
      nrows df = 0) ->
  is_accepted env input_folder filename = false /\
  process_file env input_folder acc filename s =
    (Ret {| valid_dataframes := valid_dataframes acc;
            processed_files := processed_files acc ++ [filename];
            failed_files := failed_files acc ++ [filename] |},
     {| out := out s ++ file_events env input_folder filename;
        ticks := ticks s |}) /\
  (forall e,
      pd_read_csv env (os_path_join input_folder filename) = Raise e ->
      exc_class e = EmptyDataError ->
      eval (read_csv_file env (os_path_join input_folder filename))
        = Ret None /\
      printed (read_csv_file env (os_path_join input_folder filename)) =
        [MsgReading (os_path_join input_folder filename);
         ErrEmptyFile (os_path_join input_folder filename)] /\
      failures (file_events env input_folder filename) = [EmptyInput]) /\
  (forall df,
      pd_read_csv env (os_path_join input_folder filename) = Ret df ->
      nrows df = 0 ->
      eval (read_csv_file env (os_path_join input_folder filename))
        = Ret (Some (normalized env df)) /\
      eval (validate_data (Some (normalized env df))) = Ret false /\
      printed (validate_data (Some (normalized env df))) =
        [MsgValidating; ValEmpty] /\
      failures (file_events env input_folder filename) = []).
Proof.
  intros Hcase. set (filepath := os_path_join input_folder filename) in *.
  assert (Hzero : forall df, nrows df = 0 -> empty (normalized env df) = true).
  { intros df H0. rewrite empty_normalized. unfold empty. now rewrite H0. }
  assert (Hrej : is_accepted env input_folder filename = false).
  { unfold is_accepted, accepted. fold filepath.
    destruct Hcase as [[e [Hr _]]|[df [Hr H0]]].
    - now rewrite (parsed_raise _ _ _ Hr).
    - rewrite (parsed_ok _ _ _ Hr (conversion_error_no_rows env df H0)),
        passes_empty; auto. }
  split; [exact Hrej|]. split; [now apply process_file_rejected|]. split.
  - intros e Hr Hc. destruct (read_csv_file_raise env filepath e Hr) as [Hv Hp].
    unfold error_events in Hp. rewrite Hc in Hp. split; [exact Hv|].
    split; [exact Hp|]. unfold file_events. fold filepath.
    rewrite Hp, (parsed_raise _ _ _ Hr). reflexivity.
  - intros df Hr H0.
    pose proof (conversion_error_no_rows env df H0) as Hc.
    destruct (read_csv_file_ok env filepath df Hr Hc) as [Hv Hp].
    split; [exact Hv|]. rewrite validate_data_eval, passes_empty by auto.
    split; [reflexivity|]. rewrite validate_data_empty by auto.
    split; [reflexivity|]. unfold file_events. fold filepath.
    rewrite Hp, (parsed_ok _ _ _ Hr Hc), validate_data_empty, passes_empty
      by auto.
    repeat (rewrite failures_cons || rewrite failures_app).
    rewrite failures_date_warning. reflexivity.
Qed.

(** C4, as stated, fails on a file with a header row only: the parser
    returns its table and announces no failure; nothing in the turn of the
    loop for [header.csv] classifies it as an empty input. *)
Lemma header_only_not_empty_input :
  pd_read_csv Demo.env (os_path_join "data/input" "header.csv")
    = Ret Demo.header_csv /\
  nrows Demo.header_csv = 0 /\
  columns Demo.header_csv = required_colums /\
  eval (read_csv_file Demo.env (os_path_join "data/input" "header.csv"))
    = Ret (Some Demo.header_csv) /\
  failures (printed (read_csv_file Demo.env
                       (os_path_join "data/input" "header.csv"))) = [] /\
  ~ In EmptyInput (failures (file_events Demo.env "data/input" "header.csv")).
Proof.
  repeat split; try reflexivity. vm_compute. tauto.
Qed.

(** ** Dates *)




Lemma getitem_column_or_nan (c : string) (df : DataFrame) (v : list Cell) :
  getitem c df = Ret v -> column_or_nan c df = v /\ In c (columns df).
Proof.
  unfold getitem, column_or_nan. intros H. split.
  - destruct (assoc_get c (cols df)); [now injection H | discriminate].
  - apply assoc_get_In. destruct (assoc_get c (cols df)) as [w|]; [eauto | discriminate].
Qed.

Lemma process_file_accepted (env : Env) (input_folder : string) (acc : Lists)
  (filename : string) (s : State) (df : DataFrame) :
  accepted env (os_path_join input_folder filename) = Some df ->
  process_file env input_folder acc filename s =
  (Ret {| valid_dataframes :=
            valid_dataframes acc ++ [stamp filename (clock env (ticks s)) df];
          processed_files := processed_files acc ++ [filename];
          failed_files := failed_files acc |},
   {| out := out s ++ file_events env input_folder filename;
      ticks := S (ticks s) |}).
Proof. intros Ha. rewrite process_file_run. now rewrite Ha. Qed.



(** ** No data, and failures of the directory *)

Lemma merged_all_rejected (env : Env) (input_folder : string)
  (csv_files : list string) (tick : nat) :
  (forall f, In f csv_files -> is_accepted env input_folder f = false) ->
  merged env input_folder csv_files tick = [].
Proof.
  induction csv_files as [|f rest IH]; intros Hall; cbn; [reflexivity|].
  assert (Hf : is_accepted env input_folder f = false) by (apply Hall; now left).
  unfold is_accepted in Hf.
  destruct (accepted env (os_path_join input_folder f)); [discriminate|].
  apply IH. intros g Hg. apply Hall. now right.
Qed.

(** C6.  When the directory is listed and holds no [.csv] file, or none of
    its [.csv] files both parses and passes validation, the run returns
    [None] and raises nothing. *)
Theorem no_data_result (env : Env) (input_folder : string)
  (all_files : list string) (s : State) :
  os_listdir env input_folder = Ret all_files ->
  csv_only all_files = [] \/
  (forall f, In f (csv_only all_files) ->
             is_accepted env input_folder f = false) ->
  exists s', process_all_files env input_folder s = (Ret None, s').
Proof.
  intros Hl Hcase. destruct (nil_or_not (csv_only all_files)) as [E|Hcsv].
  - eexists. apply (process_all_files_no_csv _ _ _ _ Hl E).
  - destruct Hcase as [E|Hall]; [congruence|].
    rewrite (process_all_files_listed _ _ _ _ Hl Hcsv).
    rewrite report_and_merge_none; [eauto|].
    now apply merged_all_rejected.
Qed.

(** C7.  The directory [zonas] is listed and holds two files that both parse
    and pass validation: the dates of [a.csv] have no time zone, the one of
    [utc.csv] has one.  The run takes both through the loop, prints the
    summary (two files processed, two collected, none failed), concatenates
    the two tables, and is then halted by [TypeError], raised by the minimum
    of the date column of the combined table: no failure of the directory,
    and no table and no [None] returned. *)
Theorem date_range_halts_the_run :
  os_listdir Demo.env "zonas" = Ret ["a.csv"; "utc.csv"] /\
  is_accepted Demo.env "zonas" "a.csv" = true /\
  is_accepted Demo.env "zonas" "utc.csv" = true /\
  exists combined,
    pd_concat (merged Demo.env "zonas" ["a.csv"; "utc.csv"] 0) = Ret combined /\
    getitem "fecha" combined = Ret [CTime 24; CTime 48; CTimeTz 33 1] /\
    series_min Demo.env [CTime 24; CTime 48; CTimeTz 33 1] =
      Raise (mkExc TypeError "Cannot compare tz-naive and tz-aware timestamps") /\
    process_all_files Demo.env "zonas" initial =
    (Raise (mkExc TypeError "Cannot compare tz-naive and tz-aware timestamps"),
     {| out := [MsgSearching "zonas"; MsgFound 2; MsgCsvFound 2;
                MsgToProcess ["a.csv"; "utc.csv"]] ++
               file_events Demo.env "zonas" "a.csv" ++
               file_events Demo.env "zonas" "utc.csv" ++
               [SummaryHeader; SummaryProcessed 2; SummarySucceeded 2;
                SummaryFailed 0; MsgCombining 2; MsgCompleted; MsgTotal 3];
        ticks := 2 |}).
Proof.
  split; [reflexivity|]. split; [reflexivity|]. split; [reflexivity|].
  destruct (pd_concat (merged Demo.env "zonas" ["a.csv"; "utc.csv"] 0))
    as [combined|e] eqn:E; vm_compute in E; [|discriminate E].
  injection E as <-. eexists. split; [reflexivity|].
  split; [reflexivity|]. split; [reflexivity|].
  vm_compute. reflexivity.
Qed.

(** ** Two runs over the same directory *)

Lemma stamp_same_but (f : string) (t1 t2 : Z) (df : DataFrame) :
  same_but "fecha_procesamiento" (stamp f t1 df) (stamp f t2 df).
Proof.
  split; [reflexivity|]. split; [now rewrite !columns_stamp|].
  intros k Hk. unfold stamp, setitem_scalar, setitem. cbn [cols nrows].
  now rewrite !(assoc_get_set_other "fecha_procesamiento") by assumption.
Qed.

(** What [read_csv_file] returns, from what [pd.read_csv] and the conversion
    of the dates do. *)
Lemma parsed_cases (env : Env) (filepath : string) :
  parsed env filepath =
  match pd_read_csv env filepath with
  | Ret df =>
      match conversion_error env df with
      | None => Some (normalized env df)
      | Some _ => None
      end
  | Raise _ => None
  end.
Proof.
  destruct (pd_read_csv env filepath) as [df|e] eqn:Hr.
  - destruct (conversion_error env df) as [e|] eqn:Hc.
    + exact (parsed_conversion_raises env filepath df e Hr Hc).
    + exact (parsed_ok env filepath df Hr Hc).
  - exact (parsed_raise env filepath e Hr).
Qed.

(** Two worlds in which a file has the same contents and its dates convert
    the same give the same table for it. *)
Lemma parsed_alike (env1 env2 : Env) (filepath : string) :
  pd_read_csv env1 filepath = pd_read_csv env2 filepath ->
  (forall df, pd_read_csv env1 filepath = Ret df ->
              has_column "fecha" df = true ->
              converted_dates env1 df = converted_dates env2 df) ->
  parsed env1 filepath = parsed env2 filepath.
Proof.
  intros Hrd Hconv. rewrite !parsed_cases, <- Hrd.
  destruct (pd_read_csv env1 filepath) as [df|e]; [|reflexivity].
  unfold conversion_error, normalized.
  destruct (has_column "fecha" df) eqn:Hh; [|reflexivity].
  now rewrite (Hconv df eq_refl Hh).
Qed.

Lemma accepted_alike (env1 env2 : Env) (filepath : string) :
  parsed env1 filepath = parsed env2 filepath ->
  accepted env1 filepath = accepted env2 filepath.
Proof. unfold accepted. now intros ->. Qed.

Lemma merged_same_but (env1 env2 : Env) (input_folder : string)
  (csv_files : list string) :
  (forall f, In f csv_files ->
             accepted env1 (os_path_join input_folder f) =
             accepted env2 (os_path_join input_folder f)) ->
  forall tick1 tick2,
    Forall2 (same_but "fecha_procesamiento")
      (merged env1 input_folder csv_files tick1)
      (merged env2 input_folder csv_files tick2).
Proof.
  induction csv_files as [|f rest IH]; intros Hacc tick1 tick2; cbn [merged];
    [constructor|].
  rewrite (Hacc f) by now left.
  assert (Hrest : forall g, In g rest ->
                    accepted env1 (os_path_join input_folder g) =
                    accepted env2 (os_path_join input_folder g))
    by (intros g Hg; apply Hacc; now right).
  destruct (accepted env2 (os_path_join input_folder f)) as [df|].
  - constructor; [apply stamp_same_but | now apply IH].
  - now apply IH.
Qed.

Lemma union_columns_same_but (name : string) (l1 l2 : list DataFrame) :
  Forall2 (same_but name) l1 l2 -> union_columns l1 = union_columns l2.
Proof.
  intros H. unfold union_columns. f_equal.
  induction H as [|a b l1 l2 [_ [Hc _]] _ IH]; cbn; [reflexivity|].
  now rewrite Hc, IH.
Qed.

Lemma rows_same_but (name : string) (l1 l2 : list DataFrame) :
  Forall2 (same_but name) l1 l2 ->
  list_sum (map nrows l1) = list_sum (map nrows l2).
Proof.
  intros H. unfold list_sum.
  induction H as [|a b l1 l2 [Hn _] _ IH]; cbn [map fold_right]; [reflexivity|].
  now rewrite Hn, IH.
Qed.

Lemma upcast_same_but (name k : string) (l1 l2 : list DataFrame) :
  k <> name -> Forall2 (same_but name) l1 l2 ->
  upcast_to_float k l1 = upcast_to_float k l2.
Proof.
  intros Hk H. unfold upcast_to_float.
  assert (Hd : map (fun df => option_map column_dtype (assoc_get k (cols df))) l1 =
               map (fun df => option_map column_dtype (assoc_get k (cols df))) l2).
  { induction H as [|a b l1 l2 [_ [_ Hg]] _ IH]; cbn; [reflexivity|].
    now rewrite (Hg k Hk), IH. }
  now rewrite Hd.
Qed.

Lemma column_same_but (name k : string) (l1 l2 : list DataFrame) :
  k <> name -> Forall2 (same_but name) l1 l2 ->
  concat_column k l1 = concat_column k l2.
Proof.
  intros Hk H. unfold concat_column.
  rewrite (upcast_same_but name k l1 l2 Hk H).
  generalize (upcast_to_float k l2) as up. intros up.
  induction H as [|a b l1 l2 [Hn [_ Hg]] _ IH]; cbn; [reflexivity|].
  unfold concat_part at 1 3. now rewrite (Hg k Hk), Hn, IH.
Qed.

Lemma filter_tabulate (name : string) (f : string -> list Cell)
  (names : list string) :
  filter (fun kv : string * list Cell => negb (String.eqb (fst kv) name))
         (map (fun k => (k, f k)) names) =
  map (fun k => (k, f k)) (filter (fun k => negb (String.eqb k name)) names).
Proof.
  induction names as [|k t IH]; cbn; [reflexivity|].
  destruct (String.eqb k name); cbn; now rewrite IH.
Qed.

(** Concatenating tables that differ at most in one column gives tables that
    are equal once that column is dropped. *)
Lemma pd_concat_same_but (name : string) (l1 l2 : list DataFrame)
  (d1 d2 : DataFrame) :
  Forall2 (same_but name) l1 l2 ->
  pd_concat l1 = Ret d1 -> pd_concat l2 = Ret d2 ->
  columns d1 = columns d2 /\ drop_column name d1 = drop_column name d2.
Proof.
  intros H H1 H2. split.
  - rewrite (pd_concat_columns _ _ H1), (pd_concat_columns _ _ H2).
    now apply union_columns_same_but with (name := name).
  - assert (N1 : l1 <> []) by (destruct l1; [discriminate | congruence]).
    assert (N2 : l2 <> []) by (destruct l2; [discriminate | congruence]).
    rewrite pd_concat_nonempty in H1, H2 by assumption.
    injection H1 as <-. injection H2 as <-.
    unfold drop_column. cbn [nrows cols]. f_equal.
    + now apply rows_same_but with (name := name).
    + rewrite !filter_tabulate.
      rewrite (union_columns_same_but name _ _ H).
      apply map_ext_in. intros k Hk. apply filter_In in Hk as [_ Hk].
      f_equal. apply column_same_but with (name := name); [|assumption].
      intros ->. now rewrite String.eqb_refl in Hk.
Qed.

(** The value of a run over a listed directory with candidate files. *)
Lemma process_all_files_value (env : Env) (input_folder : string)
  (all_files : list string) (s : State) :
  os_listdir env input_folder = Ret all_files ->
  csv_only all_files <> [] ->
  fst (process_all_files env input_folder s) =
  merge_of env (merged env input_folder (csv_only all_files) (ticks s)).
Proof.
  intros Hl Hcsv.
  destruct (process_all_files_outcome env input_folder all_files s Hl Hcsv)
    as [outcome [tail [-> Hres]]].
  cbn [fst valid_dataframes collected] in *. unfold merge_of.
  destruct outcome as [[combined|]|e].
  - destruct Hres as [Hne [Hc [[lo [hi Hd]] _]]]. rewrite Hc.
    unfold merge_result. rewrite Hd.
    now destruct (merged env input_folder (csv_only all_files) (ticks s)).
  - destruct Hres as [-> _]. reflexivity.
  - destruct Hres as [combined [Hne [Hc [Hd _]]]]. rewrite Hc.
    unfold merge_result. rewrite Hd.
    now destruct (merged env input_folder (csv_only all_files) (ticks s)).
Qed.

(** Merging tables that differ at most in the processing timestamp, with
    the same way of comparing dates, gives results with the same content. *)
Lemma merge_same_content (env1 env2 : Env) (l1 l2 : list DataFrame) :
  object_min env1 = object_min env2 ->
  object_max env1 = object_max env2 ->
  Forall2 (same_but "fecha_procesamiento") l1 l2 ->
  same_content (merge_of env1 l1) (merge_of env2 l2).
Proof.
  intros Hmin Hmax H.
  destruct H as [|a b l1 l2 Hab Hrest]; [exact I|].
  assert (H : Forall2 (same_but "fecha_procesamiento") (a :: l1) (b :: l2))
    by now constructor.
  unfold merge_of.
  destruct (pd_concat (a :: l1)) as [d1|e1] eqn:H1; [|discriminate].
  destruct (pd_concat (b :: l2)) as [d2|e2] eqn:H2; [|discriminate].
  destruct (pd_concat_same_but _ _ _ _ _ H H1 H2) as [Hcols Hdrop].
  assert (Hf : column_or_nan "fecha" d1 = column_or_nan "fecha" d2).
  { unfold column_or_nan.
    rewrite (pd_concat_getitem _ _ "fecha" H1), (pd_concat_getitem _ _ "fecha" H2).
    rewrite (pd_concat_rows _ _ H1), (pd_concat_rows _ _ H2).
    rewrite (union_columns_same_but _ _ _ H), (rows_same_but _ _ _ H).
    now rewrite (column_same_but "fecha_procesamiento" "fecha" _ _
                   ltac:(discriminate) H). }
  assert (Hd : date_range env1 d1 = date_range env2 d2).
  { unfold date_range, series_min, series_max. now rewrite Hf, Hmin, Hmax. }
  unfold merge_result. rewrite Hd.
  destruct (date_range env2 d2) as [[lo hi]|e]; cbn; [now split | reflexivity].
Qed.

(** C8, as amended.  Take two runs over the same directory (the same
    listing, the same file contents), on two days and with two clocks,
    whatever was printed before, and let the dates of every candidate file
    convert the same on both days.  Then the two runs end the same way, with
    results of the same content: the tables have the same columns and, the
    processing-timestamp column apart, the same values in the same rows. *)
Theorem process_all_files_idempotent (env : Env) (day1 day2 : Z)
  (c1 c2 : nat -> Z) (input_folder : string) (s1 s2 : State) :
  (forall all_files f df,
      os_listdir env input_folder = Ret all_files ->
      In f (csv_only all_files) ->
      pd_read_csv env (os_path_join input_folder f) = Ret df ->
      has_column "fecha" df = true ->
      converted_dates (at_time env day1 c1) df =
      converted_dates (at_time env day2 c2) df) ->
  same_content (fst (process_all_files (at_time env day1 c1) input_folder s1))
               (fst (process_all_files (at_time env day2 c2) input_folder s2)).
Proof.
  intros Hdates.
  destruct (os_listdir env input_folder) as [all_files|e] eqn:Hl.
  - destruct (nil_or_not (csv_only all_files)) as [E|Hcsv].
    + rewrite (process_all_files_no_csv (at_time env day1 c1) _ _ s1 Hl E).
      rewrite (process_all_files_no_csv (at_time env day2 c2) _ _ s2 Hl E).
      exact I.
    + rewrite (process_all_files_value (at_time env day1 c1) _ _ s1 Hl Hcsv).
      rewrite (process_all_files_value (at_time env day2 c2) _ _ s2 Hl Hcsv).
      apply merge_same_content; [reflexivity | reflexivity |].
      apply merged_same_but. intros f Hin.
      apply accepted_alike, parsed_alike; [reflexivity|].
      intros df Hr Hh. exact (Hdates all_files f df eq_refl Hin Hr Hh).
  - rewrite (process_all_files_listdir_raises (at_time env day1 c1) _ e s1 Hl).
    rewrite (process_all_files_listdir_raises (at_time env day2 c2) _ e s2 Hl).
    destruct (exc_class e); cbn; auto.
Qed.

(** C8, as stated, fails on a file whose date is a time of day: the parser
    completes it with the day of the run.  The directory [horas] holds one
    such file; two runs over it, on two days, with the same listing, the same
    file contents and even the same clock, return tables whose date columns
    differ. *)
Lemma time_of_day_differs_between_runs :
  let first := at_time Demo.env 5 (clock Demo.env) in
  let second := at_time Demo.env 6 (clock Demo.env) in
  os_listdir first "horas" = Ret ["hora.csv"] /\
  os_listdir second "horas" = Ret ["hora.csv"] /\
  pd_read_csv first "horas/hora.csv" = Ret Demo.hora_csv /\
  pd_read_csv second "horas/hora.csv" = Ret Demo.hora_csv /\
  exists d1 d2,
    fst (process_all_files first "horas" initial) = Ret (Some d1) /\
    fst (process_all_files second "horas" initial) = Ret (Some d2) /\
    getitem "fecha" d1 = Ret [CTime 130] /\
    getitem "fecha" d2 = Ret [CTime 154] /\
    getitem "fecha_procesamiento" d1 = getitem "fecha_procesamiento" d2 /\
    ~ same_content (fst (process_all_files first "horas" initial))
                   (fst (process_all_files second "horas" initial)).
Proof.
  intros first second.
  split; [reflexivity|]. split; [reflexivity|].
  split; [reflexivity|]. split; [reflexivity|].
  destruct (fst (process_all_files first "horas" initial)) as [[d1|]|e1] eqn:E1;
    vm_compute in E1; try discriminate E1.
  destruct (fst (process_all_files second "horas" initial)) as [[d2|]|e2] eqn:E2;
    vm_compute in E2; try discriminate E2.
  injection E1 as <-. injection E2 as <-.
  eexists. eexists. split; [reflexivity|]. split; [reflexivity|].
  split; [reflexivity|]. split; [reflexivity|]. split; [reflexivity|].
  cbn [same_content]. intros [_ H]. vm_compute in H. discriminate H.
Qed.

(** ** The partition of the candidate files *)

Lemma sources_of_merged (env : Env) (input_folder : string)
  (csv_files : list string) :
  forall tick,
    map source_file (merged env input_folder csv_files tick) =
    map Some (filter (is_accepted env input_folder) csv_files).
Proof.
  induction csv_files as [|f rest IH]; intros tick; cbn [merged filter map];
    [reflexivity|].
  unfold is_accepted at 1.
  destruct (accepted env (os_path_join input_folder f)) as [df|] eqn:E;
    [|apply IH].
  cbn [map]. rewrite IH. f_equal.
  apply accepted_passes in E as [_ Hp]. apply passes_spec in Hp as [He _].
  apply empty_false_rows in He. unfold source_file. rewrite stamp_source.
  destruct (nrows df); [lia | reflexivity].
Qed.

Lemma Permutation_filter_split {A : Type} (p : A -> bool) (l : list A) :
  Permutation l (filter p l ++ filter (fun x => negb (p x)) l).
Proof.
  induction l as [|x t IH]; cbn; [constructor|].
  destruct (p x); cbn.
  - now constructor.
  - now apply Permutation_cons_app.
Qed.

Lemma length_filter_split {A : Type} (p : A -> bool) (l : list A) :
  length l = length (filter p l) + length (filter (fun x => negb (p x)) l).
Proof.
  rewrite <- length_app. apply Permutation_length, Permutation_filter_split.
Qed.

(** The run, as its three stages. *)
Lemma process_all_files_unfold (env : Env) (input_folder : string) (s : State) :
  process_all_files env input_folder s =
  match (print (MsgSearching input_folder) ;;; discover env input_folder) s with
  | (Ret (Return result), s0) => (Ret result, s0)
  | (Ret (Proceed csv_files), s0) =>
      match process_loop env input_folder csv_files no_lists s0 with
      | (Ret acc, s1) => report_and_merge env acc s1
      | (Raise e, s1) => (Raise e, s1)
      end
  | (Raise e, s0) => (Raise e, s0)
  end.
Proof.
  unfold process_all_files, bind, print.
  destruct (discover env input_folder _) as [[[r|csv_files]|e] s0]; reflexivity.
Qed.

(** C9.  In a run that reaches the loop (the directory is listed and has
    candidate files), the loop ends with three lists such that: the
    processed files are the candidate files, each once and in order; the
    failed files are the candidates that do not both parse and pass
    validation, and the collected tables come, in order, from the others; so
    the candidates are the sources of the collected tables together with the
    failed files, a candidate is in the failed list exactly when no collected
    table comes from it, and the processed count is the succeeded count plus
    the failed count.  The run then prints the summary of these three
    lists. *)
Theorem files_partitioned (env : Env) (input_folder : string)
  (all_files : list string) (s : State) :
  os_listdir env input_folder = Ret all_files ->
  csv_only all_files <> [] ->
  exists s0 acc s1,
    (print (MsgSearching input_folder) ;;; discover env input_folder) s =
      (Ret (Proceed (csv_only all_files)), s0) /\
    process_loop env input_folder (csv_only all_files) no_lists s0 =
      (Ret acc, s1) /\
    process_all_files env input_folder s = report_and_merge env acc s1 /\
    processed_files acc = csv_only all_files /\
    failed_files acc =
      filter (is_rejected env input_folder) (csv_only all_files) /\
    map source_file (valid_dataframes acc) =
      map Some (filter (is_accepted env input_folder) (csv_only all_files)) /\
    Permutation (map Some (processed_files acc))
      (map source_file (valid_dataframes acc) ++ map Some (failed_files acc)) /\
    (forall f, In f (processed_files acc) ->
       (In f (failed_files acc) <->
        ~ In (Some f) (map source_file (valid_dataframes acc)))) /\
    length (processed_files acc) =
      length (valid_dataframes acc) + length (failed_files acc) /\
    (exists before after,
       out (snd (report_and_merge env acc s1)) =
       before ++
       [SummaryHeader;
        SummaryProcessed (length (processed_files acc));
        SummarySucceeded (length (valid_dataframes acc));
        SummaryFailed (length (failed_files acc))] ++ after).
Proof.
  intros Hl Hcsv.
  set (csv_files := csv_only all_files) in *.
  set (s0 := {| out := (out s ++ [MsgSearching input_folder]) ++
                       [MsgFound (length all_files);
                        MsgCsvFound (length csv_files);
                        MsgToProcess csv_files];
                ticks := ticks s |}).
  assert (Hd : (print (MsgSearching input_folder) ;;;
                discover env input_folder) s = (Ret (Proceed csv_files), s0)).
  { unfold bind at 1. unfold print at 1.
    now rewrite (discover_listed _ _ _ _ Hl Hcsv). }
  pose proof (process_loop_run env input_folder csv_files no_lists s0) as Hloop.
  cbn [valid_dataframes processed_files failed_files no_lists app] in Hloop.
  match type of Hloop with _ = (Ret ?a, ?t) => set (acc := a) in *; set (s1 := t) in * end.
  exists s0, acc, s1. split; [exact Hd|]. split; [exact Hloop|].
  split.
  { now rewrite process_all_files_unfold, Hd, Hloop. }
  assert (Hsrc : map source_file (valid_dataframes acc) =
                 map Some (filter (is_accepted env input_folder) csv_files))
    by apply sources_of_merged.
  split; [reflexivity|]. split; [reflexivity|]. split; [exact Hsrc|].
  split.
  { rewrite Hsrc, <- map_app. apply Permutation_map.
    apply (Permutation_filter_split (is_accepted env input_folder)). }
  split.
  { intros f Hin. rewrite Hsrc. cbn [failed_files acc].
    change (failed_files acc) with (filter (is_rejected env input_folder) csv_files).
    rewrite In_rejected, in_map_iff. split.
    - intros [_ Hrej] [g [Hg Hacc]]. injection Hg as ->.
      apply filter_In in Hacc as [_ Hacc]. congruence.
    - intros Hno. split; [exact Hin|].
      destruct (is_accepted env input_folder f) eqn:Ha; [|reflexivity].
      exfalso. apply Hno. exists f. split; [reflexivity|].
      apply filter_In. now split. }
  split.
  { change (length (processed_files acc)) with (length csv_files).
    change (length (valid_dataframes acc))
      with (length (merged env input_folder csv_files (ticks s0))).
    rewrite length_merged.
    apply (length_filter_split (is_accepted env input_folder)). }
  destruct (valid_dataframes acc) as [|d ds] eqn:Hv.
  - rewrite report_and_merge_none by assumption. cbn [snd out].
    exists (out s1).
    exists (match failed_files acc with
            | _ :: _ => [SummaryFailedList (failed_files acc)]
            | [] => []
            end ++ [MsgNoneValid]).
    unfold summary_events. rewrite Hv. now rewrite <- !app_assoc.
  - destruct (report_and_merge_some env acc s1) as [c [_ Hr]].
    + rewrite Hv. discriminate.
    + apply merged_mergeable.
    + rewrite Hr. cbn [snd out]. exists (out s1).
      exists (match failed_files acc with
              | _ :: _ => [SummaryFailedList (failed_files acc)]
              | [] => []
              end ++ merge_events env (length (valid_dataframes acc)) c).
      unfold summary_events. rewrite Hv. now rewrite <- !app_assoc.
Qed.

(** ** What a returned table looks like *)

Lemma date_range_Ret (env : Env) (combined : DataFrame) (fecha : list Cell)
  (lo hi : Cell) :
  getitem "fecha" combined = Ret fecha ->
  date_range env combined = Ret (lo, hi) ->
  series_min env fecha = Ret lo /\ series_max env fecha = Ret hi.
Proof.
  intros Hf. unfold date_range. rewrite (getitem_Ret _ _ _ Hf).
  destruct (series_min env fecha) as [lo'|e1]; [|discriminate].
  destruct (series_max env fecha) as [hi'|e2]; [|discriminate].
  intros H. injection H as <- <-. now split.
Qed.

Lemma date_range_Raise (env : Env) (combined : DataFrame) (fecha : list Cell)
  (e : PyExc) :
  getitem "fecha" combined = Ret fecha ->
  date_range env combined = Raise e ->
  series_min env fecha = Raise e \/
  exists lo, series_min env fecha = Ret lo /\ series_max env fecha = Raise e.
Proof.
  intros Hf. unfold date_range. rewrite (getitem_Ret _ _ _ Hf).
  destruct (series_min env fecha) as [lo|e1].
  - destruct (series_max env fecha) as [hi|e2]; [discriminate|].
    intros H. injection H as <-. right. now exists lo.
  - intros H. injection H as <-. now left.
Qed.

(** C10.  A table returned by the run has at least one row and has the five
    required columns and the two provenance columns; the look-ups of the
    date, machine and shift columns made for the statistics succeed on it and
    the statistics are printed.  The run returns "no data" only otherwise.
    When the run raises, either the listing of the directory raised, or the
    tables were concatenated into one with at least one row and all seven
    columns, the look-up of the date column succeeded, and it is the minimum
    or the maximum of the dates that raised, in comparing them: no statistic
    fails for lack of a column or of rows. *)
Theorem merged_result_well_formed (env : Env) (input_folder : string)
  (s : State) :
  match process_all_files env input_folder s with
  | (Ret (Some combined), s') =>
      1 <= len combined /\
      (forall c, In c (required_colums ++ provenance_colums) ->
                 In c (columns combined)) /\
      exists fecha maquina turno lo hi,
        getitem "fecha" combined = Ret fecha /\
        getitem "maquina" combined = Ret maquina /\
        getitem "turno" combined = Ret turno /\
        series_min env fecha = Ret lo /\
        series_max env fecha = Ret hi /\
        In (MsgDateRange lo hi) (out s') /\
        In (MsgMachines (series_nunique maquina)) (out s') /\
        In (MsgShifts (series_unique turno)) (out s')
  | (Ret None, _) => True
  | (Raise e, _) =>
      os_listdir env input_folder = Raise e \/
      exists all_files combined fecha maquina turno,
        os_listdir env input_folder = Ret all_files /\
        pd_concat (merged env input_folder (csv_only all_files) (ticks s))
          = Ret combined /\
        1 <= len combined /\
        (forall c, In c (required_colums ++ provenance_colums) ->
                   In c (columns combined)) /\
        getitem "fecha" combined = Ret fecha /\
        getitem "maquina" combined = Ret maquina /\
        getitem "turno" combined = Ret turno /\
        (series_min env fecha = Raise e \/
         exists lo, series_min env fecha = Ret lo /\
                    series_max env fecha = Raise e)
  end.
Proof.
  destruct (os_listdir env input_folder) as [all_files|e] eqn:Hl.
  - destruct (nil_or_not (csv_only all_files)) as [E|Hcsv].
    + now rewrite (process_all_files_no_csv _ _ _ _ Hl E).
    + destruct (process_all_files_outcome env input_folder all_files s Hl Hcsv)
        as [outcome [tail [-> Hres]]].
      assert (Hstats : forall combined,
        valid_dataframes
          (collected env input_folder (csv_only all_files) (ticks s)) <> [] ->
        pd_concat (valid_dataframes
          (collected env input_folder (csv_only all_files) (ticks s)))
          = Ret combined ->
        1 <= len combined /\
        (forall c, In c (required_colums ++ provenance_colums) ->
                   In c (columns combined)) /\
        exists fecha maquina turno,
          getitem "fecha" combined = Ret fecha /\
          getitem "maquina" combined = Ret maquina /\
          getitem "turno" combined = Ret turno).
      { intros combined Hne Hc.
        pose proof (pd_concat_mergeable _ _ Hne
                      (collected_mergeable env input_folder _ _) Hc) as Hm.
        destruct Hm as [Hrows Hcols]. split; [exact Hrows|].
        split; [exact Hcols|].
        destruct (mergeable_getitem combined "fecha" (conj Hrows Hcols))
          as [fecha Hf]; [unfold required_colums; cbn; tauto|].
        destruct (mergeable_getitem combined "maquina" (conj Hrows Hcols))
          as [maquina Hq]; [unfold required_colums; cbn; tauto|].
        destruct (mergeable_getitem combined "turno" (conj Hrows Hcols))
          as [turno Ht]; [unfold required_colums; cbn; tauto|].
        now exists fecha, maquina, turno. }
      destruct outcome as [[combined|]|e]; [| exact I |].
      * destruct Hres as [Hne [Hc [[lo [hi Hd]] ->]]].
        destruct (Hstats combined Hne Hc)
          as [Hrows [Hcols [fecha [maquina [turno [Hf [Hq Ht]]]]]]].
        split; [exact Hrows|]. split; [exact Hcols|].
        destruct (date_range_Ret _ _ _ _ _ Hf Hd) as [Hlo Hhi].
        exists fecha, maquina, turno, lo, hi.
        repeat (split; [assumption|]).
        cbn [out]. unfold merge_events. rewrite Hd.
        rewrite (getitem_Ret _ _ _ Hq), (getitem_Ret _ _ _ Ht).
        repeat split; repeat (apply in_or_app; right); cbn; auto 10.
      * destruct Hres as [combined [Hne [Hc [Hd _]]]].
        destruct (Hstats combined Hne Hc)
          as [Hrows [Hcols [fecha [maquina [turno [Hf [Hq Ht]]]]]]].
        right. exists all_files, combined, fecha, maquina, turno.
        repeat (split; [assumption || reflexivity|]).
        exact (date_range_Raise _ _ _ _ Hf Hd).
  - rewrite (process_all_files_listdir_raises _ _ _ _ Hl).
    destruct (exc_class e); auto.
Qed.

(** ** The theorems at work on the concrete directory *)

(** C1 on [data/input]: five rows, from [a.csv] and [dates.csv]. *)
Lemma process_all_files_row_count_witness :
  os_listdir Demo.env "data/input" =
    Ret ["a.csv"; "b.csv"; "zero.csv"; "header.csv"; "dates.csv";
         "broken.csv"; "notas.txt"] /\
  exists outcome s',
    process_all_files Demo.env "data/input" initial = (outcome, s') /\
    (forall result, outcome = Ret result -> result_rows result = 5) /\
    (exists failed, In (SummaryFailedList failed) (out s') /\ In "b.csv" failed) /\
    In (MsgProcessing "broken.csv") (out s').
Proof.
  split; [reflexivity|].
  destruct (process_all_files_row_count Demo.env "data/input"
              ["a.csv"; "b.csv"; "zero.csv"; "header.csv"; "dates.csv";
               "broken.csv"; "notas.txt"] initial eq_refl)
    as [outcome [s' [Hrun [Hrows [_ [Hfail [Hloop _]]]]]]].
  exists outcome, s'. split; [exact Hrun|]. split; [|split].
  - intros result Hr. exact (proj1 (Hrows result Hr)).
  - apply (Hfail "b.csv"); [right; left; reflexivity | reflexivity].
  - apply Hloop. do 5 right. left. reflexivity.
Defined.

(** C2 on [b.csv], which lacks [operario]. *)
Lemma validate_data_missing_columns_witness :
  (exists c, In c required_colums /\ ~ In c (columns Demo.b_csv)) /\
  fst (validate_data (Some Demo.b_csv) initial) = Ret false /\
  out (snd (validate_data (Some Demo.b_csv) initial)) =
    [MsgValidating; ValMissing ["operario"];
     ValVisible ["fecha"; "turno"; "maquina"; "produccion_unidades";
                 "comentario"]].
Proof.
  assert (H : exists c, In c required_colums /\ ~ In c (columns Demo.b_csv)).
  { exists "operario". split; [do 4 right; left; reflexivity|].
    intros Hin. repeat (destruct Hin as [Hin|Hin]; [discriminate Hin|]).
    exact Hin. }
  split; [exact H|].
  destruct (validate_data_missing_columns Demo.b_csv initial H)
    as [Hret [Hout _]].
  split; [exact Hret | exact (Hout eq_refl)].
Defined.

(** C4 on [zero.csv] and on [header.csv]. *)
Lemma empty_file_never_merged_witness :
  ((exists e, pd_read_csv Demo.env (os_path_join "data/input" "zero.csv")
                = Raise e /\ exc_class e = EmptyDataError) /\
   is_accepted Demo.env "data/input" "zero.csv" = false /\
   failures (file_events Demo.env "data/input" "zero.csv") = [EmptyInput]) /\
  ((exists df, pd_read_csv Demo.env (os_path_join "data/input" "header.csv")
                 = Ret df /\ nrows df = 0) /\
   is_accepted Demo.env "data/input" "header.csv" = false /\
   failures (file_events Demo.env "data/input" "header.csv") = []).
Proof.
  assert (Hz : exists e,
             pd_read_csv Demo.env (os_path_join "data/input" "zero.csv")
               = Raise e /\ exc_class e = EmptyDataError)
    by (exists (mkExc EmptyDataError "No columns to parse from file");
        split; reflexivity).
  assert (Hh : exists df,
             pd_read_csv Demo.env (os_path_join "data/input" "header.csv")
               = Ret df /\ nrows df = 0)
    by (exists Demo.header_csv; split; reflexivity).
  split.
  - split; [exact Hz|].
    destruct (empty_file_never_merged Demo.env "data/input" no_lists
                "zero.csv" initial (or_introl Hz)) as [Hrej [_ [Hzero _]]].
    split; [exact Hrej|].
    exact (proj2 (proj2 (Hzero _ eq_refl eq_refl))).
  - split; [exact Hh|].
    destruct (empty_file_never_merged Demo.env "data/input" no_lists
                "header.csv" initial (or_intror Hh)) as [Hrej [_ [_ Hhead]]].
    split; [exact Hrej|].
    exact (proj2 (proj2 (proj2 (Hhead _ eq_refl eq_refl)))).
Defined.


(** C6 on a directory whose two files are a zero-byte one and a header-only
    one. *)
Lemma no_data_result_witness :
  os_listdir Demo.env "malos" = Ret ["zero.csv"; "header.csv"] /\
  (forall f, In f (csv_only ["zero.csv"; "header.csv"]) ->
             is_accepted Demo.env "malos" f = false) /\
  exists s', process_all_files Demo.env "malos" initial = (Ret None, s').
Proof.
  assert (Hall : forall f, In f (csv_only ["zero.csv"; "header.csv"]) ->
                           is_accepted Demo.env "malos" f = false).
  { intros f [<-|[<-|[]]]; reflexivity. }
  split; [reflexivity|]. split; [exact Hall|].
  exact (no_data_result Demo.env "malos" ["zero.csv"; "header.csv"] initial
           eq_refl (or_intror Hall)).
Defined.

(** C8 on [data/input], on two consecutive days and with two clocks: no date
    in its files is a time of day. *)
Lemma process_all_files_idempotent_witness :
  let c1 := fun n => (1000 + Z.of_nat n)%Z in
  let c2 := fun n => (4600 + 2 * Z.of_nat n)%Z in
  (forall all_files f df,
      os_listdir Demo.env "data/input" = Ret all_files ->
      In f (csv_only all_files) ->
      pd_read_csv Demo.env (os_path_join "data/input" f) = Ret df ->
      has_column "fecha" df = true ->
      converted_dates (at_time Demo.env 5 c1) df =
      converted_dates (at_time Demo.env 6 c2) df) /\
  same_content
    (fst (process_all_files (at_time Demo.env 5 c1) "data/input" initial))
    (fst (process_all_files (at_time Demo.env 6 c2) "data/input" initial)).
Proof.
  intros c1 c2.
  assert (H : forall all_files f df,
      os_listdir Demo.env "data/input" = Ret all_files ->
      In f (csv_only all_files) ->
      pd_read_csv Demo.env (os_path_join "data/input" f) = Ret df ->
      has_column "fecha" df = true ->
      converted_dates (at_time Demo.env 5 c1) df =
      converted_dates (at_time Demo.env 6 c2) df).
  { intros all_files f df Hl Hin Hr _.
    injection Hl as <-.
    destruct Hin as [<-|[<-|[<-|[<-|[<-|[<-|[]]]]]]];
      vm_compute in Hr; try discriminate Hr;
      injection Hr as <-; reflexivity. }
  split; [exact H|].
  exact (process_all_files_idempotent Demo.env 5 6 c1 c2 "data/input"
           initial initial H).
Defined.

(** C9 on [data/input]: six candidates, two collected, four failed. *)
Lemma files_partitioned_witness :
  os_listdir Demo.env "data/input" =
    Ret ["a.csv"; "b.csv"; "zero.csv"; "header.csv"; "dates.csv";
         "broken.csv"; "notas.txt"] /\
  csv_only ["a.csv"; "b.csv"; "zero.csv"; "header.csv"; "dates.csv";
            "broken.csv"; "notas.txt"] <> [] /\
  exists acc,
    processed_files acc =
      ["a.csv"; "b.csv"; "zero.csv"; "header.csv"; "dates.csv"; "broken.csv"] /\
    failed_files acc = ["b.csv"; "zero.csv"; "header.csv"; "broken.csv"] /\
    map source_file (valid_dataframes acc) = [Some "a.csv"; Some "dates.csv"] /\
    length (processed_files acc) =
      length (valid_dataframes acc) + length (failed_files acc).
Proof.
  assert (Hne : csv_only ["a.csv"; "b.csv"; "zero.csv"; "header.csv";
                          "dates.csv"; "broken.csv"; "notas.txt"] <> [])
    by discriminate.
  split; [reflexivity|]. split; [exact Hne|].
  destruct (files_partitioned Demo.env "data/input" _ initial eq_refl Hne)
    as [s0 [acc [s1 [_ [_ [_ [Hp [Hf [Hv [_ [_ [Hlen _]]]]]]]]]]]].
  exists acc. split; [exact Hp|]. split; [exact Hf|]. split; [exact Hv|].
  exact Hlen.
Defined.

(** ** The model at work on the concrete directory *)

(** One file per kind of outcome of the parser. *)
Example parser_outcomes :
  map (fun f => failures (printed (read_csv_file Demo.env
                                     (os_path_join "data/input" f))))
      ["a.csv"; "zero.csv"; "broken.csv"; "latin1.csv"; "perdido.csv"] =
  [[]; [EmptyInput]; [MalformedInput]; [UnexpectedFailure]; [FileNotFound]].
Proof. reflexivity. Qed.

Example missing_directory :
  process_all_files Demo.env "no/existe" initial =
  (Ret None,
   {| out := [MsgSearching "no/existe"; ErrDirNotFound "no/existe"];
      ticks := 0 |}).
Proof. reflexivity. Qed.

Example forbidden_directory :
  process_all_files Demo.env "/root" initial =
  (Ret None,
   {| out := [MsgSearching "/root"; ErrDirPermission "/root"]; ticks := 0 |}).
Proof. reflexivity. Qed.

Example returned_table :
  exists combined s',
    process_all_files Demo.env "data/input" initial = (Ret (Some combined), s') /\
    len combined = 5 /\
    columns combined =
      ["fecha"; "turno"; "maquina"; "produccion_unidades"; "operario";
       "archivo_origen"; "fecha_procesamiento"] /\
    getitem "archivo_origen" combined =
      Ret [CStr "a.csv"; CStr "a.csv";
           CStr "dates.csv"; CStr "dates.csv"; CStr "dates.csv"] /\
    getitem "fecha_procesamiento" combined =
      Ret [CTime 1000; CTime 1000; CTime 1001; CTime 1001; CTime 1001].
Proof.
  destruct (process_all_files Demo.env "data/input" initial) as [r s'] eqn:E.
  vm_compute in E. injection E as <- <-.
  eexists. eexists. split; [reflexivity|]. vm_compute. repeat split.
Qed.

(** An hour later the same directory gives other timestamps and nothing else
    new. *)
Example an_hour_later :
  let later := at_time Demo.env 5 (fun n => (4600 + 2 * Z.of_nat n)%Z) in
  exists d1 d2,
    eval (process_all_files Demo.env "data/input") = Ret (Some d1) /\
    eval (process_all_files later "data/input") = Ret (Some d2) /\
    d1 <> d2 /\
    drop_column "fecha_procesamiento" d1 = drop_column "fecha_procesamiento" d2.
Proof.
  intros later. unfold eval.
  destruct (process_all_files Demo.env "data/input" initial) as [r1 s1] eqn:E1.
  destruct (process_all_files later "data/input" initial) as [r2 s2] eqn:E2.
  vm_compute in E1, E2. injection E1 as <- <-. injection E2 as <- <-.
  eexists. eexists. split; [reflexivity|]. split; [reflexivity|].
  split; [intros H; discriminate H | vm_compute; reflexivity].
Qed.

(** * Further properties of the module *)

(** ** The validator *)

(** X1.  [validate_data] returns [True] exactly on a table that is there, has
    at least one row and one column, and has the five required columns; in
    every other case it returns [False].  It raises nothing and leaves the
    clock alone. *)
Theorem validate_data_accepts_iff (df : option DataFrame) (s : State) :
  (exists b, validate_data df s =
             (Ret b, {| out := out s ++ printed (validate_data df);
                        ticks := ticks s |})) /\
  (fst (validate_data df s) = Ret true <->
   exists d, df = Some d /\ empty d = false /\
             forall c, In c required_colums -> In c (columns d)).
Proof.
  rewrite validate_data_frame. cbn [fst]. split.
  - destruct df as [d|].
    + rewrite validate_data_eval. eauto.
    + exists false. reflexivity.
  - destruct df as [d|].
    + rewrite validate_data_eval. split.
      * intros H. injection H as H. exists d. split; [reflexivity|].
        now apply passes_spec.
      * intros [d' [Hd Hp]]. injection Hd as <-. f_equal. now apply passes_spec.
    + split; [discriminate | intros [d [Hd _]]; discriminate].
Qed.

Lemma is_accepted_iff (env : Env) (input_folder filename : string) :
  is_accepted env input_folder filename = true <->
  exists df0,
    pd_read_csv env (os_path_join input_folder filename) = Ret df0 /\
    conversion_error env df0 = None /\
    1 <= nrows df0 /\
    forall c, In c required_colums -> In c (columns df0).
Proof.
  unfold is_accepted, accepted. rewrite parsed_cases.
  destruct (pd_read_csv env (os_path_join input_folder filename))
    as [df0|e] eqn:Hr.
  - destruct (conversion_error env df0) as [e|] eqn:Hconv.
    { split; [discriminate|]. intros [d [Hd [Hc' _]]]. injection Hd as <-.
      congruence. }
    destruct (passes (normalized env df0)) eqn:Hp.
    + split; [intros _ | reflexivity]. exists df0. split; [reflexivity|].
      split; [exact Hconv|].
      apply passes_spec in Hp as [He Hc].
      rewrite empty_normalized in He. rewrite columns_normalized in Hc.
      split; [now apply empty_false_rows | exact Hc].
    + split; [discriminate|]. intros [d [Hd [_ [Hrows Hc]]]]. injection Hd as <-.
      assert (Hp' : passes (normalized env df0) = true); [|congruence].
      apply passes_spec. rewrite empty_normalized, columns_normalized.
      split; [|exact Hc]. unfold empty.
      apply orb_false_intro; apply Nat.eqb_neq; [lia|].
      rewrite <- (length_map fst). fold (columns df0).
      assert (Hin : In "fecha" (columns df0)) by (apply Hc; now left).
      destruct (columns df0); [destruct Hin | discriminate].
  - split; [discriminate|]. intros [d [Hd _]]. discriminate.
Qed.

(** X2.  The turn of the loop for a file collects a table and leaves the
    failed list alone exactly when [pd.read_csv] returns a table for that
    file with at least one row and the five required columns, and the
    conversion of its dates returns.  How many of the dates are converted
    has no say in it. *)
Theorem file_collected_iff (env : Env) (input_folder : string) (acc : Lists)
  (filename : string) (s : State) :
  (exists df0,
      pd_read_csv env (os_path_join input_folder filename) = Ret df0 /\
      conversion_error env df0 = None /\
      1 <= nrows df0 /\
      forall c, In c required_colums -> In c (columns df0)) <->
  (exists acc' s',
      process_file env input_folder acc filename s = (Ret acc', s') /\
      failed_files acc' = failed_files acc /\
      length (valid_dataframes acc') = S (length (valid_dataframes acc))).
Proof.
  rewrite <- is_accepted_iff. rewrite process_file_run. unfold is_accepted.
  destruct (accepted env (os_path_join input_folder filename)) as [df|].
  - split; [intros _ | reflexivity]. eexists. eexists.
    split; [reflexivity|]. cbn [failed_files valid_dataframes].
    split; [reflexivity|]. rewrite length_app. cbn. lia.
  - split; [discriminate|]. intros [acc' [s' [H [Hf _]]]].
    injection H as <- _. cbn [failed_files] in Hf.
    apply (f_equal (@length string)) in Hf. rewrite length_app in Hf.
    cbn in Hf. lia.
Qed.

(** ** The parser *)

Lemma getitem_normalized (env : Env) (df0 : DataFrame) (c : string) :
  c <> "fecha" -> getitem c (normalized env df0) = getitem c df0.
Proof.
  intros Hc. unfold normalized.
  destruct (has_column "fecha" df0); [|reflexivity].
  destruct (converted_dates env df0) as [fecha|e]; [|reflexivity].
  unfold getitem, setitem. cbn [cols].
  now rewrite assoc_get_set_other.
Qed.

(** X3.  Let [pd.read_csv] return a table.  [read_csv_file] returns [None]
    exactly when the conversion of the dates of that table raises.  A table
    it returns differs from the one [pd.read_csv] returned in the [fecha]
    column at most: it has the same rows count, the same columns in the
    same order and the same values in every other column.  A table without a
    [fecha] column is always returned, as it is, and no warning is printed
    for it. *)
Theorem read_csv_file_touches_only_fecha (env : Env) (filepath : string)
  (df0 : DataFrame) :
  pd_read_csv env filepath = Ret df0 ->
  (eval (read_csv_file env filepath) = Ret None <->
   exists e, conversion_error env df0 = Some e) /\
  (forall df,
      eval (read_csv_file env filepath) = Ret (Some df) ->
      len df = len df0 /\
      columns df = columns df0 /\
      forall c, c <> "fecha" -> getitem c df = getitem c df0) /\
  (~ In "fecha" (columns df0) ->
   eval (read_csv_file env filepath) = Ret (Some df0) /\
   printed (read_csv_file env filepath) =
     [MsgReading filepath; MsgReadOk; MsgRows (len df0);
      MsgColumns (length (columns df0))]).
Proof.
  intros Hr. destruct (conversion_error env df0) as [e|] eqn:Hc.
  - destruct (read_csv_file_conversion_raises env filepath df0 e Hr Hc)
      as [Hv Hp].
    split; [split; [intros _; now exists e | intros _; exact Hv]|].
    split; [intros df Hdf; congruence|].
    intros Hno. apply has_column_false in Hno.
    unfold conversion_error in Hc. rewrite Hno in Hc. discriminate.
  - destruct (read_csv_file_ok env filepath df0 Hr Hc) as [Hv Hp].
    split; [split; [intros H; congruence | intros [e He]; discriminate]|].
    split.
    + intros df Hdf. rewrite Hv in Hdf. injection Hdf as <-.
      split; [apply nrows_normalized|]. split; [apply columns_normalized|].
      intros c Hne. now apply getitem_normalized.
    + intros Hno. apply has_column_false in Hno.
      rewrite Hv, Hp. unfold normalized, date_warning. rewrite Hno. now split.
Qed.

Lemma converted_shape (k : Conversion) (l : list Cell) :
  (Forall (fun v => v = CNaT \/ exists t, v = CTime t) (map (converted k) l) \/
   exists offset,
     Forall (fun v => v = CNaTTz offset \/ exists t, v = CTimeTz t offset)
            (map (converted k) l)) /\
  isna_sum (map (converted k) l) =
  length (filter (Cell_eqb CNaT) (map (converted k) l)).
Proof.
  unfold isna_sum. destruct k as [f|offset f]; split.
  - left. induction l as [|v t IH]; cbn; [constructor|].
    constructor; [destruct (f v); eauto | exact IH].
  - induction l as [|v t IH]; cbn; [reflexivity|].
    destruct (f v); cbn; now rewrite IH.
  - right. exists offset. induction l as [|v t IH]; cbn; [constructor|].
    constructor; [destruct (f v); eauto | exact IH].
  - induction l as [|v t IH]; cbn; [reflexivity|].
    destruct (f v); cbn; now rewrite IH.
Qed.

Lemma converted_dates_shape (env : Env) (df : DataFrame) (fecha : list Cell) :
  converted_dates env df = Ret fecha ->
  (Forall (fun v => v = CNaT \/ exists t, v = CTime t) fecha \/
   exists offset,
     Forall (fun v => v = CNaTTz offset \/ exists t, v = CTimeTz t offset)
            fecha) /\
  isna_sum fecha = length (filter (Cell_eqb CNaT) fecha).
Proof.
  unfold converted_dates, to_datetime.
  destruct (len df =? 0)%nat.
  - intros H. injection H as <-. split; [left; constructor | reflexivity].
  - destruct (pd_to_datetime env (today env) (column_or_nan "fecha" df))
      as [k|e]; [|discriminate].
    intros H. injection H as <-. apply converted_shape.
Qed.

(** X4.  In a table [read_csv_file] returns, every value of the [fecha]
    column is a timestamp or NaT, and the column is of one kind: without a
    time zone, or with one time zone.  The warning about
    invalid dates is printed exactly when some value is NaT, and the number
    it carries is the number of NaT values. *)
Theorem fecha_column_normalized (env : Env) (filepath : string)
  (df : DataFrame) (fecha : list Cell) :
  eval (read_csv_file env filepath) = Ret (Some df) ->
  getitem "fecha" df = Ret fecha ->
  (Forall (fun v => v = CNaT \/ exists t, v = CTime t) fecha \/
   exists offset,
     Forall (fun v => v = CNaTTz offset \/ exists t, v = CTimeTz t offset)
            fecha) /\
  forall n, In (WarnInvalidDates n) (printed (read_csv_file env filepath)) <->
            n = length (filter (Cell_eqb CNaT) fecha) /\ 0 < n.
Proof.
  intros Hv Hf.
  destruct (pd_read_csv env filepath) as [df0|e] eqn:Hr;
    [|destruct (read_csv_file_raise env filepath e Hr) as [Hv' _]; congruence].
  destruct (conversion_error env df0) as [e|] eqn:Hc;
    [destruct (read_csv_file_conversion_raises env filepath df0 e Hr Hc)
       as [Hv' _]; congruence|].
  destruct (read_csv_file_ok env filepath df0 Hr Hc) as [Hv' Hp].
  rewrite Hv in Hv'. injection Hv' as ->.
  destruct (getitem_column_or_nan _ _ _ Hf) as [_ Hin].
  rewrite columns_normalized in Hin. apply has_column_In in Hin.
  unfold conversion_error in Hc. rewrite Hin in Hc.
  destruct (converted_dates env df0) as [fecha'|e] eqn:Hconv; [|discriminate].
  unfold normalized in Hf. rewrite Hin, Hconv in Hf.
  unfold getitem, setitem in Hf. cbn [cols] in Hf.
  rewrite assoc_get_set_same in Hf. injection Hf as <-.
  destruct (converted_dates_shape env df0 fecha' Hconv) as [Hshape Hcount].
  split; [exact Hshape|]. intros n. rewrite Hp. unfold date_warning.
  rewrite Hin, Hconv, Hcount. cbn zeta.
  set (k := length (filter (Cell_eqb CNaT) fecha')).
  destruct (0 <? k)%nat eqn:Hk; cbn.
  - apply Nat.ltb_lt in Hk. split.
    + intros [H|[H|[H|[H|[H|[]]]]]]; try discriminate.
      injection H as <-. now split.
    + intros [-> _]. auto.
  - apply Nat.ltb_ge in Hk. split.
    + intros [H|[H|[H|[H|[]]]]]; discriminate.
    + intros [-> H0]. lia.
Qed.

(** ** The columns of the result *)

(** A run that returns a table: the table is the concatenation of what the
    loop collected, and the clock was read once per collected table. *)
Lemma run_result (env : Env) (input_folder : string) (all_files : list string)
  (s s' : State) (combined : DataFrame) :
  os_listdir env input_folder = Ret all_files ->
  process_all_files env input_folder s = (Ret (Some combined), s') ->
  pd_concat (merged env input_folder (csv_only all_files) (ticks s))
    = Ret combined /\
  ticks s' = ticks s + length (filter (is_accepted env input_folder)
                                      (csv_only all_files)).
Proof.
  intros Hl Hrun. destruct (nil_or_not (csv_only all_files)) as [E|Hcsv].
  - rewrite (process_all_files_no_csv _ _ _ _ Hl E) in Hrun. discriminate.
  - destruct (process_all_files_outcome env input_folder all_files s Hl Hcsv)
      as [outcome [tail [Hrun' Hres]]].
    rewrite Hrun in Hrun'. injection Hrun' as <- ->.
    destruct Hres as [_ [Hc _]]. split; [exact Hc | reflexivity].
Qed.

Lemma getitem_concat (frames : list DataFrame) (combined : DataFrame)
  (c : string) :
  pd_concat frames = Ret combined ->
  In c (columns combined) ->
  getitem c combined = Ret (concat_column c frames).
Proof.
  intros Hc Hin. unfold getitem. rewrite (pd_concat_getitem _ _ c Hc).
  rewrite (pd_concat_columns _ _ Hc) in Hin.
  destruct (existsb (String.eqb c) (union_columns frames)) eqn:E;
    [reflexivity|].
  exfalso. apply Bool.not_true_iff_false in E. apply E.
  apply existsb_exists. exists c. split; [exact Hin | apply String.eqb_refl].
Qed.

Lemma stamp_time (f : string) (t : Z) (df : DataFrame) :
  column_or_nan "fecha_procesamiento" (stamp f t df) = repeat (CTime t) (nrows df).
Proof.
  unfold column_or_nan, stamp, setitem_scalar, setitem. cbn [cols nrows].
  now rewrite assoc_get_set_same.
Qed.

Lemma stamp_other (f : string) (t : Z) (df : DataFrame) (c : string) :
  ~ In c provenance_colums ->
  column_or_nan c (stamp f t df) = column_or_nan c df.
Proof.
  intros Hc. unfold column_or_nan, stamp, setitem_scalar, setitem.
  cbn [cols nrows].
  rewrite !assoc_get_set_other; [reflexivity | |]; intros ->; apply Hc; cbn; auto.
Qed.

Lemma times_merged (env : Env) (input_folder : string)
  (csv_files : list string) :
  forall tick,
    flat_map (column_or_nan "fecha_procesamiento")
             (merged env input_folder csv_files tick) =
    flat_map (fun p => repeat (CTime (clock env (fst p)))
                              (table_rows env input_folder (snd p)))
             (combine (seq tick (length (filter (is_accepted env input_folder)
                                                csv_files)))
                      (filter (is_accepted env input_folder) csv_files)).
Proof.
  induction csv_files as [|f rest IH]; intros tick; cbn [merged filter];
    [reflexivity|].
  assert (Hf : is_accepted env input_folder f =
               match accepted env (os_path_join input_folder f) with
               | Some _ => true
               | None => false
               end) by reflexivity.
  rewrite Hf.
  destruct (accepted env (os_path_join input_folder f)) as [df|] eqn:E;
    [|apply IH].
  cbn [length seq combine flat_map fst snd]. rewrite IH, stamp_time.
  unfold table_rows at 2. apply accepted_passes in E as [-> _]. reflexivity.
Qed.

(** The processing timestamps are concatenated as they are. *)
Lemma concat_times (env : Env) (input_folder : string)
  (csv_files : list string) (tick : nat) :
  concat_column "fecha_procesamiento" (merged env input_folder csv_files tick) =
  flat_map (column_or_nan "fecha_procesamiento")
           (merged env input_folder csv_files tick).
Proof.
  apply concat_column_same. intros df x Hin Hx.
  apply merged_stamped in Hin as [f [t [d ->]]].
  rewrite stamp_time in Hx. apply repeat_spec in Hx. now subst x.
Qed.

(** Frames with the same rows count and the same values in a column give the
    same column to the concatenation. *)
Lemma concat_column_ext (c : string) (l1 l2 : list DataFrame) :
  Forall2 (fun a b => nrows a = nrows b /\
                      assoc_get c (cols a) = assoc_get c (cols b)) l1 l2 ->
  concat_column c l1 = concat_column c l2.
Proof.
  intros H. unfold concat_column.
  assert (Hup : upcast_to_float c l1 = upcast_to_float c l2).
  { unfold upcast_to_float.
    assert (Hd : map (fun df => option_map column_dtype (assoc_get c (cols df))) l1 =
                 map (fun df => option_map column_dtype (assoc_get c (cols df))) l2).
    { induction H as [|a b l1 l2 [_ Hg] _ IH]; cbn; [reflexivity|].
      now rewrite Hg, IH. }
    now rewrite Hd. }
  rewrite Hup. clear Hup. generalize (upcast_to_float c l2) as up. intros up.
  induction H as [|a b l1 l2 [Hn Hg] _ IH]; cbn; [reflexivity|].
  unfold concat_part at 1 3. now rewrite Hg, Hn, IH.
Qed.

Lemma merged_accepted_tables (env : Env) (input_folder c : string)
  (csv_files : list string) :
  ~ In c provenance_colums ->
  forall tick,
    Forall2 (fun a b => nrows a = nrows b /\
                        assoc_get c (cols a) = assoc_get c (cols b))
      (merged env input_folder csv_files tick)
      (accepted_tables env input_folder csv_files).
Proof.
  intros Hc. induction csv_files as [|f rest IH]; intros tick;
    cbn [merged accepted_tables flat_map]; [constructor|].
  fold (accepted_tables env input_folder rest).
  destruct (accepted env (os_path_join input_folder f)) as [df|].
  - cbn [app]. constructor; [|apply IH]. split; [reflexivity|].
    unfold stamp, setitem_scalar, setitem. cbn [cols nrows].
    rewrite !assoc_get_set_other; [reflexivity | |];
      intros ->; apply Hc; cbn; auto.
  - apply IH.
Qed.

Lemma columns_merged (env : Env) (input_folder c : string)
  (csv_files : list string) :
  ~ In c provenance_colums ->
  forall tick,
    concat_column c (merged env input_folder csv_files tick) =
    concat_column c (accepted_tables env input_folder csv_files).
Proof.
  intros Hc tick. apply concat_column_ext. now apply merged_accepted_tables.
Qed.

Lemma accepted_columns (env : Env) (input_folder c : string)
  (csv_files : list string) :
  flat_map (column_or_nan c) (accepted_tables env input_folder csv_files) =
  flat_map (accepted_column env input_folder c) csv_files.
Proof.
  unfold accepted_tables.
  induction csv_files as [|f rest IH]; cbn [flat_map]; [reflexivity|].
  unfold accepted_column at 1.
  destruct (accepted env (os_path_join input_folder f)) as [df|]; cbn [app];
    [cbn [flat_map]|]; now rewrite IH.
Qed.

(** A column that is not cast is concatenated as it is. *)
Lemma concat_column_not_cast (c : string) (frames : list DataFrame) :
  upcast_to_float c frames = false ->
  concat_column c frames = flat_map (column_or_nan c) frames.
Proof.
  intros Hup. unfold concat_column. rewrite Hup. clear Hup.
  induction frames as [|d ds IH]; [reflexivity|].
  cbn [flat_map]. now rewrite IH.
Qed.

Lemma result_provenance (env : Env) (input_folder : string)
  (csv_files : list string) (tick : nat) (combined : DataFrame) :
  pd_concat (merged env input_folder csv_files tick) = Ret combined ->
  forall c, In c provenance_colums -> In c (columns combined).
Proof.
  intros Hc c Hin.
  assert (Hne : merged env input_folder csv_files tick <> [])
    by (intros E; rewrite E in Hc; discriminate).
  destruct (pd_concat_mergeable _ _ Hne (merged_mergeable _ _ _ _) Hc)
    as [_ Hcols].
  apply Hcols. apply in_or_app. now right.
Qed.

(** X5.  In a returned table the source column holds, in the order of the
    listing, the name of each collected file once per row of its table; so
    every row names the file it came from. *)
Theorem source_column_names_files (env : Env) (input_folder : string)
  (all_files : list string) (s s' : State) (combined : DataFrame) :
  os_listdir env input_folder = Ret all_files ->
  process_all_files env input_folder s = (Ret (Some combined), s') ->
  getitem "archivo_origen" combined =
  Ret (flat_map (fun f => repeat (CStr f) (table_rows env input_folder f))
                (filter (is_accepted env input_folder) (csv_only all_files))).
Proof.
  intros Hl Hrun. destruct (run_result _ _ _ _ _ _ Hl Hrun) as [Hc _].
  rewrite (getitem_concat _ _ _ Hc), concat_sources, sources_merged;
    [reflexivity|].
  apply (result_provenance _ _ _ _ _ Hc). now left.
Qed.

(** X6.  The clock is read once for each collected file, in the order of the
    listing, and never for a rejected one: in a returned table all the rows
    of a file carry the reading made for that file, the first collected file
    the first reading of the run, the next one the next reading, and the run
    ends with as many readings made as files collected. *)
Theorem timestamp_column_one_reading_per_file (env : Env)
  (input_folder : string) (all_files : list string) (s s' : State)
  (combined : DataFrame) :
  os_listdir env input_folder = Ret all_files ->
  process_all_files env input_folder s = (Ret (Some combined), s') ->
  let collected_names :=
    filter (is_accepted env input_folder) (csv_only all_files) in
  getitem "fecha_procesamiento" combined =
    Ret (flat_map (fun p => repeat (CTime (clock env (fst p)))
                                   (table_rows env input_folder (snd p)))
                  (combine (seq (ticks s) (length collected_names))
                           collected_names)) /\
  ticks s' = ticks s + length collected_names.
Proof.
  intros Hl Hrun names. destruct (run_result _ _ _ _ _ _ Hl Hrun) as [Hc Ht].
  split; [|exact Ht].
  rewrite (getitem_concat _ _ _ Hc), concat_times, times_merged;
    [reflexivity|].
  apply (result_provenance _ _ _ _ _ Hc). right. now left.
Qed.

Lemma In_merged (env : Env) (input_folder : string) (csv_files : list string)
  (d : DataFrame) :
  forall tick,
    In d (merged env input_folder csv_files tick) ->
    exists f df t,
      In f csv_files /\
      accepted env (os_path_join input_folder f) = Some df /\
      d = stamp f t df.
Proof.
  induction csv_files as [|f rest IH]; intros tick; cbn [merged];
    [intros []|].
  destruct (accepted env (os_path_join input_folder f)) as [df|] eqn:E.
  - intros [<-|Hin].
    + exists f, df, (clock env tick). split; [now left | now split].
    + destruct (IH _ Hin) as [g [dg [t [Hg H]]]].
      exists g, dg, t. split; [now right | exact H].
  - intros Hin. destruct (IH _ Hin) as [g [dg [t [Hg H]]]].
    exists g, dg, t. split; [now right | exact H].
Qed.

Lemma merged_In (env : Env) (input_folder : string) (csv_files : list string)
  (f : string) (df : DataFrame) :
  In f csv_files ->
  accepted env (os_path_join input_folder f) = Some df ->
  forall tick, exists t, In (stamp f t df) (merged env input_folder csv_files tick).
Proof.
  intros Hin Ha. induction csv_files as [|g rest IH]; [destruct Hin|].
  intros tick. cbn [merged]. destruct Hin as [->|Hin].
  - rewrite Ha. exists (clock env tick). now left.
  - destruct (accepted env (os_path_join input_folder g)) as [dg|].
    + destruct (IH Hin (S tick)) as [t Ht]. exists t. now right.
    + apply (IH Hin).
Qed.

(** X7.  The columns of a returned table are the two provenance columns and
    the columns of the collected tables.  A column other than the provenance
    ones is the concatenation, in the order of the listing, of what the
    collected tables have in it; rejected files give it nothing.  A table
    that lacks the column gives NaN on its rows.  The values of a table are
    kept as they are, except that integers become the nearest float64 when
    the column is cast: when no collected table holds anything but numbers
    in it, and one lacks it or holds floats in it. *)
Theorem data_columns_concatenated (env : Env) (input_folder : string)
  (all_files : list string) (s s' : State) (combined : DataFrame) :
  os_listdir env input_folder = Ret all_files ->
  process_all_files env input_folder s = (Ret (Some combined), s') ->
  forall c,
    (In c (columns combined) <->
     In c provenance_colums \/
     exists f df, In f (csv_only all_files) /\
                  accepted env (os_path_join input_folder f) = Some df /\
                  In c (columns df)) /\
    (~ In c provenance_colums -> In c (columns combined) ->
     let tables := accepted_tables env input_folder (csv_only all_files) in
     getitem c combined =
       Ret (flat_map (concat_part c (upcast_to_float c tables)) tables) /\
     (upcast_to_float c tables = false ->
      getitem c combined =
        Ret (flat_map (accepted_column env input_folder c)
                      (csv_only all_files)))).
Proof.
  intros Hl Hrun c. destruct (run_result _ _ _ _ _ _ Hl Hrun) as [Hc _].
  split.
  - split.
    + rewrite (pd_concat_columns _ _ Hc), In_union_columns.
      intros [d [Hd Hin]].
      apply In_merged in Hd as [f [df [t [Hf [Ha ->]]]]].
      apply In_columns_stamp in Hin as [->|[->|Hin]].
      * left. right. now left.
      * left. now left.
      * right. now exists f, df.
    + intros [Hp|[f [df [Hf [Ha Hin]]]]].
      * now apply (result_provenance _ _ _ _ _ Hc).
      * rewrite (pd_concat_columns _ _ Hc), In_union_columns.
        destruct (merged_In env input_folder _ f df Hf Ha (ticks s)) as [t Ht].
        exists (stamp f t df). split; [exact Ht|].
        apply In_columns_stamp. auto.
  - intros Hnp Hin tables.
    rewrite (getitem_concat _ _ _ Hc Hin), columns_merged by assumption.
    fold tables. split; [reflexivity|].
    intros Hup. rewrite (concat_column_not_cast _ _ Hup).
    unfold tables. now rewrite accepted_columns.
Qed.

(** ** Rejected files and the result *)

Lemma merged_filter (env : Env) (input_folder : string)
  (csv_files : list string) :
  forall tick,
    merged env input_folder (filter (is_accepted env input_folder) csv_files) tick
    = merged env input_folder csv_files tick.
Proof.
  induction csv_files as [|f rest IH]; intros tick; cbn [filter merged];
    [reflexivity|].
  assert (Hf : is_accepted env input_folder f =
               match accepted env (os_path_join input_folder f) with
               | Some _ => true
               | None => false
               end) by reflexivity.
  rewrite Hf.
  destruct (accepted env (os_path_join input_folder f)) as [df|] eqn:E.
  - cbn [merged]. now rewrite E, IH.
  - apply IH.
Qed.




(** ** One collected file *)

Lemma dedup_NoDup (l : list string) : NoDup l -> dedup l = l.
Proof.
  induction 1 as [|x t Hx Hnd IH]; cbn; [reflexivity|].
  rewrite IH. f_equal. apply forallb_filter_id. apply forallb_forall.
  intros y Hy. destruct (String.eqb_spec x y) as [->|]; [contradiction|reflexivity].
Qed.

Lemma assoc_get_NoDup (l : list (string * list Cell)) (k : string)
  (v : list Cell) :
  NoDup (map fst l) -> In (k, v) l -> assoc_get k l = Some v.
Proof.
  induction l as [|[k' v'] t IH]; cbn; [intros _ []|].
  intros Hnd Hin. inversion Hnd as [|? ? Hk' Ht]; subst.
  destruct Hin as [Heq|Hin].
  - injection Heq as -> ->. now rewrite String.eqb_refl.
  - destruct (String.eqb_spec k k') as [->|Hne]; [|now apply IH].
    exfalso. apply Hk'. apply in_map_iff. now exists (k', v).
Qed.

(** Concatenating one table with distinct column names gives it back. *)
Lemma pd_concat_single (d : DataFrame) :
  NoDup (columns d) -> pd_concat [d] = Ret d.
Proof.
  intros Hnd. unfold pd_concat, union_columns, list_sum.
  cbn [flat_map map fold_right].
  rewrite app_nil_r, (dedup_NoDup _ Hnd), Nat.add_0_r.
  destruct d as [n cs]. cbn [nrows cols columns] in *. do 2 f_equal.
  unfold columns. cbn [cols]. rewrite map_map.
  rewrite <- (map_id cs) at 2. apply map_ext_in. intros [k v] Hin.
  cbn [fst]. unfold concat_column, upcast_to_float, concat_part.
  cbn [flat_map map cols existsb forallb].
  rewrite app_nil_r, (assoc_get_NoDup cs k v Hnd Hin). cbn [option_map].
  unfold column_dtype. destruct (forallb is_int v); [reflexivity|].
  now rewrite andb_false_r.
Qed.

Lemma NoDup_assigned (k : string) (names : list string) :
  NoDup names -> NoDup (assigned k names).
Proof.
  intros Hnd. unfold assigned.
  destruct (existsb (String.eqb k) names) eqn:E; [exact Hnd|].
  apply NoDup_app; [exact Hnd | constructor; [intros [] | constructor] |].
  intros x Hx [Hk|[]]. subst x. apply Bool.not_true_iff_false in E. apply E.
  apply existsb_exists. exists k. split; [exact Hx | apply String.eqb_refl].
Qed.

Lemma shape_homogeneous (l : list Cell) :
  (Forall (fun v => v = CNaT \/ exists t, v = CTime t) l \/
   exists offset,
     Forall (fun v => v = CNaTTz offset \/ exists t, v = CTimeTz t offset) l) ->
  is_naive_column l || is_aware_column l = true.
Proof.
  intros [H|[offset H]]; apply orb_true_iff.
  - left. apply forallb_forall. rewrite Forall_forall in H.
    intros x Hx. now destruct (H x Hx) as [->|[t ->]].
  - destruct l as [|c l]; [now left|]. right.
    assert (Hall : forall x, In x (c :: l) -> aware_offset x = Some offset).
    { rewrite Forall_forall in H. intros x Hx.
      now destruct (H x Hx) as [->|[t ->]]. }
    unfold is_aware_column. rewrite (Hall c) by now left.
    apply forallb_forall. intros x Hx. rewrite (Hall x Hx).
    apply Z.eqb_refl.
Qed.

(** The dates of an accepted table are of one kind. *)
Lemma accepted_dates (env : Env) (filepath : string) (df : DataFrame) :
  accepted env filepath = Some df ->
  is_naive_column (column_or_nan "fecha" df) ||
  is_aware_column (column_or_nan "fecha" df) = true.
Proof.
  intros Ha. apply accepted_passes in Ha as [Hp Hpass].
  rewrite parsed_cases in Hp.
  destruct (pd_read_csv env filepath) as [df0|e]; [|discriminate].
  destruct (conversion_error env df0) eqn:Hc; [discriminate|].
  injection Hp as <-.
  apply passes_spec in Hpass as [_ Hcols].
  assert (Hin : In "fecha" (columns (normalized env df0)))
    by (apply Hcols; now left).
  rewrite columns_normalized in Hin. apply has_column_In in Hin.
  unfold conversion_error in Hc. rewrite Hin in Hc.
  destruct (converted_dates env df0) as [fecha|e] eqn:Hconv; [|discriminate].
  unfold normalized. rewrite Hin, Hconv.
  unfold column_or_nan, setitem. cbn [cols]. rewrite assoc_get_set_same.
  apply shape_homogeneous.
  exact (proj1 (converted_dates_shape env df0 fecha Hconv)).
Qed.

Lemma date_range_homogeneous (env : Env) (combined : DataFrame) :
  is_naive_column (column_or_nan "fecha" combined) ||
  is_aware_column (column_or_nan "fecha" combined) = true ->
  date_range env combined =
  Ret (earliest (column_or_nan "fecha" combined),
       latest (column_or_nan "fecha" combined)).
Proof.
  intros H. unfold date_range, series_min, series_max. now rewrite H.
Qed.

(** X9.  When exactly one candidate file is collected and its table has
    distinct column names, the run returns that table with the two
    provenance columns written and nothing else changed, whatever rejected
    files stand beside it. *)
Theorem single_collected_file (env : Env) (input_folder : string)
  (all_files : list string) (s : State) (f : string) (df : DataFrame) :
  os_listdir env input_folder = Ret all_files ->
  filter (is_accepted env input_folder) (csv_only all_files) = [f] ->
  accepted env (os_path_join input_folder f) = Some df ->
  NoDup (columns df) ->
  exists s',
    process_all_files env input_folder s =
    (Ret (Some (stamp f (clock env (ticks s)) df)), s').
Proof.
  intros Hl Hone Ha Hnd.
  assert (Hm : merged env input_folder (csv_only all_files) (ticks s) =
               [stamp f (clock env (ticks s)) df]).
  { rewrite <- merged_filter, Hone. cbn [merged]. now rewrite Ha. }
  assert (Hcsv : csv_only all_files <> []).
  { intros E. rewrite E in Hone. discriminate. }
  destruct (process_all_files_outcome env input_folder all_files s Hl Hcsv)
    as [outcome [tail [Hrun Hres]]].
  cbn [valid_dataframes collected] in Hres. rewrite Hm in Hres.
  assert (Hc : pd_concat [stamp f (clock env (ticks s)) df] =
               Ret (stamp f (clock env (ticks s)) df)).
  { apply pd_concat_single. rewrite columns_stamp.
    now apply NoDup_assigned, NoDup_assigned. }
  assert (Hd : exists lo hi,
             date_range env (stamp f (clock env (ticks s)) df) = Ret (lo, hi)).
  { eexists. eexists. apply date_range_homogeneous.
    rewrite stamp_other by (cbn; intros [H|[H|[]]]; discriminate).
    exact (accepted_dates _ _ _ Ha). }
  destruct Hd as [lo [hi Hd]].
  destruct outcome as [[combined|]|e].
  - destruct Hres as [_ [Hres _]]. rewrite Hc in Hres. injection Hres as <-.
    eexists. exact Hrun.
  - destruct Hres as [Hres _]. discriminate.
  - destruct Hres as [combined [_ [Hres [Hraise _]]]].
    rewrite Hc in Hres. injection Hres as <-. congruence.
Qed.

(** ** What is read *)

Lemma readings_app (l1 l2 : list Event) :
  readings (l1 ++ l2) = readings l1 ++ readings l2.
Proof. apply flat_map_app. Qed.

Lemma readings_validate (df : option DataFrame) :
  readings (printed (validate_data df)) = [].
Proof.
  unfold validate_data. destruct df as [d|]; [|reflexivity].
  destruct (empty d); [reflexivity|].
  destruct (filter (fun col => negb (has_column col d)) required_colums);
    reflexivity.
Qed.

Lemma readings_read (env : Env) (filepath : string) :
  readings (printed (read_csv_file env filepath)) = [filepath].
Proof.
  destruct (pd_read_csv env filepath) as [df0|e] eqn:Hr.
  - destruct (conversion_error env df0) as [e|] eqn:Hc.
    { destruct (read_csv_file_conversion_raises env filepath df0 e Hr Hc)
        as [_ ->].
      unfold error_events. now destruct (exc_class e). }
    destruct (read_csv_file_ok env filepath df0 Hr Hc) as [_ ->].
    cbn [readings flat_map]. fold (readings (date_warning env df0 ++
      [MsgReadOk; MsgRows (len (normalized env df0));
       MsgColumns (length (columns (normalized env df0)))])).
    rewrite readings_app. unfold date_warning.
    destruct (has_column "fecha" df0); [|reflexivity].
    destruct (converted_dates env df0); [|reflexivity].
    cbn zeta. now destruct (0 <? _)%nat.
  - destruct (read_csv_file_raise env filepath e Hr) as [_ ->].
    unfold error_events. now destruct (exc_class e).
Qed.

Lemma readings_file_events (env : Env) (input_folder f : string) :
  readings (file_events env input_folder f) = [os_path_join input_folder f].
Proof.
  unfold file_events. cbn [readings flat_map].
  match goal with
  | |- [] ++ flat_map ?g ?l = _ => change (readings l = [os_path_join input_folder f])
  end.
  rewrite readings_app, readings_read.
  destruct (parsed env (os_path_join input_folder f)) as [d|]; [|reflexivity].
  rewrite readings_app, readings_validate. now destruct (passes d).
Qed.

Lemma readings_loop (env : Env) (input_folder : string)
  (csv_files : list string) :
  readings (flat_map (file_events env input_folder) csv_files) =
  map (os_path_join input_folder) csv_files.
Proof.
  induction csv_files as [|f rest IH]; cbn [flat_map map]; [reflexivity|].
  now rewrite readings_app, readings_file_events, IH.
Qed.

Lemma readings_summary (acc : Lists) : readings (summary_events acc) = [].
Proof. unfold summary_events. now destruct (failed_files acc). Qed.

Lemma readings_merge (env : Env) (n : nat) (combined : DataFrame) :
  readings (merge_events env n combined) = [].
Proof.
  unfold merge_events. now destruct (date_range env combined) as [[lo hi]|e].
Qed.

(** X10.  A run over a listed directory asks the parser to read the entries
    whose name ends in [.csv], each once, in the order of the listing, at the
    path made of the directory and the name; it reads nothing else. *)
Theorem only_csv_entries_are_read (env : Env) (input_folder : string)
  (all_files : list string) (s : State) :
  os_listdir env input_folder = Ret all_files ->
  readings (out (snd (process_all_files env input_folder s))) =
  readings (out s) ++
  map (os_path_join input_folder)
      (filter (fun f => endswith f ".csv") all_files).
Proof.
  intros Hl. fold (csv_only all_files).
  destruct (nil_or_not (csv_only all_files)) as [E|Hcsv].
  - rewrite (process_all_files_no_csv _ _ _ _ Hl E), E. cbn [snd out].
    now rewrite readings_app.
  - destruct (process_all_files_outcome env input_folder all_files s Hl Hcsv)
      as [outcome [tail [-> Hres]]].
    cbn [snd out]. rewrite !readings_app, readings_loop, readings_summary.
    assert (Ht : readings tail = []).
    { destruct outcome as [[combined|]|e].
      - destruct Hres as [_ [_ [_ ->]]]. apply readings_merge.
      - now destruct Hres as [_ ->].
      - destruct Hres as [combined [_ [_ [_ ->]]]]. apply readings_merge. }
    rewrite Ht. cbn. now rewrite app_nil_r.
Qed.

(** ** The constructor *)

Section Constructor.

Context {W : Type} (os : OS W).

(** What the constructor relies on from the operating system: a directory
    [os.makedirs] has made exists, and one it has made where nothing was is
    empty. *)
Hypothesis makedirs_creates :
  forall w p w', os_makedirs os w p = Ret w' -> os_path_exists os w' p = true.
Hypothesis makedirs_empty :
  forall w p w',
    os_path_exists os w p = false -> os_makedirs os w p = Ret w' ->
    os_listdir_in os w' p = Ret [].

(** X11.  The constructor only asks whether the path exists, not whether it
    is a directory.  On a path that exists it makes nothing and prints the
    start message alone; and when the listing of that path then fails for
    another reason than the two [process_all_files] handles (the path is a
    regular file, say), the first run of the object is stopped by the
    exception of the listing, right after its first message. *)
Theorem init_does_not_check_directory (input_folder : string) (w : W)
  (env : Env) (s : State) (e : PyExc) :
  os_path_exists os w input_folder = true ->
  os_listdir_in os w input_folder = Raise e ->
  exc_class e <> FileNotFoundError ->
  exc_class e <> PermissionError ->
  __init__ os input_folder w =
    (Ret (w, {| self_input_folder := input_folder |}),
     [MsgInitialized input_folder]) /\
  call_process_all_files os w env {| self_input_folder := input_folder |} s =
    (Raise e,
     {| out := out s ++ [MsgSearching input_folder]; ticks := ticks s |}).
Proof.
  intros Hex Hl Hnf Hnp. split.
  - unfold __init__. now rewrite Hex.
  - unfold call_process_all_files. cbn [self_input_folder].
    rewrite (process_all_files_listdir_raises (env_in os w env) _ e s Hl).
    destruct (exc_class e); congruence.
Qed.

(** X12.  Constructing the object a second time, on the file system the
    first construction left, changes nothing: the same file system and the
    same object come back, [os.makedirs] is not called and only the start
    message is printed. *)
Theorem init_twice (input_folder : string) (w w' : W)
  (self : FileProcessor) (events : list InitEvent) :
  __init__ os input_folder w = (Ret (w', self), events) ->
  __init__ os input_folder w' =
  (Ret (w', self), [MsgInitialized input_folder]).
Proof.
  intros H.
  assert (Hex : os_path_exists os w' input_folder = true /\
                self_input_folder self = input_folder).
  { revert H. unfold __init__.
    destruct (os_path_exists os w input_folder) eqn:Hex; cbn.
    - intros H. injection H as <- <- <-. auto.
    - destruct (os_makedirs os w input_folder) as [w1|e] eqn:Hmk;
        [|discriminate].
      intros H. injection H as <- <- <-.
      split; [now apply (makedirs_creates w) | reflexivity]. }
  destruct Hex as [Hex Hself]. unfold __init__. rewrite Hex. cbn.
  destruct self as [p]. cbn in Hself. now subst p.
Qed.

(** X13.  An object constructed on a folder that did not exist finds no data:
    its first run lists the folder just made, finds no file in it, prints the
    hint and returns [None], without reading a file or the clock. *)
Theorem fresh_folder_has_no_data (input_folder : string) (w w' : W)
  (self : FileProcessor) (events : list InitEvent) (env : Env) (s : State) :
  os_path_exists os w input_folder = false ->
  __init__ os input_folder w = (Ret (w', self), events) ->
  call_process_all_files os w' env self s =
  (Ret None,
   {| out := out s ++ [MsgSearching input_folder; MsgFound 0; MsgCsvFound 0;
                       WarnNoCsv; HintCopy input_folder];
      ticks := ticks s |}).
Proof.
  intros Hex. unfold __init__. rewrite Hex. cbn.
  destruct (os_makedirs os w input_folder) as [w1|e] eqn:Hmk; [|discriminate].
  intros H. injection H as <- <- _.
  unfold call_process_all_files. cbn [self_input_folder].
  apply (process_all_files_no_csv (env_in os w1 env) input_folder [] s);
    [|reflexivity].
  exact (makedirs_empty w input_folder w1 Hex Hmk).
Qed.

End Constructor.

Lemma DemoOS_makedirs_creates (w : DemoOS.World) (p : string)
  (w' : DemoOS.World) :
  os_makedirs DemoOS.os w p = Ret w' -> os_path_exists DemoOS.os w' p = true.
Proof.
  cbn. unfold DemoOS.makedirs. destruct (DemoOS.path_exists w p); [discriminate|].
  intros H. injection H as <-.
  unfold DemoOS.path_exists, DemoOS.lookup. cbn. now rewrite String.eqb_refl.
Qed.

Lemma DemoOS_makedirs_empty (w : DemoOS.World) (p : string)
  (w' : DemoOS.World) :
  os_path_exists DemoOS.os w p = false ->
  os_makedirs DemoOS.os w p = Ret w' ->
  os_listdir_in DemoOS.os w' p = Ret [].
Proof.
  cbn. unfold DemoOS.makedirs. intros ->. intros H. injection H as <-.
  unfold DemoOS.listdir, DemoOS.lookup. cbn. now rewrite String.eqb_refl.
Qed.

(** ** Why there is no data *)

Lemma reasons_app (l1 l2 : list Event) :
  no_data_reasons (l1 ++ l2) = no_data_reasons l1 ++ no_data_reasons l2.
Proof. apply filter_app. Qed.

Lemma reasons_validate (df : option DataFrame) :
  no_data_reasons (printed (validate_data df)) = [].
Proof.
  unfold validate_data. destruct df as [d|]; [|reflexivity].
  destruct (empty d); [reflexivity|].
  destruct (filter (fun col => negb (has_column col d)) required_colums);
    reflexivity.
Qed.

Lemma reasons_read (env : Env) (filepath : string) :
  no_data_reasons (printed (read_csv_file env filepath)) = [].
Proof.
  destruct (pd_read_csv env filepath) as [df0|e] eqn:Hr.
  - destruct (conversion_error env df0) as [e|] eqn:Hc.
    { destruct (read_csv_file_conversion_raises env filepath df0 e Hr Hc)
        as [_ ->].
      unfold error_events. now destruct (exc_class e). }
    destruct (read_csv_file_ok env filepath df0 Hr Hc) as [_ ->].
    change (MsgReading filepath :: ?l) with ([MsgReading filepath] ++ l).
    rewrite !reasons_app. unfold date_warning.
    destruct (has_column "fecha" df0); [|reflexivity].
    destruct (converted_dates env df0); [|reflexivity].
    cbn zeta. now destruct (0 <? _)%nat.
  - destruct (read_csv_file_raise env filepath e Hr) as [_ ->].
    unfold error_events. now destruct (exc_class e).
Qed.

Lemma reasons_file_events (env : Env) (input_folder f : string) :
  no_data_reasons (file_events env input_folder f) = [].
Proof.
  unfold file_events.
  change (MsgProcessing f :: ?l) with ([MsgProcessing f] ++ l).
  rewrite !reasons_app, reasons_read.
  destruct (parsed env (os_path_join input_folder f)) as [d|]; [|reflexivity].
  rewrite reasons_app, reasons_validate. now destruct (passes d).
Qed.

Lemma reasons_loop (env : Env) (input_folder : string)
  (csv_files : list string) :
  no_data_reasons (flat_map (file_events env input_folder) csv_files) = [].
Proof.
  induction csv_files as [|f rest IH]; cbn [flat_map]; [reflexivity|].
  now rewrite reasons_app, reasons_file_events, IH.
Qed.

Lemma reasons_summary (acc : Lists) : no_data_reasons (summary_events acc) = [].
Proof. unfold summary_events. now destruct (failed_files acc). Qed.

Lemma reasons_merge (env : Env) (n : nat) (combined : DataFrame) :
  no_data_reasons (merge_events env n combined) = [].
Proof.
  unfold merge_events. now destruct (date_range env combined) as [[lo hi]|e].
Qed.

(** X14.  The run only adds to the output, and what it adds tells why there
    is no data: a run that returns [None] has printed exactly one of the four
    messages for it, the one of its case (the directory is missing, may not
    be listed, has no [.csv] file, or has none that could be processed); a
    run that returns a table, or raises, has printed none of them. *)
Theorem none_comes_with_one_reason (env : Env) (input_folder : string)
  (s : State) :
  exists added,
    out (snd (process_all_files env input_folder s)) = out s ++ added /\
    no_data_reasons added =
    match fst (process_all_files env input_folder s) with
    | Ret None =>
        match os_listdir env input_folder with
        | Raise e =>
            match exc_class e with
            | PermissionError => [ErrDirPermission input_folder]
            | _ => [ErrDirNotFound input_folder]
            end
        | Ret all_files =>
            match csv_only all_files with
            | [] => [WarnNoCsv]
            | _ :: _ => [MsgNoneValid]
            end
        end
    | _ => []
    end.
Proof.
  destruct (os_listdir env input_folder) as [all_files|e] eqn:Hl.
  - destruct (nil_or_not (csv_only all_files)) as [E|Hcsv].
    + rewrite (process_all_files_no_csv _ _ _ _ Hl E), E. cbn [fst snd out].
      eexists. split; reflexivity.
    + destruct (process_all_files_outcome env input_folder all_files s Hl Hcsv)
        as [outcome [tail [-> Hres]]].
      cbn [fst snd out]. eexists. split; [reflexivity|].
      rewrite !reasons_app, reasons_loop, reasons_summary.
      destruct (csv_only all_files); [congruence|].
      destruct outcome as [[combined|]|e].
      * destruct Hres as [_ [_ [_ ->]]]. now rewrite reasons_merge.
      * now destruct Hres as [_ ->].
      * destruct Hres as [combined [_ [_ [_ ->]]]]. now rewrite reasons_merge.
  - rewrite (process_all_files_listdir_raises _ _ _ _ Hl).
    destruct (exc_class e); cbn [fst snd out]; eexists; split; reflexivity.
Qed.

(** ** When the validator runs *)

Lemma validations_read (env : Env) (filepath : string) :
  validations (printed (read_csv_file env filepath)) = [] /\
  none_validations (printed (read_csv_file env filepath)) = [].
Proof.
  destruct (pd_read_csv env filepath) as [df0|e] eqn:Hr.
  - destruct (conversion_error env df0) as [e|] eqn:Hc.
    { destruct (read_csv_file_conversion_raises env filepath df0 e Hr Hc)
        as [_ ->].
      unfold error_events. now destruct (exc_class e). }
    destruct (read_csv_file_ok env filepath df0 Hr Hc) as [_ ->].
    change (MsgReading filepath :: ?l) with ([MsgReading filepath] ++ l).
    unfold validations, none_validations. rewrite !filter_app.
    unfold date_warning. destruct (has_column "fecha" df0); [|now split].
    destruct (converted_dates env df0); [|now split].
    cbn zeta. now destruct (0 <? _)%nat.
  - destruct (read_csv_file_raise env filepath e Hr) as [_ ->].
    unfold error_events. now destruct (exc_class e).
Qed.

Lemma validations_validate (d : DataFrame) :
  validations (printed (validate_data (Some d))) = [MsgValidating] /\
  none_validations (printed (validate_data (Some d))) = [].
Proof.
  unfold validate_data. destruct (empty d); [now split|].
  destruct (filter (fun col => negb (has_column col d)) required_colums);
    now split.
Qed.

Lemma validations_file_events (env : Env) (input_folder f : string) :
  validations (file_events env input_folder f) =
    (if is_parsed env input_folder f then [MsgValidating] else []) /\
  none_validations (file_events env input_folder f) = [].
Proof.
  unfold file_events, is_parsed.
  change (MsgProcessing f :: ?l) with ([MsgProcessing f] ++ l).
  destruct (validations_read env (os_path_join input_folder f)) as [H1 H2].
  unfold validations, none_validations in *. rewrite !filter_app, H1, H2.
  destruct (parsed env (os_path_join input_folder f)) as [d|]; [|now split].
  destruct (validations_validate d) as [H3 H4].
  unfold validations, none_validations in *. rewrite !filter_app, H3, H4.
  now destruct (passes d).
Qed.

Lemma validations_loop (env : Env) (input_folder : string)
  (csv_files : list string) :
  length (validations (flat_map (file_events env input_folder) csv_files)) =
    length (filter (is_parsed env input_folder) csv_files) /\
  none_validations (flat_map (file_events env input_folder) csv_files) = [].
Proof.
  induction csv_files as [|f rest [IH1 IH2]]; cbn [flat_map filter];
    [now split|].
  destruct (validations_file_events env input_folder f) as [H1 H2].
  unfold validations, none_validations in *. rewrite !filter_app, H1, H2, IH2.
  rewrite length_app, IH1.
  destruct (is_parsed env input_folder f); now split.
Qed.

Lemma validations_merge (env : Env) (n : nat) (combined : DataFrame) :
  validations (merge_events env n combined) = [] /\
  none_validations (merge_events env n combined) = [].
Proof.
  unfold merge_events. now destruct (date_range env combined) as [[lo hi]|e].
Qed.

(** X15.  In a run over a listed directory the validator is called once for
    each candidate file the parser gave a table for, and never for one it
    gave none for: the message of [validate_data] for a table that is not
    there is never printed. *)
Theorem validator_runs_on_parsed_tables_only (env : Env)
  (input_folder : string) (all_files : list string) (s : State) :
  os_listdir env input_folder = Ret all_files ->
  exists added,
    out (snd (process_all_files env input_folder s)) = out s ++ added /\
    length (validations added) =
      length (filter (is_parsed env input_folder) (csv_only all_files)) /\
    none_validations added = [].
Proof.
  intros Hl. destruct (nil_or_not (csv_only all_files)) as [E|Hcsv].
  - rewrite (process_all_files_no_csv _ _ _ _ Hl E), E. cbn [snd out].
    eexists. split; [reflexivity|]. now split.
  - destruct (process_all_files_outcome env input_folder all_files s Hl Hcsv)
      as [outcome [tail [-> Hres]]].
    cbn [snd out]. eexists. split; [reflexivity|].
    destruct (validations_loop env input_folder (csv_only all_files))
      as [H1 H2].
    assert (Ht : validations tail = [] /\ none_validations tail = []).
    { destruct outcome as [[combined|]|e].
      - destruct Hres as [_ [_ [_ ->]]]. apply validations_merge.
      - destruct Hres as [_ ->]. now split.
      - destruct Hres as [combined [_ [_ [_ ->]]]]. apply validations_merge. }
    destruct Ht as [Ht1 Ht2].
    unfold validations, none_validations in *.
    rewrite !filter_app, !length_app, H1, H2, Ht1, Ht2. unfold summary_events.
    destruct (failed_files _); cbn; split; (lia || reflexivity).
Qed.

(** ** When a table is returned *)

Lemma merged_nil_iff (env : Env) (input_folder : string)
  (csv_files : list string) (tick : nat) :
  merged env input_folder csv_files tick = [] <->
  forall f, In f csv_files -> is_accepted env input_folder f = false.
Proof.
  split; [|apply merged_all_rejected].
  intros Hm f Hf. unfold is_accepted.
  destruct (accepted env (os_path_join input_folder f)) as [df|] eqn:E;
    [|reflexivity].
  destruct (merged_In env input_folder _ f df Hf E tick) as [t Ht].
  rewrite Hm in Ht. destruct Ht.
Qed.

Lemma merged_some (env : Env) (input_folder : string)
  (csv_files : list string) (tick : nat) :
  merged env input_folder csv_files tick <> [] ->
  exists f, In f csv_files /\ is_accepted env input_folder f = true.
Proof.
  destruct (merged env input_folder csv_files tick) as [|d ds] eqn:E;
    [congruence|].
  intros _.
  assert (Hd : In d (merged env input_folder csv_files tick))
    by (rewrite E; now left).
  apply In_merged in Hd as [f [df [t [Hf [Ha _]]]]].
  exists f. split; [exact Hf|]. unfold is_accepted. now rewrite Ha.
Qed.

(** How the merge ends, from the collected tables. *)
Lemma merge_of_cases (env : Env) (frames : list DataFrame) :
  match merge_of env frames with
  | Ret None => frames = []
  | Ret (Some combined) =>
      pd_concat frames = Ret combined /\
      exists lo hi, date_range env combined = Ret (lo, hi)
  | Raise e =>
      exists combined,
        pd_concat frames = Ret combined /\ date_range env combined = Raise e
  end.
Proof.
  destruct frames as [|d ds]; [reflexivity|]. unfold merge_of.
  destruct (pd_concat (d :: ds)) as [combined|e] eqn:Hc; [|discriminate Hc].
  unfold merge_result.
  destruct (date_range env combined) as [[lo hi]|e] eqn:Hd; eauto.
Qed.

(** A run over a listed directory ends as the merge of what it collects. *)
Lemma process_all_files_ends (env : Env) (input_folder : string)
  (all_files : list string) (s : State) :
  os_listdir env input_folder = Ret all_files ->
  exists s',
    process_all_files env input_folder s =
    (merge_of env (merged env input_folder (csv_only all_files) (ticks s)), s').
Proof.
  intros Hl. destruct (nil_or_not (csv_only all_files)) as [E|Hcsv].
  - rewrite (process_all_files_no_csv _ _ _ _ Hl E), E. eexists. reflexivity.
  - rewrite <- (process_all_files_value _ _ _ _ Hl Hcsv).
    destruct (process_all_files env input_folder s) as [r s']. now exists s'.
Qed.

(** X16.  A run over a listed directory returns [None] exactly when no
    candidate file is collected.  When at least one is collected, the
    collected tables are concatenated; the run returns the combined table
    exactly when the first and the last of its dates can be computed, and
    otherwise raises the exception of that computation. *)
Theorem table_returned_iff_some_file_collected (env : Env)
  (input_folder : string) (all_files : list string) (s : State) :
  os_listdir env input_folder = Ret all_files ->
  let frames := merged env input_folder (csv_only all_files) (ticks s) in
  ((exists s', process_all_files env input_folder s = (Ret None, s')) <->
   (forall f, In f all_files -> endswith f ".csv" = true ->
              is_accepted env input_folder f = false)) /\
  (forall combined,
      (exists s',
          process_all_files env input_folder s = (Ret (Some combined), s')) <->
      (exists f, In f all_files /\ endswith f ".csv" = true /\
                 is_accepted env input_folder f = true) /\
      pd_concat frames = Ret combined /\
      exists lo hi, date_range env combined = Ret (lo, hi)) /\
  (forall e,
      (exists s', process_all_files env input_folder s = (Raise e, s')) <->
      (exists f, In f all_files /\ endswith f ".csv" = true /\
                 is_accepted env input_folder f = true) /\
      exists combined,
        pd_concat frames = Ret combined /\ date_range env combined = Raise e).
Proof.
  intros Hl frames.
  assert (Hin : forall f, In f (csv_only all_files) <->
                          In f all_files /\ endswith f ".csv" = true)
    by (intros f; unfold csv_only; rewrite filter_In; reflexivity).
  assert (Hnil : frames = [] <->
                 forall f, In f all_files -> endswith f ".csv" = true ->
                           is_accepted env input_folder f = false).
  { unfold frames. rewrite merged_nil_iff. split.
    - intros H f Hf He. apply H, Hin. now split.
    - intros H f Hf. apply Hin in Hf as [Hf He]. now apply H. }
  assert (Hsome : forall combined,
             pd_concat frames = Ret combined ->
             exists f, In f all_files /\ endswith f ".csv" = true /\
                       is_accepted env input_folder f = true).
  { intros combined Hc.
    destruct (merged_some env input_folder (csv_only all_files) (ticks s))
      as [f [Hf Ha]].
    - fold frames. intros E. rewrite E in Hc. discriminate.
    - exists f. apply Hin in Hf as [Hf He]. auto. }
  destruct (process_all_files_ends env input_folder all_files s Hl)
    as [s' Hrun].
  fold frames in Hrun. pose proof (merge_of_cases env frames) as Hm.
  rewrite Hrun. split; [|split].
  - rewrite <- Hnil. split.
    + intros [s'' H]. injection H as H _. rewrite H in Hm. exact Hm.
    + intros E. exists s'. rewrite E. reflexivity.
  - intros combined. split.
    + intros [s'' H]. injection H as H _. rewrite H in Hm.
      destruct Hm as [Hc Hd]. split; [exact (Hsome combined Hc)|]. now split.
    + intros [_ [Hc [lo [hi Hd]]]]. exists s'. f_equal.
      unfold merge_of. rewrite Hc. unfold merge_result. rewrite Hd.
      destruct frames; [discriminate Hc | reflexivity].
  - intros e. split.
    + intros [s'' H]. injection H as H _. rewrite H in Hm.
      destruct Hm as [combined [Hc Hd]].
      split; [exact (Hsome combined Hc)|]. now exists combined.
    + intros [_ [combined [Hc Hd]]]. exists s'. f_equal.
      unfold merge_of. rewrite Hc. unfold merge_result. rewrite Hd.
      destruct frames; [discriminate Hc | reflexivity].
Qed.

(** ** The further properties at work on the concrete directory *)

(** X3 on [a.csv]. *)
Lemma read_csv_file_touches_only_fecha_witness :
  pd_read_csv Demo.env "data/input/a.csv" = Ret Demo.a_csv /\
  exists df,
    eval (read_csv_file Demo.env "data/input/a.csv") = Ret (Some df) /\
    len df = 2 /\
    columns df = columns Demo.a_csv /\
    getitem "operario" df = Ret [CStr "Ana"; CStr "Luis"].
Proof.
  split; [reflexivity|].
  destruct (read_csv_file_touches_only_fecha Demo.env "data/input/a.csv"
              Demo.a_csv eq_refl) as [_ [Hsame _]].
  destruct (eval (read_csv_file Demo.env "data/input/a.csv"))
    as [[df|]|e] eqn:E; [| vm_compute in E; discriminate E ..].
  destruct (Hsame df eq_refl) as [Hlen [Hcols Hother]].
  exists df. split; [reflexivity|]. split; [exact Hlen|].
  split; [exact Hcols|].
  rewrite Hother; [reflexivity | discriminate].
Defined.

(** X4 on [dates.csv]. *)
Lemma fecha_column_normalized_witness :
  exists df,
    eval (read_csv_file Demo.env "data/input/dates.csv") = Ret (Some df) /\
    getitem "fecha" df = Ret [CTime 96; CNaT; CNaT] /\
    (In (WarnInvalidDates 2)
        (printed (read_csv_file Demo.env "data/input/dates.csv")) <->
     2 = 2 /\ 0 < 2).
Proof.
  destruct (eval (read_csv_file Demo.env "data/input/dates.csv"))
    as [[df|]|e] eqn:E; [| vm_compute in E; discriminate E ..].
  assert (Hf : getitem "fecha" df = Ret [CTime 96; CNaT; CNaT]).
  { vm_compute in E. injection E as <-. reflexivity. }
  exists df. split; [reflexivity|]. split; [exact Hf|].
  exact (proj2 (fecha_column_normalized Demo.env "data/input/dates.csv" df
                  [CTime 96; CNaT; CNaT] E Hf) 2).
Defined.

(** X5 and X6 on [data/input]. *)
Lemma source_column_names_files_witness :
  os_listdir Demo.env "data/input" = Ret demo_entries /\
  exists combined s',
    process_all_files Demo.env "data/input" initial
      = (Ret (Some combined), s') /\
    getitem "archivo_origen" combined =
      Ret [CStr "a.csv"; CStr "a.csv";
           CStr "dates.csv"; CStr "dates.csv"; CStr "dates.csv"].
Proof.
  split; [reflexivity|].
  destruct (process_all_files Demo.env "data/input" initial)
    as [[[combined|]|e] s'] eqn:E; [| vm_compute in E; discriminate E ..].
  exists combined, s'. split; [reflexivity|].
  exact (source_column_names_files Demo.env "data/input" demo_entries
           initial s' combined eq_refl E).
Defined.

Lemma timestamp_column_one_reading_per_file_witness :
  os_listdir Demo.env "data/input" = Ret demo_entries /\
  exists combined s',
    process_all_files Demo.env "data/input" initial
      = (Ret (Some combined), s') /\
    getitem "fecha_procesamiento" combined =
      Ret [CTime 1000; CTime 1000; CTime 1001; CTime 1001; CTime 1001] /\
    ticks s' = 2.
Proof.
  split; [reflexivity|].
  destruct (process_all_files Demo.env "data/input" initial)
    as [[[combined|]|e] s'] eqn:E; [| vm_compute in E; discriminate E ..].
  exists combined, s'. split; [reflexivity|].
  exact (timestamp_column_one_reading_per_file Demo.env "data/input"
           demo_entries initial s' combined eq_refl E).
Defined.

(** X7 on [lotes]: [l1.csv] has a column of integers that [l2.csv] lacks;
    the integer 2^53 + 1 comes back as the float 2^53. *)
Lemma data_columns_concatenated_witness :
  os_listdir Demo.env "lotes" = Ret ["l1.csv"; "l2.csv"] /\
  getitem "lote" Demo.l1_csv = Ret [CInt 9007199254740993] /\
  exists combined s',
    process_all_files Demo.env "lotes" initial
      = (Ret (Some combined), s') /\
    In "lote" (columns combined) /\
    getitem "lote" combined = Ret [CFloat 4503599627370496 1; CNaN] /\
    getitem "turno" combined = Ret [CStr "M"; CStr "T"].
Proof.
  split; [reflexivity|]. split; [reflexivity|].
  destruct (process_all_files Demo.env "lotes" initial)
    as [[[combined|]|e] s'] eqn:E; [| vm_compute in E; discriminate E ..].
  exists combined, s'. split; [reflexivity|].
  pose proof (data_columns_concatenated Demo.env "lotes" ["l1.csv"; "l2.csv"]
                initial s' combined eq_refl E) as H.
  assert (Hnp : forall c, c = "lote" \/ c = "turno" ->
                          ~ In c provenance_colums).
  { intros c [->| ->] [H0|[H0|[]]]; discriminate H0. }
  assert (Hc : forall c, c = "lote" \/ c = "turno" -> In c (columns combined)).
  { intros c Hc0. apply (proj1 (H c)). right.
    exists "l1.csv", (normalized Demo.env Demo.l1_csv).
    split; [now left|]. split; [reflexivity|].
    destruct Hc0 as [->| ->]; vm_compute; auto 10. }
  split; [apply Hc; now left|]. split.
  - exact (proj1 (proj2 (H "lote") (Hnp _ (or_introl eq_refl))
                    (Hc _ (or_introl eq_refl)))).
  - exact (proj2 (proj2 (H "turno") (Hnp _ (or_intror eq_refl))
                    (Hc _ (or_intror eq_refl))) eq_refl).
Defined.


(** X9 on a directory with [a.csv] as its one good file. *)
Lemma single_collected_file_witness :
  os_listdir demo_one_good "data/input" = Ret ["b.csv"; "a.csv"; "notas.txt"] /\
  accepted demo_one_good (os_path_join "data/input" "a.csv")
    = Some (normalized Demo.env Demo.a_csv) /\
  NoDup (columns (normalized Demo.env Demo.a_csv)) /\
  exists s',
    process_all_files demo_one_good "data/input" initial =
    (Ret (Some (stamp "a.csv" 1000 (normalized Demo.env Demo.a_csv))), s').
Proof.
  assert (Hnd : NoDup (columns (normalized Demo.env Demo.a_csv))).
  { repeat constructor; cbn; intros H;
      repeat (destruct H as [H|H]; [discriminate H|]); exact H. }
  split; [reflexivity|]. split; [reflexivity|]. split; [exact Hnd|].
  exact (single_collected_file demo_one_good "data/input"
           ["b.csv"; "a.csv"; "notas.txt"] initial "a.csv"
           (normalized Demo.env Demo.a_csv) eq_refl eq_refl eq_refl Hnd).
Defined.

(** X10 on [data/input]: six paths are read, [notas.txt] is not. *)
Lemma only_csv_entries_are_read_witness :
  os_listdir Demo.env "data/input" = Ret demo_entries /\
  readings (out (snd (process_all_files Demo.env "data/input" initial))) =
  ["data/input/a.csv"; "data/input/b.csv"; "data/input/zero.csv";
   "data/input/header.csv"; "data/input/dates.csv"; "data/input/broken.csv"].
Proof.
  split; [reflexivity|].
  exact (only_csv_entries_are_read Demo.env "data/input" demo_entries initial
           eq_refl).
Defined.

(** X11 on a path that is a regular file. *)
Lemma init_does_not_check_directory_witness :
  os_path_exists DemoOS.os DemoOS.world "datos.csv" = true /\
  __init__ DemoOS.os "datos.csv" DemoOS.world =
    (Ret (DemoOS.world, {| self_input_folder := "datos.csv" |}),
     [MsgInitialized "datos.csv"]) /\
  call_process_all_files DemoOS.os DemoOS.world Demo.env
    {| self_input_folder := "datos.csv" |} initial =
  (Raise (mkExc (OtherException "NotADirectoryError") "datos.csv"),
   {| out := [MsgSearching "datos.csv"]; ticks := 0 |}).
Proof.
  split; [reflexivity|].
  refine (init_does_not_check_directory DemoOS.os "datos.csv" DemoOS.world
            Demo.env initial
            (mkExc (OtherException "NotADirectoryError") "datos.csv")
            eq_refl eq_refl _ _); discriminate.
Defined.

(** X12 and X13 on a file system without [data/input]. *)
Lemma init_twice_witness :
  __init__ DemoOS.os "data/input" DemoOS.world =
    (Ret (("data/input", DemoOS.Directory []) :: DemoOS.world,
          {| self_input_folder := "data/input" |}),
     [MsgFolderCreated "data/input"; MsgInitialized "data/input"]) /\
  __init__ DemoOS.os "data/input" (("data/input", DemoOS.Directory []) :: DemoOS.world) =
    (Ret (("data/input", DemoOS.Directory []) :: DemoOS.world,
          {| self_input_folder := "data/input" |}),
     [MsgInitialized "data/input"]).
Proof.
  split; [reflexivity|].
  exact (init_twice DemoOS.os DemoOS_makedirs_creates
           "data/input" DemoOS.world _ _ _ eq_refl).
Defined.

Lemma fresh_folder_has_no_data_witness :
  os_path_exists DemoOS.os DemoOS.world "data/input" = false /\
  call_process_all_files DemoOS.os (("data/input", DemoOS.Directory []) :: DemoOS.world)
    Demo.env {| self_input_folder := "data/input" |} initial =
  (Ret None,
   {| out := [MsgSearching "data/input"; MsgFound 0; MsgCsvFound 0;
              WarnNoCsv; HintCopy "data/input"];
      ticks := 0 |}).
Proof.
  split; [reflexivity|].
  exact (fresh_folder_has_no_data DemoOS.os DemoOS_makedirs_empty
           "data/input" DemoOS.world _ _ _ Demo.env initial eq_refl eq_refl).
Defined.

(** X15 on [data/input]: the parser gives a table for four of the six
    candidates. *)
Lemma validator_runs_on_parsed_tables_only_witness :
  os_listdir Demo.env "data/input" = Ret demo_entries /\
  exists added,
    out (snd (process_all_files Demo.env "data/input" initial)) =
      out initial ++ added /\
    length (validations added) = 4 /\
    none_validations added = [].
Proof.
  split; [reflexivity|].
  exact (validator_runs_on_parsed_tables_only Demo.env "data/input"
           demo_entries initial eq_refl).
Defined.

(** X16 on [data/input], where [a.csv] and [dates.csv] are collected and
    the dates have no time zone. *)
Lemma table_returned_iff_some_file_collected_witness :
  os_listdir Demo.env "data/input" = Ret demo_entries /\
  exists combined s',
    process_all_files Demo.env "data/input" initial
      = (Ret (Some combined), s') /\
    (exists f, In f demo_entries /\ endswith f ".csv" = true /\
               is_accepted Demo.env "data/input" f = true) /\
    date_range Demo.env combined = Ret (CTime 24, CTime 96).
Proof.
  split; [reflexivity|].
  destruct (process_all_files Demo.env "data/input" initial)
    as [[[combined|]|e] s'] eqn:E; [| vm_compute in E; discriminate E ..].
  exists combined, s'. split; [reflexivity|].
  destruct (table_returned_iff_some_file_collected Demo.env "data/input"
              demo_entries initial eq_refl) as [_ [Hsome _]].
  rewrite E in Hsome.
  destruct (proj1 (Hsome combined) (ex_intro _ s' eq_refl)) as [Hf _].
  split; [exact Hf|].
  vm_compute in E. injection E as <- _. reflexivity.
Defined.

(** ** The provenance columns *)

Lemma assigned_absent (k : string) (names : list string) :
  ~ In k names -> assigned k names = names ++ [k].
Proof.
  intros Hk. unfold assigned.
  destruct (existsb (String.eqb k) names) eqn:E; [|reflexivity].
  exfalso. apply Hk. apply existsb_exists in E as [x [Hx Heq]].
  apply String.eqb_eq in Heq. now subst.
Qed.

Lemma assigned_present (k : string) (names : list string) :
  In k names -> assigned k names = names.
Proof.
  intros Hk. unfold assigned.
  destruct (existsb (String.eqb k) names) eqn:E; [reflexivity|].
  exfalso. apply Bool.not_true_iff_false in E. apply E.
  apply existsb_exists. exists k. split; [exact Hk | apply String.eqb_refl].
Qed.

(** X17.  The turn of the loop for a collected file writes the file name and
    one reading of the clock on every row of its table, and leaves the rows
    count and every other column as they were.  The two columns are added at
    the end of the table, the source first, when the table has no column of
    these names; a column of the table that has one of these names is
    overwritten in place. *)
Theorem provenance_columns_written (env : Env) (input_folder : string)
  (acc : Lists) (filename : string) (s : State) (df : DataFrame) :
  accepted env (os_path_join input_folder filename) = Some df ->
  exists d s',
    process_file env input_folder acc filename s =
      (Ret {| valid_dataframes := valid_dataframes acc ++ [d];
              processed_files := processed_files acc ++ [filename];
              failed_files := failed_files acc |}, s') /\
    len d = len df /\
    getitem "archivo_origen" d = Ret (repeat (CStr filename) (len df)) /\
    getitem "fecha_procesamiento" d =
      Ret (repeat (CTime (clock env (ticks s))) (len df)) /\
    (forall c, ~ In c provenance_colums -> getitem c d = getitem c df) /\
    (~ In "archivo_origen" (columns df) ->
     ~ In "fecha_procesamiento" (columns df) ->
     columns d = columns df ++ ["archivo_origen"; "fecha_procesamiento"]) /\
    (In "archivo_origen" (columns df) ->
     In "fecha_procesamiento" (columns df) ->
     columns d = columns df).
Proof.
  intros Ha. exists (stamp filename (clock env (ticks s)) df). eexists.
  split; [now apply process_file_accepted|]. split; [reflexivity|].
  unfold stamp, setitem_scalar, setitem, getitem, len. cbn [cols nrows].
  split; [|split; [|split; [|split]]].
  - rewrite assoc_get_set_other by discriminate.
    now rewrite assoc_get_set_same.
  - now rewrite assoc_get_set_same.
  - intros c Hc.
    rewrite !assoc_get_set_other; [reflexivity | |]; intros ->; apply Hc;
      cbn; auto.
  - intros H1 H2. unfold columns. cbn [cols]. rewrite !assoc_set_names.
    fold (columns df). rewrite (assigned_absent _ _ H1).
    rewrite assigned_absent.
    + now rewrite <- app_assoc.
    + intros Hin. apply in_app_or in Hin as [Hin|[Hin|[]]];
        [contradiction | discriminate].
  - intros H1 H2. unfold columns. cbn [cols]. rewrite !assoc_set_names.
    fold (columns df). rewrite (assigned_present _ _ H1).
    now apply assigned_present.
Qed.

(** ** Tables of one shape *)

Lemma filter_filter {A : Type} (p q : A -> bool) (l : list A) :
  filter p (filter q l) = filter (fun x => p x && q x) l.
Proof.
  induction l as [|x t IH]; cbn; [reflexivity|].
  destruct (q x); cbn; rewrite ?andb_true_r, ?andb_false_r;
    [destruct (p x)|]; now rewrite IH.
Qed.

Lemma dedup_app (l m : list string) :
  dedup (l ++ m) =
  dedup l ++ filter (fun y => negb (existsb (String.eqb y) l)) (dedup m).
Proof.
  induction l as [|x t IH]; cbn [app dedup existsb].
  - cbn. symmetry. apply forallb_filter_id. now apply forallb_forall.
  - rewrite IH, filter_app, filter_filter. cbn [app]. do 2 f_equal.
    apply filter_ext. intros y. rewrite negb_orb.
    now rewrite (String.eqb_sym y x).
Qed.

Lemma union_columns_uniform (cs : list string) (frames : list DataFrame) :
  NoDup cs -> frames <> [] ->
  (forall d, In d frames -> columns d = cs) ->
  union_columns frames = cs.
Proof.
  intros Hnd Hne Hall. unfold union_columns.
  destruct frames as [|d ds]; [congruence|]. clear Hne.
  cbn [flat_map]. rewrite dedup_app, (Hall d) by now left.
  rewrite (dedup_NoDup _ Hnd).
  transitivity (cs ++ []); [f_equal | apply app_nil_r].
  apply (proj1 (length_zero_iff_nil _)), Nat.le_0_r.
  assert (Hsub : forall y, In y (dedup (flat_map columns ds)) -> In y cs).
  { intros y Hy. apply In_dedup, in_flat_map in Hy as [d' [Hd' Hy]].
    rewrite (Hall d') in Hy by now right. exact Hy. }
  induction (dedup (flat_map columns ds)) as [|y t IH]; cbn; [lia|].
  assert (Hy : existsb (String.eqb y) cs = true).
  { apply existsb_exists. exists y. split; [apply Hsub; now left|].
    apply String.eqb_refl. }
  rewrite Hy. cbn. apply IH. intros z Hz. apply Hsub. now right.
Qed.

(** X18.  When the collected tables all have the same columns, with distinct
    names, the returned table has these columns in this order, with the two
    provenance columns written as on each collected table. *)
Theorem uniform_tables_give_uniform_result (env : Env) (input_folder : string)
  (all_files : list string) (s s' : State) (combined : DataFrame)
  (cs : list string) :
  os_listdir env input_folder = Ret all_files ->
  process_all_files env input_folder s = (Ret (Some combined), s') ->
  NoDup cs ->
  (forall f df, In f (csv_only all_files) ->
                accepted env (os_path_join input_folder f) = Some df ->
                columns df = cs) ->
  columns combined =
    assigned "fecha_procesamiento" (assigned "archivo_origen" cs) /\
  (~ In "archivo_origen" cs -> ~ In "fecha_procesamiento" cs ->
   columns combined = cs ++ ["archivo_origen"; "fecha_procesamiento"]).
Proof.
  intros Hl Hrun Hnd Hall. destruct (run_result _ _ _ _ _ _ Hl Hrun) as [Hc _].
  assert (Hcols : columns combined =
                  assigned "fecha_procesamiento" (assigned "archivo_origen" cs)).
  { rewrite (pd_concat_columns _ _ Hc). apply union_columns_uniform.
    - now apply NoDup_assigned, NoDup_assigned.
    - intros E. rewrite E in Hc. discriminate.
    - intros d Hd. apply In_merged in Hd as [f [df [t [Hf [Ha ->]]]]].
      rewrite columns_stamp. now rewrite (Hall f df Hf Ha). }
  split; [exact Hcols|]. intros H1 H2. rewrite Hcols.
  rewrite (assigned_absent _ _ H1), assigned_absent.
  - now rewrite <- app_assoc.
  - intros Hin. apply in_app_or in Hin as [Hin|[Hin|[]]];
      [contradiction | discriminate].
Qed.

(** X17 on [a.csv]. *)
Lemma provenance_columns_written_witness :
  accepted Demo.env (os_path_join "data/input" "a.csv")
    = Some (normalized Demo.env Demo.a_csv) /\
  exists d,
    fst (process_file Demo.env "data/input" no_lists "a.csv" initial) =
      Ret {| valid_dataframes := [d];
             processed_files := ["a.csv"];
             failed_files := [] |} /\
    getitem "archivo_origen" d = Ret [CStr "a.csv"; CStr "a.csv"] /\
    getitem "fecha_procesamiento" d = Ret [CTime 1000; CTime 1000] /\
    columns d =
      ["fecha"; "turno"; "maquina"; "produccion_unidades"; "operario";
       "archivo_origen"; "fecha_procesamiento"].
Proof.
  split; [reflexivity|].
  destruct (provenance_columns_written Demo.env "data/input" no_lists "a.csv"
              initial (normalized Demo.env Demo.a_csv) eq_refl)
    as [d [s' [Hrun [_ [Hsrc [Hts [_ [Hcols _]]]]]]]].
  exists d. split; [now rewrite Hrun|]. split; [exact Hsrc|].
  split; [exact Hts|]. apply Hcols; cbn; intros H;
    repeat (destruct H as [H|H]; [discriminate H|]); exact H.
Defined.

(** X18 on [data/input]: both collected tables have the five required
    columns and no other. *)
Lemma uniform_tables_give_uniform_result_witness :
  os_listdir Demo.env "data/input" = Ret demo_entries /\
  NoDup required_colums /\
  exists combined s',
    process_all_files Demo.env "data/input" initial
      = (Ret (Some combined), s') /\
    columns combined =
      required_colums ++ ["archivo_origen"; "fecha_procesamiento"].
Proof.
  assert (Hnd : NoDup required_colums).
  { repeat constructor; cbn; intros H;
      repeat (destruct H as [H|H]; [discriminate H|]); exact H. }
  split; [reflexivity|]. split; [exact Hnd|].
  destruct (process_all_files Demo.env "data/input" initial)
    as [[[combined|]|e] s'] eqn:E; [| vm_compute in E; discriminate E ..].
  exists combined, s'. split; [reflexivity|].
  apply (uniform_tables_give_uniform_result Demo.env "data/input"
           demo_entries initial s' combined required_colums eq_refl E Hnd).
  - intros f df Hin Ha. vm_compute in Hin.
    repeat (destruct Hin as [Hin|Hin];
            [subst f; vm_compute in Ha;
             first [discriminate Ha | injection Ha as <-; reflexivity]|]).
    destruct Hin.
  - cbn. intros H. repeat (destruct H as [H|H]; [discriminate H|]). exact H.
  - cbn. intros H. repeat (destruct H as [H|H]; [discriminate H|]). exact H.
Defined.
